(** * HyperMageVR: session admission and reward integrity core

    A shallow embedding of the server-side core of the HyperMageVR Unreal
    project (Source/HyperMageVR): the JWT validator, the session manager,
    the reward system and the admission path of the game mode, followed by
    the properties of these components.

    Conventions of the embedding.
    - [FString] is a Rocq [string]. The engine's comparison operators on
      [FString] ignore ASCII letter case; they are modelled by [FString.eq].
    - [TMap<FString, V>] is a [gmap string V] addressed through
      [FString.key], because the engine hashes and matches [FString] keys
      with the same case-insensitive comparison.
    - [TArray<T>] is a [list T]; [Add] appends at the end.
    - [int32]/[int64] values are [Z]; [FDateTime] and [FTimespan] are their
      tick counts (100 ns units).
    - Output parameters ([FString& Out...], [FJWTClaims& OutClaims]) become
      an input holding the caller's value and a component of the result.
    - Non-deterministic engine calls ([FGuid::NewGuid], [FDateTime::UtcNow])
      become explicit arguments of the operation that makes the call.
    - Logging ([UE_LOG]) changes no state and is left out. *)

From Stdlib Require Import ZArith Ascii String.
From stdpp Require Import gmap strings list pretty.

Local Open Scope Z_scope.
#[local] Set Warnings "-register-all".

(* ===================================================================== *)
(** * Engine strings *)
(* ===================================================================== *)

Module FString.

(** The folding of one character in [FCString::Stricmp]: the letters A to Z
    go to lower case, every other character is kept. *)
Definition ToLowerChar (c : ascii) : ascii :=
  let n := nat_of_ascii c in
  if ((65 <=? n)%nat && (n <=? 90)%nat)%bool then ascii_of_nat (n + 32) else c.

Fixpoint ToLower (s : string) : string :=
  match s with
  | EmptyString => EmptyString
  | String c r => String (ToLowerChar c) (ToLower r)
  end.

(** [operator==] on [FString], with an [FString] or a [const TCHAR*] on the
    other side. The engine (Containers/UnrealString.h) defines the first as
    [Lhs.Equals(Rhs, ESearchCase::IgnoreCase)] and the second through
    [FCString::Stricmp]: two strings are equal when they have the same length
    and agree, position by position, once ASCII letters are folded. The
    sources never ask for the case-sensitive comparison
    ([Equals(Other, ESearchCase::CaseSensitive)]). *)
Definition eq (a b : string) : bool := String.eqb (ToLower a) (ToLower b).

(** [operator!=]: the negation of [operator==]. *)
Definition ne (a b : string) : bool := negb (eq a b).

(** [FString::IsEmpty]. *)
Definition IsEmpty (s : string) : bool :=
  match s with EmptyString => true | String _ _ => false end.

(** The key under which a [TMap<FString, V>] files an [FString]: the default
    key functions hash with a case-insensitive hash and match keys with
    [operator==], so two spellings of a string that differ by letter case
    designate the same entry. *)
Definition key (s : string) : string := ToLower s.

(** [TArray<FString>::Contains]: linear search with [operator==]. *)
Definition Contains (l : list string) (x : string) : bool :=
  existsb (fun y => eq y x) l.

(** [FString::Replace] of one single-character pattern by another; the two
    patterns used by the sources ("-" and "_") have no letter case. *)
Fixpoint ReplaceChar (from to : ascii) (s : string) : string :=
  match s with
  | EmptyString => EmptyString
  | String c r =>
      String (if Ascii.eqb c from then to else c) (ReplaceChar from to r)
  end.

(** [AppendChar] repeated [n] times. *)
Fixpoint AppendChars (s : string) (c : ascii) (n : nat) : string :=
  match n with
  | O => s
  | S k => AppendChars (s +:+ String c EmptyString) c k
  end.

(** The scanning loop of [FString::ParseIntoArray(OutArray, pchDelim,
    InCullEmpty)] for a one-character delimiter and [InCullEmpty = true],
    the default value of the third parameter, which is what the call
    [Token.ParseIntoArray(Parts, TEXT("."))] gets. The engine searches the
    next delimiter from [Start], adds the text in between to the array unless
    culling is on and that text is empty, and moves [Start] past the
    delimiter; after the last delimiter the rest of the string is added under
    the same condition. [cur] is the text between [Start] and the scanning
    position. *)
Fixpoint ParseIntoArray_loop (delim : ascii) (s cur : string) : list string :=
  match s with
  | EmptyString => if IsEmpty cur then [] else [cur]
  | String c r =>
      if Ascii.eqb c delim
      then (if IsEmpty cur
            then ParseIntoArray_loop delim r EmptyString
            else cur :: ParseIntoArray_loop delim r EmptyString)
      else ParseIntoArray_loop delim r (cur +:+ String c EmptyString)
  end.

Definition ParseIntoArray (s : string) (delim : ascii) : list string :=
  ParseIntoArray_loop delim s EmptyString.

(** The fields of [s] separated by [delim], empty fields included: a string
    with [n] delimiters has [n + 1] fields. This is the reading of
    "dot-separated segments" that the token format uses. *)
Fixpoint Fields_loop (delim : ascii) (s cur : string) : list string :=
  match s with
  | EmptyString => [cur]
  | String c r =>
      if Ascii.eqb c delim
      then cur :: Fields_loop delim r EmptyString
      else Fields_loop delim r (cur +:+ String c EmptyString)
  end.

Definition Fields (s : string) (delim : ascii) : list string :=
  Fields_loop delim s EmptyString.

Definition NonEmpty (s : string) : bool := negb (IsEmpty s).

(** [Free d s]: the string [s] has no occurrence of [d]. *)
Fixpoint Free (d : ascii) (s : string) : Prop :=
  match s with
  | EmptyString => True
  | String c r => Ascii.eqb c d = false /\ Free d r
  end.

End FString.

(* ===================================================================== *)
(** * Engine time *)
(* ===================================================================== *)

Module FDateTime.

(** [ETimespan::TicksPerSecond] and [ETimespan::TicksPerHour]. *)
Definition TicksPerSecond : Z := 10000000.
Definition TicksPerHour : Z := 36000000000.

(** Ticks of [FDateTime(1970, 1, 1)]. *)
Definition UnixEpochTicks : Z := 621355968000000000.

(** Ticks of [FDateTime::MaxValue()] (end of year 9999). *)
Definition MaxTicks : Z := 3155378975999999999.

(** Two's-complement wrap of [int64] arithmetic. *)
Definition wrap64 (z : Z) : Z := (z + 2^63) mod 2^64 - 2^63.

(** [FTimespan::FromHours] at a whole number of hours. *)
Definition FromHours (h : Z) : Z := wrap64 (h * TicksPerHour).

(** [FDateTime::operator+(const FTimespan&)]. *)
Definition add (t span : Z) : Z := wrap64 (t + span).

(** [FDateTime::ToUnixTimestamp]: [int64] division truncates toward zero. *)
Definition ToUnixTimestamp (t : Z) : Z :=
  Z.quot (wrap64 (t - UnixEpochTicks)) TicksPerSecond.

End FDateTime.

(* ===================================================================== *)
(** * JWTValidator.h / JWTValidator.cpp *)
(* ===================================================================== *)

(** The engine services the validator calls and whose code is not part of
    the project: Base64 decoding and the JSON reader. *)
Class JsonEngine := {
  (** [FBase64::Decode] followed by the UTF-8 conversion of the bytes;
      [None] when [Decode] returns false. *)
  Base64_Decode : string -> option string;
  FJsonObject : Type;
  FJsonValue : Type;
  (** [FJsonSerializer::Deserialize] with the validity test of the result. *)
  Deserialize : string -> option FJsonObject;
  TryGetStringField : FJsonObject -> string -> option string;
  (** The [int32] overload of [TryGetNumberField]. *)
  TryGetNumberField : FJsonObject -> string -> option Z;
  TryGetArrayField : FJsonObject -> string -> option (list FJsonValue);
  TryGetString : FJsonValue -> option string
}.

Module FJWTClaims.
Record t := mk {
  Subject : string;
  Issuer : string;
  Audience : string;
  ExpirationTime : Z;
  IssuedAt : Z;
  TokenUse : string;
  Username : string;
  Groups : list string
}.

(** A default-initialised [FJWTClaims]: the strings and the array are
    empty, the two [int64] members have no initialiser and hold whatever
    the storage held. *)
Definition fresh (exp0 iat0 : Z) : t :=
  mk "" "" "" exp0 iat0 "" "" [].
End FJWTClaims.

Module FJWTValidationResult.
Record t := mk {
  bIsValid : bool;
  ErrorMessage : string;
  Claims : FJWTClaims.t
}.

Definition fresh (exp0 iat0 : Z) : t :=
  mk false "" (FJWTClaims.fresh exp0 iat0).
End FJWTValidationResult.

(** The static members of [UJWTValidator]. *)
Module CognitoConfig.
Record t := mk {
  CognitoUserPoolId : string;
  CognitoRegion : string;
  CognitoClientId : string;
  CognitoIssuer : string
}.

(** The state before any call of [SetCognitoConfig]. *)
Definition unset : t := mk "" "" "" "".
End CognitoConfig.

Module UJWTValidator.
Import FJWTClaims FJWTValidationResult CognitoConfig.

Definition SetCognitoConfig (UserPoolId Region ClientId : string) : CognitoConfig.t :=
  CognitoConfig.mk UserPoolId Region ClientId
    ("https://cognito-idp." +:+ Region +:+ ".amazonaws.com/" +:+ UserPoolId).

(** [IsTokenExpired]; [UtcNow] is the clock reading taken by the call. *)
Definition IsTokenExpired (UtcNow : Z) (ExpirationTime : Z) : bool :=
  let CurrentTime := FDateTime.ToUnixTimestamp UtcNow in
  ExpirationTime <=? CurrentTime.

(** [ParseToken]: [None] is the [false] return, which leaves the three
    output strings untouched. *)
Definition ParseToken (Token : string) : option (string * string * string) :=
  match FString.ParseIntoArray Token "." with
  | [Header; Payload; Signature] => Some (Header, Payload, Signature)
  | _ => None
  end.

Definition DecodeBase64URL `{JsonEngine} (Input : string) : option string :=
  let Base64 := FString.ReplaceChar "-" "+" Input in
  let Base64 := FString.ReplaceChar "_" "/" Base64 in
  let PaddingNeeded := ((4 - (String.length Base64 mod 4)) mod 4)%nat in
  let Base64 := FString.AppendChars Base64 "=" PaddingNeeded in
  Base64_Decode Base64.

(** The loop over ["cognito:groups"]: every element that reads as a string
    is appended to the groups already in [OutClaims]. *)
Definition AddGroups `{JsonEngine} (Groups : list string) (GroupsArray : list FJsonValue)
  : list string :=
  fold_left
    (fun acc GroupValue =>
       match TryGetString GroupValue with
       | Some Group => acc ++ [Group]
       | None => acc
       end)
    GroupsArray Groups.

(** The extraction part of [ParseClaims]: a field that is absent (or of the
    wrong type) leaves the corresponding member of [OutClaims] as it was. *)
Definition ExtractClaims `{JsonEngine} (JsonObject : FJsonObject) (OutClaims : FJWTClaims.t)
  : FJWTClaims.t :=
  {| Subject := default (Subject OutClaims) (TryGetStringField JsonObject "sub");
     Issuer := default (Issuer OutClaims) (TryGetStringField JsonObject "iss");
     Audience := default (Audience OutClaims) (TryGetStringField JsonObject "aud");
     ExpirationTime :=
       default (ExpirationTime OutClaims) (TryGetNumberField JsonObject "exp");
     IssuedAt := default (IssuedAt OutClaims) (TryGetNumberField JsonObject "iat");
     TokenUse := default (TokenUse OutClaims) (TryGetStringField JsonObject "token_use");
     Username :=
       default (Username OutClaims) (TryGetStringField JsonObject "cognito:username");
     Groups :=
       match TryGetArrayField JsonObject "cognito:groups" with
       | Some GroupsArray => AddGroups (Groups OutClaims) GroupsArray
       | None => Groups OutClaims
       end |}.

(** [ParseClaims]: [None] is the [false] return; both [false] returns
    precede the first write to [OutClaims]. *)
Definition ParseClaims `{JsonEngine} (PayloadJson : string) (OutClaims : FJWTClaims.t)
  : option FJWTClaims.t :=
  match DecodeBase64URL PayloadJson with
  | None => None
  | Some DecodedPayload =>
      match Deserialize DecodedPayload with
      | None => None
      | Some JsonObject => Some (ExtractClaims JsonObject OutClaims)
      end
  end.

(** [VerifySignature]: the development stub. *)
Definition VerifySignature (Header Payload Signature : string) : bool := true.

(** [ValidateClaims]: the result and the value of [OutErrorMessage]. *)
Definition ValidateClaims (cfg : CognitoConfig.t) (C : FJWTClaims.t)
    (OutErrorMessage : string) : bool * string :=
  if negb (FString.IsEmpty (CognitoIssuer cfg))
     && FString.ne (Issuer C) (CognitoIssuer cfg)
  then (false, "Invalid issuer: expected " +:+ CognitoIssuer cfg
               +:+ ", got " +:+ Issuer C)
  else if negb (FString.IsEmpty (CognitoClientId cfg))
          && FString.ne (Audience C) (CognitoClientId cfg)
  then (false, "Invalid audience: expected " +:+ CognitoClientId cfg
               +:+ ", got " +:+ Audience C)
  else if FString.ne (TokenUse C) "access" && FString.ne (TokenUse C) "id"
  then (false, "Invalid token_use: " +:+ TokenUse C)
  else if FString.IsEmpty (Subject C)
  then (false, "Missing subject (player ID)")
  else (true, OutErrorMessage).

(** [ValidateToken]. [OutResult] is the caller's struct; [UtcNow] is the
    clock reading of the expiration check. *)
Definition ValidateToken `{JsonEngine} (cfg : CognitoConfig.t) (UtcNow : Z)
    (Token : string) (OutResult : FJWTValidationResult.t)
  : bool * FJWTValidationResult.t :=
  let C0 := Claims OutResult in
  if FString.IsEmpty Token
  then (false, FJWTValidationResult.mk false "Token is empty" C0)
  else
    match ParseToken Token with
    | None => (false, FJWTValidationResult.mk false "Invalid token format" C0)
    | Some (Header, Payload, Signature) =>
        match ParseClaims Payload C0 with
        | None =>
            (false, FJWTValidationResult.mk false "Failed to parse token claims" C0)
        | Some C =>
            if IsTokenExpired UtcNow (ExpirationTime C)
            then (false, FJWTValidationResult.mk false "Token has expired" C)
            else
              match ValidateClaims cfg C "" with
              | (false, msg) => (false, FJWTValidationResult.mk false msg C)
              | (true, msg) =>
                  if negb (FString.IsEmpty (CognitoUserPoolId cfg))
                     && negb (VerifySignature Header Payload Signature)
                  then (false, FJWTValidationResult.mk false
                                 "Token signature verification failed" C)
                  else (true, FJWTValidationResult.mk true msg C)
              end
        end
    end.

(** The canonical spelling of a token with the given three parts:
    ["header.payload.signature"]. *)
Definition join3 (h p s : string) : string :=
  h +:+ String "." (p +:+ String "." s).

(** [DecodeToken]: [None] is the [false] return, [OutClaims] untouched. *)
Definition DecodeToken `{JsonEngine} (Token : string) (OutClaims : FJWTClaims.t)
  : option FJWTClaims.t :=
  match ParseToken Token with
  | None => None
  | Some (Header, Payload, Signature) => ParseClaims Payload OutClaims
  end.

End UJWTValidator.

(* ===================================================================== *)
(** * Maps keyed by [FString] *)
(* ===================================================================== *)

Module TMap.

(** [TMap<FString, V>::Find]. *)
Definition Find {V} (m : gmap string V) (k : string) : option V :=
  m !! FString.key k.

(** [TMap<FString, V>::Add]: an existing pair with a matching key is
    replaced. *)
Definition Add {V} (k : string) (v : V) (m : gmap string V) : gmap string V :=
  <[FString.key k := v]> m.

End TMap.

(* ===================================================================== *)
(** * SessionManager.h / SessionManager.cpp *)
(* ===================================================================== *)

Inductive ESessionState := CREATED | ACTIVE | ENDED | EXPIRED.

#[global] Instance ESessionState_eq_dec : EqDecision ESessionState.
Proof. solve_decision. Defined.

Module FInteractionEvent.
Record t := mk {
  EventId : string;
  Timestamp : Z;
  PlayerId : string;
  EventType : string;
  Data : gmap string string;
  TTL : Z
}.

(** The assignment [Event.TTL = v]. *)
Definition set_TTL (v : Z) (e : t) : t :=
  mk (EventId e) (Timestamp e) (PlayerId e) (EventType e) (Data e) v.
End FInteractionEvent.

Module FPlayerSession.
Record t := mk {
  SessionId : string;
  PlayerId : string;
  ShardId : string;
  State : ESessionState;
  StartTime : Z;
  EndTime : Z;
  Events : list FInteractionEvent.t;
  Rewards : list string;
  TTL : Z
}.

(** Assignments to single members. *)
Definition set_State (v : ESessionState) (s : t) : t :=
  mk (SessionId s) (PlayerId s) (ShardId s) v (StartTime s) (EndTime s)
     (Events s) (Rewards s) (TTL s).
Definition set_EndTime (v : Z) (s : t) : t :=
  mk (SessionId s) (PlayerId s) (ShardId s) (State s) (StartTime s) v
     (Events s) (Rewards s) (TTL s).
Definition set_TTL (v : Z) (s : t) : t :=
  mk (SessionId s) (PlayerId s) (ShardId s) (State s) (StartTime s) (EndTime s)
     (Events s) (Rewards s) v.
Definition set_Events (v : list FInteractionEvent.t) (s : t) : t :=
  mk (SessionId s) (PlayerId s) (ShardId s) (State s) (StartTime s) (EndTime s)
     v (Rewards s) (TTL s).
Definition set_Rewards (v : list string) (s : t) : t :=
  mk (SessionId s) (PlayerId s) (ShardId s) (State s) (StartTime s) (EndTime s)
     (Events s) v (TTL s).
End FPlayerSession.

Module FPlayerSessionSummary.
Record t := mk {
  SessionId : string;
  PlayerId : string;
  Rewards : list string;
  SessionStartTime : Z;
  SessionEndTime : Z
}.
End FPlayerSessionSummary.

Module USessionManager.
Import FPlayerSession.

(** The member [ActiveSessions] is the whole state of the manager. *)
Abbreviation Sessions := (gmap string FPlayerSession.t).

Definition CreateSession (PlayerId ShardId : string) (NewGuid : string) (UtcNow : Z)
    (ActiveSessions : Sessions) : FPlayerSession.t * Sessions :=
  let NewSession :=
    FPlayerSession.mk NewGuid PlayerId ShardId CREATED UtcNow 0 [] [] 0 in
  (NewSession, TMap.Add NewGuid NewSession ActiveSessions).

Definition TransitionState (SessionId : string) (FromState ToState : ESessionState)
    (ActiveSessions : Sessions) : bool * Sessions :=
  match TMap.Find ActiveSessions SessionId with
  | None => (false, ActiveSessions)
  | Some Session =>
      if negb (bool_decide (State Session = FromState))
      then (false, ActiveSessions)
      else (true, TMap.Add SessionId (set_State ToState Session) ActiveSessions)
  end.

Definition StartSession (SessionId : string) (ActiveSessions : Sessions)
  : bool * Sessions :=
  match TransitionState SessionId CREATED ACTIVE ActiveSessions with
  | (true, m) => (true, m)
  | (false, m) => (false, m)
  end.

Definition CalculateTTLFromTime (FromTime : Z) : Z :=
  let TTLDuration := FDateTime.FromHours 72 in
  let ExpirationTime := FDateTime.add FromTime TTLDuration in
  FDateTime.ToUnixTimestamp ExpirationTime.

Definition CalculateTTL (UtcNow : Z) : Z := CalculateTTLFromTime UtcNow.

Definition EndSession (SessionId : string) (UtcNow : Z) (ActiveSessions : Sessions)
  : bool * Sessions :=
  match TransitionState SessionId ACTIVE ENDED ActiveSessions with
  | (false, m) => (false, m)
  | (true, m) =>
      match TMap.Find m SessionId with
      | Some Session =>
          let Session := set_EndTime UtcNow Session in
          let Session := set_TTL (CalculateTTLFromTime (EndTime Session)) Session in
          let Session :=
            set_Events (map (FInteractionEvent.set_TTL (TTL Session)) (Events Session))
                       Session in
          (true, TMap.Add SessionId Session m)
      | None => (true, m)
      end
  end.

Definition TrackEvent (SessionId EventType : string) (EventData : gmap string string)
    (NewGuid : string) (UtcNow : Z) (ActiveSessions : Sessions) : Sessions :=
  match TMap.Find ActiveSessions SessionId with
  | None => ActiveSessions
  | Some Session =>
      if negb (bool_decide (State Session = ACTIVE))
      then ActiveSessions
      else
        let Event :=
          FInteractionEvent.mk NewGuid UtcNow (PlayerId Session) EventType EventData 0 in
        TMap.Add SessionId (set_Events (Events Session ++ [Event]) Session)
                 ActiveSessions
  end.

Definition AddReward (SessionId RewardId : string) (ActiveSessions : Sessions)
  : Sessions :=
  match TMap.Find ActiveSessions SessionId with
  | None => ActiveSessions
  | Some Session =>
      if FString.Contains (Rewards Session) RewardId
      then ActiveSessions
      else TMap.Add SessionId (set_Rewards (Rewards Session ++ [RewardId]) Session)
                    ActiveSessions
  end.

(** [GenerateSessionSummary]. The constructor of the summary reads the
    clock twice, once for each of its times: [UtcNow1] and [UtcNow2] are the
    two readings, in the order of the member initialisers. *)
Definition GenerateSessionSummary (SessionId : string) (UtcNow1 UtcNow2 : Z)
    (ActiveSessions : Sessions) : FPlayerSessionSummary.t :=
  match TMap.Find ActiveSessions SessionId with
  | None => FPlayerSessionSummary.mk "" "" [] UtcNow1 UtcNow2
  | Some Session =>
      FPlayerSessionSummary.mk (FPlayerSession.SessionId Session) (PlayerId Session)
        (Rewards Session) (StartTime Session) (EndTime Session)
  end.

Definition DiscardSessionState (SessionId : string) (ActiveSessions : Sessions)
  : Sessions :=
  match TMap.Find ActiveSessions SessionId with
  | None => ActiveSessions
  | Some Session => TMap.Add SessionId (set_Events [] Session) ActiveSessions
  end.

Definition GetSession (SessionId : string) (ActiveSessions : Sessions)
  : option FPlayerSession.t :=
  TMap.Find ActiveSessions SessionId.

Definition GetSessionState (SessionId : string) (ActiveSessions : Sessions)
  : ESessionState :=
  match TMap.Find ActiveSessions SessionId with
  | Some Session => State Session
  | None => EXPIRED
  end.

(** A call of a member function of the manager, with the values the engine
    supplies during the call. The three query functions do not write to
    [ActiveSessions]. *)
Inductive Call :=
| CallCreateSession (PlayerId ShardId NewGuid : string) (UtcNow : Z)
| CallStartSession (SessionId : string)
| CallEndSession (SessionId : string) (UtcNow : Z)
| CallTrackEvent (SessionId EventType : string) (EventData : gmap string string)
                 (NewGuid : string) (UtcNow : Z)
| CallAddReward (SessionId RewardId : string)
| CallGenerateSessionSummary (SessionId : string) (UtcNow1 UtcNow2 : Z)
| CallDiscardSessionState (SessionId : string)
| CallGetSession (SessionId : string)
| CallGetSessionState (SessionId : string).

(** The effect of one call on [ActiveSessions]. *)
Definition exec (c : Call) (m : Sessions) : Sessions :=
  match c with
  | CallCreateSession p s g now => snd (CreateSession p s g now m)
  | CallStartSession id => snd (StartSession id m)
  | CallEndSession id now => snd (EndSession id now m)
  | CallTrackEvent id ty d g now => TrackEvent id ty d g now m
  | CallAddReward id r => AddReward id r m
  | CallGenerateSessionSummary _ _ _ => m
  | CallDiscardSessionState id => DiscardSessionState id m
  | CallGetSession _ => m
  | CallGetSessionState _ => m
  end.

(** A sequence of calls on a manager, oldest first. *)
Definition run (cs : list Call) (m : Sessions) : Sessions :=
  fold_left (fun m c => exec c m) cs m.

(** The invariant of [ActiveSessions]: no stored session is in the state
    [EXPIRED]. *)
Definition Lawful (m : Sessions) : Prop :=
  map_Forall (fun _ s => State s <> EXPIRED) m.

(** The invariant of ended sessions: the TTL is the one computed from the
    end time, and every event still held carries it. *)
Definition Stamped (m : Sessions) : Prop :=
  map_Forall
    (fun _ s =>
       State s = ENDED ->
       TTL s = CalculateTTLFromTime (EndTime s)
       /\ Forall (fun e => FInteractionEvent.TTL e = TTL s) (Events s))
    m.

End USessionManager.

(* ===================================================================== *)
(** * RewardSystem.h / RewardSystem.cpp *)
(* ===================================================================== *)

Module FRewardCatalogEntry.
Record t := mk {
  Id : string;
  Name : string;
  Description : string;
  Category : string
}.
End FRewardCatalogEntry.

Module FRewardCatalog.
Record t := mk {
  Version : string;
  LastUpdated : string;
  Rewards : list FRewardCatalogEntry.t
}.
End FRewardCatalog.

Module FRewardGrantResult.
Record t := mk {
  bSuccess : bool;
  ErrorCode : string;
  ErrorMessage : string;
  RewardId : string
}.

Definition Success (InRewardId : string) : t := mk true "" "" InRewardId.

Definition Failure (InErrorCode InErrorMessage InRewardId : string) : t :=
  mk false InErrorCode InErrorMessage InRewardId.
End FRewardGrantResult.

Module URewardSystem.
Import FRewardGrantResult.

(** The members of [URewardSystem]. *)
Record t := mk {
  Catalog : FRewardCatalog.t;
  PlayerRewards : gmap string (list string);
  bCatalogLoaded : bool
}.

(** A newly constructed reward system. *)
Definition init : t := mk (FRewardCatalog.mk "" "" []) ∅ false.

Definition IsValidRewardId (RewardId : string) (rs : t) : bool :=
  if negb (bCatalogLoaded rs) then false
  else existsb (fun Entry => FString.eq (FRewardCatalogEntry.Id Entry) RewardId)
               (FRewardCatalog.Rewards (Catalog rs)).

(** [PlayerRewards.FindOrAdd(PlayerId)]: the map after the call and the
    array the returned reference designates. *)
Definition FindOrAdd (PlayerId : string) (m : gmap string (list string))
  : gmap string (list string) * list string :=
  match TMap.Find m PlayerId with
  | Some Rewards => (m, Rewards)
  | None => (TMap.Add PlayerId [] m, [])
  end.

Definition GrantReward (PlayerId RewardId : string) (rs : t)
  : FRewardGrantResult.t * t :=
  if FString.IsEmpty PlayerId
  then (Failure "INVALID_PLAYER_ID" "Player ID is empty" "", rs)
  else if FString.IsEmpty RewardId
  then (Failure "INVALID_REWARD_ID" "Reward ID is empty" "", rs)
  else if negb (bCatalogLoaded rs)
  then (Failure "REWARD_CATALOG_NOT_FOUND" "Rewards catalog is not loaded" RewardId, rs)
  else if negb (IsValidRewardId RewardId rs)
  then (Failure "INVALID_REWARD_ID"
                ("Reward ID '" +:+ RewardId +:+ "' not found in catalog") RewardId, rs)
  else
    let '(m, Rewards) := FindOrAdd PlayerId (PlayerRewards rs) in
    if FString.Contains Rewards RewardId
    then (Failure "REWARD_ALREADY_GRANTED"
                  ("Reward '" +:+ RewardId +:+ "' already granted") RewardId,
          mk (Catalog rs) m (bCatalogLoaded rs))
    else (Success RewardId,
          mk (Catalog rs) (TMap.Add PlayerId (Rewards ++ [RewardId]) m)
             (bCatalogLoaded rs)).

Definition GetPlayerRewards (PlayerId : string) (rs : t) : list string :=
  match TMap.Find (PlayerRewards rs) PlayerId with
  | Some Rewards => Rewards
  | None => []
  end.

Definition HasReward (PlayerId RewardId : string) (rs : t) : bool :=
  match TMap.Find (PlayerRewards rs) PlayerId with
  | Some Rewards => FString.Contains Rewards RewardId
  | None => false
  end.

(** A sequence of grants, oldest first. *)
Definition grants (gs : list (string * string)) (rs : t) : t :=
  fold_left (fun rs g => snd (GrantReward g.1 g.2 rs)) gs rs.

(** A list of reward ids holds each id at most once, ids being compared as
    [Contains] compares them. *)
Definition AtMostOnce (l : list string) : Prop :=
  forall r, (length (List.filter (fun y => FString.eq y r) l) <= 1)%nat.

(** The invariant of [PlayerRewards]. *)
Definition Sound (rs : t) : Prop :=
  map_Forall (fun _ l => AtMostOnce l) (PlayerRewards rs).

End URewardSystem.

(* ===================================================================== *)
(** * HMVRGameMode.h / HMVRGameMode.cpp: the admission path *)
(* ===================================================================== *)

Module AHMVRGameMode.

(** The members of [AHMVRGameMode] that the admission path reads or writes.
    An entry of [ConnectedPlayers] is a [TWeakObjectPtr<APlayerController>],
    represented by the index of the object it designates; whether the object
    still exists is known to the engine's object table, not to the entry. *)
Record t := mk {
  MaxPlayers : Z;
  MinPlayers : Z;
  ConnectedPlayers : list nat;
  bGameLiftInitialized : bool;
  bGameLiftProcessReady : bool;
  PlayerSessionMap : gmap string string
}.

(** The state the constructor leaves. *)
Definition ctor : t := mk 15 10 [] false false ∅.

Definition set_PlayerSessionMap (v : gmap string string) (gm : t) : t :=
  mk (MaxPlayers gm) (MinPlayers gm) (ConnectedPlayers gm)
     (bGameLiftInitialized gm) (bGameLiftProcessReady gm) v.

(** What the admission path does besides computing its answer: the calls it
    makes to the token validator and to the fleet reservation functions. *)
Inductive Effect :=
| DidValidateJWTToken (Token : string)
| DidValidatePlayerSession (PlayerSessionId : string)
| DidAcceptPlayerSession (PlayerSessionId : string).

Section GameMode.
Context `{JsonEngine}.

(** [UGameplayStatics::ParseOption]. *)
Variable ParseOption : string -> string -> string.

(** [TWeakObjectPtr::IsValid], by object index. *)
Variable IsValid : nat -> bool.

(** [GetCurrentPlayerCount]: the loop over [ConnectedPlayers]. The number of
    elements of a [TArray] is itself an [int32], so the counter cannot
    overflow. *)
Definition GetCurrentPlayerCount (gm : t) : Z :=
  fold_left (fun ValidPlayerCount PlayerPtr =>
               if IsValid PlayerPtr then ValidPlayerCount + 1 else ValidPlayerCount)
            (ConnectedPlayers gm) 0.

Definition CanAcceptNewPlayer (gm : t) : bool :=
  GetCurrentPlayerCount gm <? MaxPlayers gm.

(** [ValidateJWTToken]: the result, [OutPlayerId] and [OutErrorMessage].
    [exp0] and [iat0] stand for the uninitialised [int64] members of the
    local [FJWTValidationResult]. *)
Definition ValidateJWTToken (cfg : CognitoConfig.t) (UtcNow : Z) (exp0 iat0 : Z)
    (Token OutPlayerId OutErrorMessage : string) : bool * string * string :=
  if FString.IsEmpty Token
  then (false, OutPlayerId, "Token is empty")
  else
    let '(ok, ValidationResult) :=
      UJWTValidator.ValidateToken cfg UtcNow Token
        (FJWTValidationResult.fresh exp0 iat0) in
    if negb ok
    then (false, OutPlayerId, FJWTValidationResult.ErrorMessage ValidationResult)
    else
      let OutPlayerId :=
        FJWTClaims.Subject (FJWTValidationResult.Claims ValidationResult) in
      if FString.IsEmpty OutPlayerId
      then (false, OutPlayerId, "Token does not contain player ID")
      else (true, OutPlayerId, OutErrorMessage).

Definition ValidatePlayerSession (PlayerSessionId : string) (gm : t)
    (OutErrorMessage : string) : bool * string :=
  if FString.IsEmpty PlayerSessionId
  then (false, "Player session ID is empty")
  else if negb (bGameLiftInitialized gm) || negb (bGameLiftProcessReady gm)
  then (false, "GameLift not initialized")
  else (true, OutErrorMessage).

Definition AcceptPlayerSession (PlayerSessionId NewGuid : string) (gm : t) : t :=
  if negb (bGameLiftInitialized gm) || negb (bGameLiftProcessReady gm)
  then gm
  else set_PlayerSessionMap (TMap.Add PlayerSessionId NewGuid (PlayerSessionMap gm)) gm.

(** The outcome of [PreLogin]: the value of [ErrorMessage] on return (a
    non-empty message makes the engine refuse the connection), the game mode
    after the call, and the calls made on the way, oldest first. *)
Record Outcome := mkOutcome {
  ErrorMessage : string;
  After : t;
  Effects : list Effect
}.

(** [PreLogin]. [ErrorMessage0] is the value [Super::PreLogin] leaves in
    [ErrorMessage]; [NewGuid] is the identifier drawn if the reservation is
    accepted. *)
Definition PreLogin (cfg : CognitoConfig.t) (UtcNow : Z) (exp0 iat0 : Z)
    (NewGuid : string) (Options : string) (ErrorMessage0 : string) (gm : t)
  : Outcome :=
  if negb (CanAcceptNewPlayer gm)
  then mkOutcome ("Server full. Maximum " +:+ pretty (MaxPlayers gm)
                  +:+ " players allowed.") gm []
  else
    let JWTToken := ParseOption Options "Token" in
    if FString.IsEmpty JWTToken
    then mkOutcome "Authentication failed: No JWT token provided" gm []
    else
      match ValidateJWTToken cfg UtcNow exp0 iat0 JWTToken "" ErrorMessage0 with
      | (false, _, msg) => mkOutcome msg gm [DidValidateJWTToken JWTToken]
      | (true, PlayerId, msg) =>
          if bGameLiftInitialized gm
          then
            let PlayerSessionId := ParseOption Options "PlayerSessionId" in
            if negb (FString.IsEmpty PlayerSessionId)
            then
              match ValidatePlayerSession PlayerSessionId gm "" with
              | (false, ValidationError) =>
                  mkOutcome ("GameLift validation failed: " +:+ ValidationError) gm
                    [DidValidateJWTToken JWTToken;
                     DidValidatePlayerSession PlayerSessionId]
              | (true, _) =>
                  mkOutcome msg (AcceptPlayerSession PlayerSessionId NewGuid gm)
                    [DidValidateJWTToken JWTToken;
                     DidValidatePlayerSession PlayerSessionId;
                     DidAcceptPlayerSession PlayerSessionId]
              end
            else mkOutcome "GameLift player session ID required" gm
                   [DidValidateJWTToken JWTToken]
          else mkOutcome msg gm [DidValidateJWTToken JWTToken]
      end.

End GameMode.

End AHMVRGameMode.

(* ===================================================================== *)
(** * A reference engine for running the validator on concrete tokens *)
(* ===================================================================== *)

(** An instance of [JsonEngine] that computes: a decoder of padded standard
    Base64 and a reader of compact JSON objects (no blanks, no escapes) whose
    members are strings, non-negative integers or arrays of strings. It is
    used only to evaluate the model on concrete tokens. *)
Module RefEngine.

Definition sextet (c : ascii) : option N :=
  let n := N_of_ascii c in
  if ((65 <=? n) && (n <=? 90))%N then Some (n - 65)%N
  else if ((97 <=? n) && (n <=? 122))%N then Some (n - 71)%N
  else if ((48 <=? n) && (n <=? 57))%N then Some (n + 4)%N
  else if (n =? 43)%N then Some 62%N
  else if (n =? 47)%N then Some 63%N
  else None.

Definition byte (n : N) : ascii := ascii_of_N n.

Fixpoint decode (s : string) : option string :=
  match s with
  | EmptyString => Some EmptyString
  | String a (String b (String c (String d r))) =>
      match sextet a, sextet b with
      | Some x, Some y =>
          let b0 := byte (x * 4 + y / 16) in
          if Ascii.eqb c "="
          then (if Ascii.eqb d "=" && FString.IsEmpty r
                then Some (String b0 EmptyString) else None)
          else
            match sextet c with
            | Some z =>
                let b1 := byte ((y mod 16) * 16 + z / 4) in
                if Ascii.eqb d "="
                then (if FString.IsEmpty r
                      then Some (String b0 (String b1 EmptyString)) else None)
                else
                  match sextet d, decode r with
                  | Some w, Some rest =>
                      Some (String b0 (String b1 (String (byte ((z mod 4) * 64 + w)) rest)))
                  | _, _ => None
                  end
            | None => None
            end
      | _, _ => None
      end
  | _ => None
  end.

Inductive JVal :=
| JString (s : string)
| JNumber (z : Z)
| JArray (l : list JVal).

Definition quote : ascii := ascii_of_nat 34.

Fixpoint read_until_quote (s : string) : option (string * string) :=
  match s with
  | EmptyString => None
  | String c r =>
      if Ascii.eqb c quote then Some (EmptyString, r)
      else match read_until_quote r with
           | Some (a, rest) => Some (String c a, rest)
           | None => None
           end
  end.

Definition digit (c : ascii) : option Z :=
  let n := Z.of_N (N_of_ascii c) in
  if (48 <=? n) && (n <=? 57) then Some (n - 48) else None.

Fixpoint read_digits (acc : Z) (s : string) : Z * string :=
  match s with
  | EmptyString => (acc, s)
  | String c r =>
      match digit c with
      | Some d => read_digits (10 * acc + d) r
      | None => (acc, s)
      end
  end.

(** The strings of an array, after its opening bracket. *)
Fixpoint read_strings (fuel : nat) (s : string) : option (list JVal * string) :=
  match fuel with
  | O => None
  | S fuel =>
      match s with
      | String c r =>
          if Ascii.eqb c "]" then Some ([], r)
          else if Ascii.eqb c "," then read_strings fuel r
          else if Ascii.eqb c quote then
            match read_until_quote r with
            | Some (a, rest) =>
                match read_strings fuel rest with
                | Some (l, rest') => Some (JString a :: l, rest')
                | None => None
                end
            | None => None
            end
          else None
      | EmptyString => None
      end
  end.

Definition read_value (s : string) : option (JVal * string) :=
  match s with
  | String c r =>
      if Ascii.eqb c quote then
        match read_until_quote r with
        | Some (a, rest) => Some (JString a, rest)
        | None => None
        end
      else if Ascii.eqb c "[" then
        match read_strings (S (String.length r)) r with
        | Some (l, rest) => Some (JArray l, rest)
        | None => None
        end
      else match digit c with
           | Some _ => let '(z, rest) := read_digits 0 s in Some (JNumber z, rest)
           | None => None
           end
  | EmptyString => None
  end.

(** The members of an object, after its opening brace. *)
Fixpoint read_members (fuel : nat) (s : string) : option (list (string * JVal)) :=
  match fuel with
  | O => None
  | S fuel =>
      match s with
      | String c r =>
          if Ascii.eqb c "}" then (if FString.IsEmpty r then Some [] else None)
          else if Ascii.eqb c "," then read_members fuel r
          else if Ascii.eqb c quote then
            match read_until_quote r with
            | Some (k, String colon rest) =>
                if Ascii.eqb colon ":" then
                  match read_value rest with
                  | Some (v, rest') =>
                      match read_members fuel rest' with
                      | Some l => Some ((k, v) :: l)
                      | None => None
                      end
                  | None => None
                  end
                else None
            | _ => None
            end
          else None
      | EmptyString => None
      end
  end.

Definition read_object (s : string) : option (list (string * JVal)) :=
  match s with
  | String c r => if Ascii.eqb c "{" then read_members (S (String.length r)) r else None
  | EmptyString => None
  end.

Fixpoint field (o : list (string * JVal)) (k : string) : option JVal :=
  match o with
  | [] => None
  | (k', v) :: r => if FString.eq k' k then Some v else field r k
  end.

Definition string_field (o : list (string * JVal)) (k : string) : option string :=
  match field o k with Some (JString s) => Some s | _ => None end.

Definition int32_field (o : list (string * JVal)) (k : string) : option Z :=
  match field o k with
  | Some (JNumber z) => if z <=? 2147483647 then Some z else None
  | _ => None
  end.

Definition array_field (o : list (string * JVal)) (k : string) : option (list JVal) :=
  match field o k with Some (JArray l) => Some l | _ => None end.

Definition as_string (v : JVal) : option string :=
  match v with JString s => Some s | _ => None end.

#[export] Instance engine : JsonEngine := {|
  Base64_Decode := decode;
  FJsonObject := list (string * JVal);
  FJsonValue := JVal;
  Deserialize := read_object;
  TryGetStringField := string_field;
  TryGetNumberField := int32_field;
  TryGetArrayField := array_field;
  TryGetString := as_string
|}.

End RefEngine.

(* ===================================================================== *)
(** * Sample data *)
(* ===================================================================== *)

(** Concrete tokens, configurations and states on which the model is run. *)
Module Samples.

(** A clock reading, given in seconds since 1970. *)
Definition at_unix (seconds : Z) : Z :=
  FDateTime.UnixEpochTicks + seconds * FDateTime.TicksPerSecond.

(** The configuration after
    [SetCognitoConfig("pool-1", "eu-west-1", "client-1")]. *)
Definition production : CognitoConfig.t :=
  UJWTValidator.SetCognitoConfig "pool-1" "eu-west-1" "client-1".

(** Base64url of a header with alg RS256 and typ JWT. *)
Definition header : string := "eyJhbGciOiJSUzI1NiIsInR5cCI6IkpXVCJ9".

Definition signature : string := "c2ln".

(** Base64url of a payload with sub player-1, the issuer and audience of
    [production], token_use access, exp 2000000000, iat 1700000000,
    cognito:username mage and cognito:groups holding players. *)
Definition payload_full : string :=
  "eyJzdWIiOiJwbGF5ZXItMSIsImlzcyI6Imh0dHBzOi8vY29nbml0by1pZHAuZXUtd2VzdC0xLmFtYXpvbmF3cy5jb20vcG9vbC0xIiwiYXVkIjoiY2xpZW50LTEiLCJ0b2tlbl91c2UiOiJhY2Nlc3MiLCJleHAiOjIwMDAwMDAwMDAsImlhdCI6MTcwMDAwMDAwMCwiY29nbml0bzp1c2VybmFtZSI6Im1hZ2UiLCJjb2duaXRvOmdyb3VwcyI6WyJwbGF5ZXJzIl19".

(** Base64url of a payload where every claim is wrong: empty sub, iss
    elsewhere, aud nobody, token_use refresh, and exp 1700000000. *)
Definition payload_stale : string :=
  "eyJzdWIiOiIiLCJpc3MiOiJlbHNld2hlcmUiLCJhdWQiOiJub2JvZHkiLCJ0b2tlbl91c2UiOiJyZWZyZXNoIiwiZXhwIjoxNzAwMDAwMDAwfQ".

(** Base64url of a payload with sub player-1, token_use access, exp
    2000000000, and the issuer and audience of [production] written in
    capital letters. *)
Definition payload_upper : string :=
  "eyJzdWIiOiJwbGF5ZXItMSIsImlzcyI6IkhUVFBTOi8vQ09HTklUTy1JRFAuRVUtV0VTVC0xLkFNQVpPTkFXUy5DT00vUE9PTC0xIiwiYXVkIjoiQ0xJRU5ULTEiLCJ0b2tlbl91c2UiOiJhY2Nlc3MiLCJleHAiOjIwMDAwMDAwMDB9".

(** Base64url of a payload with sub player-2, token_use id and exp
    2000000000, without issuer and audience. *)
Definition payload_open : string :=
  "eyJzdWIiOiJwbGF5ZXItMiIsInRva2VuX3VzZSI6ImlkIiwiZXhwIjoyMDAwMDAwMDAwfQ".

(** Base64url of a payload with sub player-2, token_use id and exp
    3000000000 (a date in 2065, beyond the range of [int32]), without
    issuer and audience. *)
Definition payload_far : string :=
  "eyJzdWIiOiJwbGF5ZXItMiIsInRva2VuX3VzZSI6ImlkIiwiZXhwIjozMDAwMDAwMDAwfQ".

(** The claims read from [payload_upper]. *)
Definition upper_claims : FJWTClaims.t :=
  FJWTClaims.mk "player-1" "HTTPS://COGNITO-IDP.EU-WEST-1.AMAZONAWS.COM/POOL-1"
    "CLIENT-1" 2000000000 0 "access" "" [].

(** The claims read from [payload_open]. *)
Definition open_claims : FJWTClaims.t :=
  FJWTClaims.mk "player-2" "" "" 2000000000 0 "id" "" [].

Definition token (payload : string) : string :=
  UJWTValidator.join3 header payload signature.

(** [payload_open] between a header and a signature, with two dots after
    the header: four dot-separated segments, the second one empty. *)
Definition token_four_segments : string :=
  header +:+ ".." +:+ payload_open +:+ "." +:+ signature.

(** A header and a payload only: two dot-separated segments. *)
Definition token_two_segments : string := header +:+ "." +:+ payload_open.

(** The text and the object the reference engine reads from a payload. *)
Definition decoded (payload : string) : string :=
  default EmptyString (UJWTValidator.DecodeBase64URL (H := RefEngine.engine) payload).

Definition object_of (payload : string) : list (string * RefEngine.JVal) :=
  default [] (RefEngine.read_object (decoded payload)).

(** A session manager after [CreateSession], then [StartSession], then two
    [TrackEvent] calls. *)
Definition created : gmap string FPlayerSession.t :=
  snd (USessionManager.CreateSession "player-1" "shard-1" "session-1"
         (at_unix 1700000000) ∅).

Definition started : gmap string FPlayerSession.t :=
  snd (USessionManager.StartSession "session-1" created).

Definition played : gmap string FPlayerSession.t :=
  USessionManager.TrackEvent "session-1" "reward_grant" ∅ "event-2" (at_unix 1700000200)
    (USessionManager.TrackEvent "session-1" "player_join" ∅ "event-1"
       (at_unix 1700000100) started).

Definition ended : gmap string FPlayerSession.t :=
  snd (USessionManager.EndSession "session-1" (at_unix 1700003600) played).

(** The session stored in [created]. *)
Definition created_session : FPlayerSession.t :=
  FPlayerSession.mk "session-1" "player-1" "shard-1" CREATED (at_unix 1700000000) 0
    [] [] 0.

(** The session stored in [played]. *)
Definition played_session : FPlayerSession.t :=
  FPlayerSession.mk "session-1" "player-1" "shard-1" ACTIVE (at_unix 1700000000) 0
    [FInteractionEvent.mk "event-1" (at_unix 1700000100) "player-1" "player_join" ∅ 0;
     FInteractionEvent.mk "event-2" (at_unix 1700000200) "player-1" "reward_grant" ∅ 0]
    [] 0.

(** A reward system whose catalog holds two rewards. *)
Definition catalog : FRewardCatalog.t :=
  FRewardCatalog.mk "1.0" "2026-01-01"
    [FRewardCatalogEntry.mk "sword_of_dawn" "Sword of Dawn" "A bright blade" "weapon";
     FRewardCatalogEntry.mk "shield_basic" "Basic Shield" "A plain shield" "armor"].

Definition ledger : URewardSystem.t := URewardSystem.mk catalog ∅ true.

(** A game mode with the default capacity whose array of connections holds
    fifteen live controllers (objects 1 to 15) and two stale entries. *)
Definition full_house : AHMVRGameMode.t :=
  AHMVRGameMode.mk 15 10 (100%nat :: seq 1 15 ++ [101%nat]) false false ∅.

Definition alive (object : nat) : bool := (object <=? 15)%nat.

(** An option parser for connection strings that carry a token only. *)
Definition token_option (Options Key : string) : string :=
  if FString.eq Key "Token" then Options else EmptyString.

End Samples.

(* ===================================================================== *)
(** * Session manager: calls, order of states, invariants *)
(* ===================================================================== *)

Module SessionCalls.
Import FPlayerSession USessionManager.

(** The session id a call writes to, if it writes at all: the new id for
    [CreateSession], the argument for the other member functions that
    change [ActiveSessions], none for the three queries. *)
Definition target (c : Call) : option string :=
  match c with
  | CallCreateSession _ _ NewGuid _ => Some NewGuid
  | CallStartSession id => Some id
  | CallEndSession id _ => Some id
  | CallTrackEvent id _ _ _ _ => Some id
  | CallAddReward id _ => Some id
  | CallGenerateSessionSummary _ _ _ => None
  | CallDiscardSessionState id => Some id
  | CallGetSession _ => None
  | CallGetSessionState _ => None
  end.

(** The position of a state in the declaration of [ESessionState]. *)
Definition rank (st : ESessionState) : nat :=
  match st with CREATED => 0 | ACTIVE => 1 | ENDED => 2 | EXPIRED => 3 end.

(** What every stored session satisfies, whatever calls were made (see
    [Coherent_run]): it is filed under its own id; its rewards hold no id
    twice; its events carry its player id; before it has ended it has no end
    time and neither it nor its events have a TTL; before it is started it
    has no event. *)
Definition CoherentSession (k : string) (s : FPlayerSession.t) : Prop :=
  k = FString.key (SessionId s)
  /\ URewardSystem.AtMostOnce (Rewards s)
  /\ Forall (fun e => FInteractionEvent.PlayerId e = PlayerId s) (Events s)
  /\ (State s <> ENDED ->
      TTL s = 0 /\ EndTime s = 0
      /\ Forall (fun e => FInteractionEvent.TTL e = 0) (Events s))
  /\ (State s = CREATED -> Events s = []).

Definition Coherent (m : Sessions) : Prop := map_Forall CoherentSession m.

(** The event [TrackEvent] builds. *)
Definition NewEvent (s : FPlayerSession.t) (EventType : string)
    (EventData : gmap string string) (NewGuid : string) (UtcNow : Z)
  : FInteractionEvent.t :=
  FInteractionEvent.mk NewGuid UtcNow (PlayerId s) EventType EventData 0.

(** One [TrackEvent] call for each element of a list, oldest first; an
    element gives the type, the data, the id drawn and the clock reading. *)
Definition TrackEvents (id : string)
    (evs : list (string * gmap string string * string * Z)) (m : Sessions) : Sessions :=
  fold_left (fun m '(ty, d, g, now) => TrackEvent id ty d g now m) evs m.

(** [Extends s s']: the session [s'] is a later stage of the session [s]:
    same identity and start time, a state that is not earlier, and the
    rewards of [s] followed by further ones. *)
Definition Extends (s s' : FPlayerSession.t) : Prop :=
  SessionId s' = SessionId s
  /\ PlayerId s' = PlayerId s
  /\ ShardId s' = ShardId s
  /\ StartTime s' = StartTime s
  /\ (rank (State s) <= rank (State s'))%nat
  /\ exists l, Rewards s' = Rewards s ++ l.

(** A call that is not a [CreateSession] drawing an id filed under [k]. *)
Definition KeepsKey (k : string) (c : Call) : Prop :=
  match c with
  | CallCreateSession _ _ NewGuid _ => FString.key NewGuid <> k
  | _ => True
  end.

End SessionCalls.

(* ===================================================================== *)
(** * Reward system: the invariant of the ledger *)
(* ===================================================================== *)

Module RewardLedger.
Import URewardSystem.

(** What the ledger of a reward system satisfies when every grant was made
    under the catalog of [rs0] (see [Ledger_grants]): the catalog and the
    loaded flag are those of [rs0]; no entry is filed under the empty key;
    every reward id held is not empty and is an id of the catalog. *)
Definition Ledger (rs0 rs : URewardSystem.t) : Prop :=
  Catalog rs = Catalog rs0
  /\ bCatalogLoaded rs = bCatalogLoaded rs0
  /\ map_Forall
       (fun k l =>
          k <> EmptyString
          /\ Forall (fun r => r <> EmptyString /\ IsValidRewardId r rs0 = true) l)
       (PlayerRewards rs).

End RewardLedger.

(* ===================================================================== *)
(** * SessionAPIClient.h / SessionAPIClient.cpp *)
(* ===================================================================== *)

Module USessionAPIClient.

Record t := mk {
  EndpointURL : string;
  bMockMode : bool
}.

(** A newly constructed client: no URL, mock mode on. *)
Definition ctor : t := mk "" true.

Definition SendSessionSummary (Summary : FPlayerSessionSummary.t) (c : t) : bool :=
  if bMockMode c then true else false.

Definition SendInteractionEvent (Event : FInteractionEvent.t) (c : t) : bool :=
  if bMockMode c then true else false.

Definition SetEndpointURL (URL : string) (c : t) : t :=
  let c := mk URL (bMockMode c) in
  if negb (FString.IsEmpty URL) then mk (EndpointURL c) false else c.

Definition GetEndpointURL (c : t) : string := EndpointURL c.

(** A sequence of [SetEndpointURL] calls, oldest first. *)
Definition SetEndpointURLs (urls : list string) (c : t) : t :=
  fold_left (fun c URL => SetEndpointURL URL c) urls c.

End USessionAPIClient.

(* ===================================================================== *)
(** * HMVRGameInstance.h / HMVRGameInstance.cpp: token and connection *)
(* ===================================================================== *)

Module UHMVRGameInstance.

(** The members the authentication and connection functions use. *)
Record t := mk {
  JWTToken : string;
  PlayerId : string;
  PlayerSessionId : string;
  MatchmakingTicketId : string
}.

(** [SetJWTToken]; [exp0] and [iat0] stand for the uninitialised [int64]
    members of the local [FJWTClaims]. *)
Definition SetJWTToken `{JsonEngine} (Token : string) (exp0 iat0 : Z) (gi : t) : t :=
  let gi := mk Token (PlayerId gi) (PlayerSessionId gi) (MatchmakingTicketId gi) in
  match UJWTValidator.DecodeToken Token (FJWTClaims.fresh exp0 iat0) with
  | Some Claims =>
      mk (JWTToken gi) (FJWTClaims.Subject Claims) (PlayerSessionId gi)
         (MatchmakingTicketId gi)
  | None => gi
  end.

Definition SetPlayerSessionId (SessionId : string) (gi : t) : t :=
  mk (JWTToken gi) (PlayerId gi) SessionId (MatchmakingTicketId gi).

(** [ConnectToGameServer]: the URL handed to [UGameplayStatics::OpenLevel],
    or [None] when the function returns without opening a level. *)
Definition ConnectToGameServer (ServerAddress : string) (Port : Z) (gi : t)
  : option string :=
  if FString.IsEmpty (JWTToken gi) then None
  else
    let TravelURL :=
      ServerAddress +:+ ":" +:+ pretty Port +:+ "?Token=" +:+ JWTToken gi in
    if negb (FString.IsEmpty (PlayerSessionId gi))
    then Some (TravelURL +:+ ("?PlayerSessionId=" +:+ PlayerSessionId gi))
    else Some TravelURL.

End UHMVRGameInstance.

(* ===================================================================== *)
(** * RewardSystem.cpp: loading the catalog *)
(* ===================================================================== *)

(** The engine services the catalog loader calls besides those of
    [JsonEngine]: further accessors of JSON objects and values, the file
    reader, and the value of the path expression of [Initialize]. *)
Class CatalogServices `{JsonEngine} := {
  HasField : FJsonObject -> string -> bool;
  GetStringField : FJsonObject -> string -> string;
  TryGetObject : FJsonValue -> option FJsonObject;
  (** [FFileHelper::LoadFileToString]; [None] when it returns false. *)
  LoadFileToString : string -> option string;
  (** [FPaths::ProjectDir() / TEXT("../Specs/examples/rewards_catalog.json")]. *)
  CatalogPath : string
}.

Module CatalogLoader.
Import URewardSystem.

Definition set_Catalog (c : FRewardCatalog.t) (rs : URewardSystem.t) : URewardSystem.t :=
  URewardSystem.mk c (PlayerRewards rs) (bCatalogLoaded rs).

(** The body of the loop of [ParseCatalogJson] for a value that is an
    object. *)
Definition ParseEntry `{CatalogServices} (RewardObject : FJsonObject)
  : FRewardCatalogEntry.t :=
  FRewardCatalogEntry.mk
    (GetStringField RewardObject "id")
    (GetStringField RewardObject "name")
    (GetStringField RewardObject "description")
    (if HasField RewardObject "category"
     then GetStringField RewardObject "category" else "").

(** The loop of [ParseCatalogJson]: values that are not objects are
    skipped. *)
Definition ParseEntries `{CatalogServices} (RewardsArray : list FJsonValue)
  : list FRewardCatalogEntry.t :=
  fold_left
    (fun Rewards RewardValue =>
       match TryGetObject RewardValue with
       | None => Rewards
       | Some RewardObject => Rewards ++ [ParseEntry RewardObject]
       end)
    RewardsArray [].

(** [ParseCatalogJson]: the result and the reward system after the call.
    The version and the date are written before the rewards are looked
    for. *)
Definition ParseCatalogJson `{CatalogServices} (JsonString : string)
    (rs : URewardSystem.t) : bool * URewardSystem.t :=
  match Deserialize JsonString with
  | None => (false, rs)
  | Some JsonObject =>
      let C := Catalog rs in
      let C :=
        if HasField JsonObject "version"
        then FRewardCatalog.mk (GetStringField JsonObject "version")
               (FRewardCatalog.LastUpdated C) (FRewardCatalog.Rewards C)
        else C in
      let C :=
        if HasField JsonObject "lastUpdated"
        then FRewardCatalog.mk (FRewardCatalog.Version C)
               (GetStringField JsonObject "lastUpdated") (FRewardCatalog.Rewards C)
        else C in
      if negb (HasField JsonObject "rewards")
      then (false, set_Catalog C rs)
      else
        match TryGetArrayField JsonObject "rewards" with
        | None => (false, set_Catalog C rs)
        | Some RewardsArray =>
            (true,
             set_Catalog
               (FRewardCatalog.mk (FRewardCatalog.Version C)
                  (FRewardCatalog.LastUpdated C) (ParseEntries RewardsArray))
               rs)
        end
  end.

Definition LoadCatalogFromFile `{CatalogServices} (FilePath : string)
    (rs : URewardSystem.t) : bool * URewardSystem.t :=
  match LoadFileToString FilePath with
  | None => (false, rs)
  | Some JsonString =>
      match ParseCatalogJson JsonString rs with
      | (false, rs) => (false, rs)
      | (true, rs) => (true, URewardSystem.mk (Catalog rs) (PlayerRewards rs) true)
      end
  end.

Definition Initialize `{CatalogServices} (rs : URewardSystem.t)
  : bool * URewardSystem.t :=
  match LoadCatalogFromFile CatalogPath rs with
  | (false, rs) => (false, rs)
  | (true, rs) => (true, rs)
  end.

End CatalogLoader.

(* ===================================================================== *)
(** * HMVRGameMode.cpp: connections, sessions and rewards *)
(* ===================================================================== *)

Module TMapMore.

(** [TMap<FString, V>::Remove]. *)
Definition Remove {V} (k : string) (m : gmap string V) : gmap string V :=
  delete (FString.key k) m.

End TMapMore.

(** An [AController*]: null, a player controller or a controller of another
    class; controllers are designated by the index of their object, as in
    [ConnectedPlayers]. *)
Inductive AController :=
| APlayerController (object : nat)
| AOtherController (object : nat).

Module GameModeWorld.
Import AHMVRGameMode.

(** The game mode with the members the admission path does not use: the
    three subobjects the constructor creates (a null pointer is [None]),
    the map from player ids to session ids, and the id and start time of the
    shard. *)
Record t := mk {
  Mode : AHMVRGameMode.t;
  SessionManager : option (gmap string FPlayerSession.t);
  RewardSystem : option URewardSystem.t;
  SessionAPIClient : option USessionAPIClient.t;
  PlayerToSessionMap : gmap string string;
  CurrentSessionId : string;
  SessionStartTime : Z
}.

(** The state the constructor leaves. *)
Definition ctor : t :=
  mk AHMVRGameMode.ctor (Some ∅) (Some URewardSystem.init)
     (Some USessionAPIClient.ctor) ∅ "" 0.

Definition set_Mode (v : AHMVRGameMode.t) (w : t) : t :=
  mk v (SessionManager w) (RewardSystem w) (SessionAPIClient w)
     (PlayerToSessionMap w) (CurrentSessionId w) (SessionStartTime w).
Definition set_SessionManager (v : gmap string FPlayerSession.t) (w : t) : t :=
  mk (Mode w) (Some v) (RewardSystem w) (SessionAPIClient w)
     (PlayerToSessionMap w) (CurrentSessionId w) (SessionStartTime w).
Definition set_RewardSystem (v : URewardSystem.t) (w : t) : t :=
  mk (Mode w) (SessionManager w) (Some v) (SessionAPIClient w)
     (PlayerToSessionMap w) (CurrentSessionId w) (SessionStartTime w).
Definition set_PlayerToSessionMap (v : gmap string string) (w : t) : t :=
  mk (Mode w) (SessionManager w) (RewardSystem w) (SessionAPIClient w)
     v (CurrentSessionId w) (SessionStartTime w).

Definition set_ConnectedPlayers (v : list nat) (gm : AHMVRGameMode.t)
  : AHMVRGameMode.t :=
  AHMVRGameMode.mk (MaxPlayers gm) (MinPlayers gm) v (bGameLiftInitialized gm)
    (bGameLiftProcessReady gm) (PlayerSessionMap gm).

(** The local constant of [InitializeGameLift]. *)
Definition bIsGameLiftEnvironment : bool := false.

(** [InitializeGameLift], without the timer it starts. *)
Definition InitializeGameLift (gm : AHMVRGameMode.t) : AHMVRGameMode.t :=
  if bIsGameLiftEnvironment
  then AHMVRGameMode.mk (MaxPlayers gm) (MinPlayers gm) (ConnectedPlayers gm)
         true true (PlayerSessionMap gm)
  else AHMVRGameMode.mk (MaxPlayers gm) (MinPlayers gm) (ConnectedPlayers gm)
         false (bGameLiftProcessReady gm) (PlayerSessionMap gm).

(** [InitGame]; [DedicatedServer] tells whether the net mode of the world
    is [NM_DedicatedServer]. *)
Definition InitGame `{CatalogServices} (DedicatedServer : bool) (NewGuid : string)
    (UtcNow : Z) (w : t) : t :=
  let w :=
    match RewardSystem w with
    | Some rs => set_RewardSystem (snd (CatalogLoader.Initialize rs)) w
    | None => w
    end in
  let w := if DedicatedServer then set_Mode (InitializeGameLift (Mode w)) w else w in
  mk (Mode w) (SessionManager w) (RewardSystem w) (SessionAPIClient w)
     (PlayerToSessionMap w) NewGuid UtcNow.

Definition RemovePlayerSession (PlayerSessionId : string) (gm : AHMVRGameMode.t)
  : AHMVRGameMode.t :=
  if FString.IsEmpty PlayerSessionId then gm
  else if negb (bGameLiftInitialized gm) || negb (bGameLiftProcessReady gm) then gm
  else set_PlayerSessionMap (TMapMore.Remove PlayerSessionId (PlayerSessionMap gm)) gm.

(** [OnPlayerJoined]. The three ids drawn are, in order, the player id, the
    session id and the event id; the two clock readings are those of
    [CreateSession] and of [TrackEvent]. *)
Definition OnPlayerJoined (NewPlayer : option nat)
    (PlayerGuid SessionGuid EventGuid : string) (Now1 Now2 : Z) (w : t) : t :=
  match NewPlayer, SessionManager w with
  | Some _, Some m =>
      let PlayerId := PlayerGuid in
      let '(PlayerSession, m) :=
        USessionManager.CreateSession PlayerId (CurrentSessionId w) SessionGuid Now1 m in
      let Map :=
        TMap.Add PlayerId (FPlayerSession.SessionId PlayerSession)
          (PlayerToSessionMap w) in
      let m := snd (USessionManager.StartSession
                      (FPlayerSession.SessionId PlayerSession) m) in
      let EventData :=
        TMap.Add "shard_id" (CurrentSessionId w)
          (TMap.Add "action" "player_joined" ∅) in
      let m := USessionManager.TrackEvent (FPlayerSession.SessionId PlayerSession)
                 "player_join" EventData EventGuid Now2 m in
      set_SessionManager m (set_PlayerToSessionMap Map w)
  | _, _ => w
  end.

(** [OnPlayerLeft]: the game mode after the call and, when a summary was
    handed to the API client, the summary and the answer of the client. The
    clock readings are those of [TrackEvent], of [EndSession] and the two of
    [GenerateSessionSummary]. *)
Definition OnPlayerLeft (ExitingPlayer : option AController)
    (PlayerGuid EventGuid : string) (Now1 Now2 Now3 Now4 : Z) (w : t)
  : t * option (FPlayerSessionSummary.t * bool) :=
  match ExitingPlayer, SessionManager w, SessionAPIClient w with
  | Some _, Some m, Some api =>
      let PlayerId := PlayerGuid in
      match TMap.Find (PlayerToSessionMap w) PlayerId with
      | Some SessionId =>
          let EventData :=
            TMap.Add "shard_id" (CurrentSessionId w)
              (TMap.Add "action" "player_left" ∅) in
          let m := USessionManager.TrackEvent SessionId "player_leave" EventData
                     EventGuid Now1 m in
          let m := snd (USessionManager.EndSession SessionId Now2 m) in
          let Summary :=
            USessionManager.GenerateSessionSummary SessionId Now3 Now4 m in
          let sent := USessionAPIClient.SendSessionSummary Summary api in
          let m := USessionManager.DiscardSessionState SessionId m in
          (set_SessionManager m
             (set_PlayerToSessionMap
                (TMapMore.Remove PlayerId (PlayerToSessionMap w)) w),
           Some (Summary, sent))
      | None => (w, None)
      end
  | _, _, _ => (w, None)
  end.

(** [PostLogin]. *)
Definition PostLogin (NewPlayer : option nat)
    (PlayerGuid SessionGuid EventGuid : string) (Now1 Now2 : Z) (w : t) : t :=
  match NewPlayer with
  | Some Player =>
      let w :=
        set_Mode (set_ConnectedPlayers (ConnectedPlayers (Mode w) ++ [Player]) (Mode w))
          w in
      OnPlayerJoined NewPlayer PlayerGuid SessionGuid EventGuid Now1 Now2 w
  | None => w
  end.

(** [Logout]. [FirstEntry] is the key of the pair the loop over
    [PlayerSessionMap] visits first, [None] when the map is empty.
    [TArray::Remove] removes every entry equal to its argument. *)
Definition Logout (Exiting : option AController) (FirstEntry : option string)
    (PlayerGuid EventGuid : string) (Now1 Now2 Now3 Now4 : Z) (w : t)
  : t * option (FPlayerSessionSummary.t * bool) :=
  match Exiting with
  | Some (APlayerController ExitingPlayer) =>
      let gm :=
        match FirstEntry with
        | Some Key => RemovePlayerSession Key (Mode w)
        | None => Mode w
        end in
      let gm :=
        set_ConnectedPlayers
          (List.filter (fun p => negb (Nat.eqb p ExitingPlayer)) (ConnectedPlayers gm))
          gm in
      OnPlayerLeft Exiting PlayerGuid EventGuid Now1 Now2 Now3 Now4 (set_Mode gm w)
  | _ => (w, None)
  end.

(** [GrantRewardToPlayer]. The two ids drawn are the player id and the
    event id. *)
Definition GrantRewardToPlayer (Player : option nat) (RewardId : string)
    (PlayerGuid EventGuid : string) (UtcNow : Z) (w : t) : t :=
  match Player, RewardSystem w, SessionManager w with
  | Some _, Some rs, Some m =>
      if FString.IsEmpty RewardId then w
      else
        let PlayerId := PlayerGuid in
        let '(Result, rs) := URewardSystem.GrantReward PlayerId RewardId rs in
        let w := set_RewardSystem rs w in
        if FRewardGrantResult.bSuccess Result
        then
          match TMap.Find (PlayerToSessionMap w) PlayerId with
          | Some SessionId =>
              let m := USessionManager.AddReward SessionId RewardId m in
              let EventData :=
                TMap.Add "action" "reward_granted"
                  (TMap.Add "reward_id" RewardId ∅) in
              let m := USessionManager.TrackEvent SessionId "reward_grant" EventData
                         EventGuid UtcNow m in
              set_SessionManager m w
          | None => w
          end
        else w
  | _, _, _ => w
  end.

End GameModeWorld.

(** The values the game mode leaves behind, named for the statements. *)
Module WorldShapes.
Import GameModeWorld.

(** The data of the event [OnPlayerJoined] tracks. *)
Definition JoinData (w : GameModeWorld.t) : gmap string string :=
  TMap.Add "shard_id" (CurrentSessionId w) (TMap.Add "action" "player_joined" ∅).

(** The session a player has after [OnPlayerJoined]: active, with the join
    event as its only event. *)
Definition JoinedSession (PlayerGuid SessionGuid EventGuid : string) (Now1 Now2 : Z)
    (w : GameModeWorld.t) : FPlayerSession.t :=
  FPlayerSession.mk SessionGuid PlayerGuid (CurrentSessionId w) ACTIVE Now1 0
    [FInteractionEvent.mk EventGuid Now2 PlayerGuid "player_join" (JoinData w) 0] [] 0.

(** An active session after [OnPlayerLeft]: ended and stamped, without
    events. *)
Definition ClosedSession (s : FPlayerSession.t) (Now : Z) : FPlayerSession.t :=
  FPlayerSession.mk (FPlayerSession.SessionId s) (FPlayerSession.PlayerId s)
    (FPlayerSession.ShardId s) ENDED (FPlayerSession.StartTime s) Now []
    (FPlayerSession.Rewards s) (USessionManager.CalculateTTLFromTime Now).

(** The summary of a session that ended at [Now]. *)
Definition SummaryOf (s : FPlayerSession.t) (Now : Z) : FPlayerSessionSummary.t :=
  FPlayerSessionSummary.mk (FPlayerSession.SessionId s) (FPlayerSession.PlayerId s)
    (FPlayerSession.Rewards s) (FPlayerSession.StartTime s) Now.

End WorldShapes.

(* ===================================================================== *)
(** * A reference engine for running the catalog loader *)
(* ===================================================================== *)

(** An instance of [JsonEngine] and [CatalogServices] that computes: a
    reader of compact JSON (no blanks, no escapes) whose values are strings,
    arrays and objects, and a file system of two files. It is used only to
    evaluate the model on concrete catalogs. *)
Module RefCatalog.

Inductive CVal :=
| CStr (s : string)
| CArr (l : list CVal)
| CObj (l : list (string * CVal)).

Fixpoint read_value (fuel : nat) (s : string) : option (CVal * string) :=
  match fuel with
  | O => None
  | S fuel =>
      match s with
      | String c r =>
          if Ascii.eqb c RefEngine.quote then
            match RefEngine.read_until_quote r with
            | Some (a, rest) => Some (CStr a, rest)
            | None => None
            end
          else if Ascii.eqb c "[" then
            match read_items fuel r with
            | Some (l, rest) => Some (CArr l, rest)
            | None => None
            end
          else if Ascii.eqb c "{" then
            match read_fields fuel r with
            | Some (l, rest) => Some (CObj l, rest)
            | None => None
            end
          else None
      | EmptyString => None
      end
  end
with read_items (fuel : nat) (s : string) : option (list CVal * string) :=
  match fuel with
  | O => None
  | S fuel =>
      match s with
      | String c r =>
          if Ascii.eqb c "]" then Some ([], r)
          else if Ascii.eqb c "," then read_items fuel r
          else
            match read_value fuel s with
            | Some (v, rest) =>
                match read_items fuel rest with
                | Some (l, rest') => Some (v :: l, rest')
                | None => None
                end
            | None => None
            end
      | EmptyString => None
      end
  end
with read_fields (fuel : nat) (s : string) : option (list (string * CVal) * string) :=
  match fuel with
  | O => None
  | S fuel =>
      match s with
      | String c r =>
          if Ascii.eqb c "}" then Some ([], r)
          else if Ascii.eqb c "," then read_fields fuel r
          else if Ascii.eqb c RefEngine.quote then
            match RefEngine.read_until_quote r with
            | Some (k, String colon rest) =>
                if Ascii.eqb colon ":" then
                  match read_value fuel rest with
                  | Some (v, rest') =>
                      match read_fields fuel rest' with
                      | Some (l, rest'') => Some ((k, v) :: l, rest'')
                      | None => None
                      end
                  | None => None
                  end
                else None
            | _ => None
            end
          else None
      | EmptyString => None
      end
  end.

Definition read_object (s : string) : option (list (string * CVal)) :=
  match read_value (S (String.length s)) s with
  | Some (CObj l, EmptyString) => Some l
  | _ => None
  end.

Fixpoint field (o : list (string * CVal)) (k : string) : option CVal :=
  match o with
  | [] => None
  | (k', v) :: r => if FString.eq k' k then Some v else field r k
  end.

Definition string_field (o : list (string * CVal)) (k : string) : option string :=
  match field o k with Some (CStr s) => Some s | _ => None end.

Definition array_field (o : list (string * CVal)) (k : string) : option (list CVal) :=
  match field o k with Some (CArr l) => Some l | _ => None end.

Definition as_string (v : CVal) : option string :=
  match v with CStr s => Some s | _ => None end.

Definition as_object (v : CVal) : option (list (string * CVal)) :=
  match v with CObj l => Some l | _ => None end.

Definition has_field (o : list (string * CVal)) (k : string) : bool :=
  match field o k with Some _ => true | None => false end.

#[export] Instance json : JsonEngine := {|
  Base64_Decode := RefEngine.decode;
  FJsonObject := list (string * CVal);
  FJsonValue := CVal;
  Deserialize := read_object;
  TryGetStringField := string_field;
  TryGetNumberField := fun _ _ => None;
  TryGetArrayField := array_field;
  TryGetString := as_string
|}.

(** The text of the file [catalog.json]: a catalog of version 1.0 with the
    rewards sword_of_dawn (category weapon) and shield_basic (no category),
    and a stray string between them in the array. *)
Definition catalog_text : string :=
  default EmptyString
    (RefEngine.decode
       "eyJ2ZXJzaW9uIjoiMS4wIiwibGFzdFVwZGF0ZWQiOiIyMDI2LTAxLTAxIiwicmV3YXJkcyI6W3siaWQiOiJzd29yZF9vZl9kYXduIiwibmFtZSI6IlN3b3JkIG9mIERhd24iLCJkZXNjcmlwdGlvbiI6IkEgYnJpZ2h0IGJsYWRlIiwiY2F0ZWdvcnkiOiJ3ZWFwb24ifSwic3RyYXkiLHsiaWQiOiJzaGllbGRfYmFzaWMiLCJuYW1lIjoiQmFzaWMgU2hpZWxkIiwiZGVzY3JpcHRpb24iOiJBIHBsYWluIHNoaWVsZCJ9XX0=").

(** The text of the file [broken.json]: version 2.0 and a date, but no
    rewards. *)
Definition broken_text : string :=
  default EmptyString
    (RefEngine.decode "eyJ2ZXJzaW9uIjoiMi4wIiwibGFzdFVwZGF0ZWQiOiIyMDI2LTAyLTAyIn0=").

Definition load_file (path : string) : option string :=
  if String.eqb path "catalog.json" then Some catalog_text
  else if String.eqb path "broken.json" then Some broken_text
  else None.

(** The services when the path expression of [Initialize] evaluates to
    [path]. *)
Definition services (path : string) : CatalogServices (H := json) := {|
  HasField := has_field;
  GetStringField := fun o k => default EmptyString (string_field o k);
  TryGetObject := as_object;
  LoadFileToString := load_file;
  CatalogPath := path
|}.

End RefCatalog.

(* ===================================================================== *)
(** * Further sample data *)
(* ===================================================================== *)

Module MoreSamples.
Import Samples.

(** The reward system after [Initialize] read [catalog.json]. *)
Definition loaded_system : URewardSystem.t :=
  snd (CatalogLoader.Initialize (H0 := RefCatalog.services "catalog.json")
         URewardSystem.init).

(** A game mode after [InitGame] and the arrival of one player. *)
Definition shard : GameModeWorld.t :=
  GameModeWorld.InitGame (H0 := RefCatalog.services "catalog.json") true "shard-1"
    (at_unix 1700000000) GameModeWorld.ctor.

Definition shard_with_player : GameModeWorld.t :=
  GameModeWorld.PostLogin (Some 1%nat) "player-guid-1" "session-guid-1" "event-guid-1"
    (at_unix 1700000010) (at_unix 1700000011) shard.

(** A manager with two sessions, the first one started. *)
Definition two_sessions : gmap string FPlayerSession.t :=
  snd (USessionManager.CreateSession "player-2" "shard-1" "session-2"
         (at_unix 1700000050) started).

(** Calls on a new manager: a session is created and started, is given
    the same reward under two spellings and one event, a second session is
    created, and the first one is ended. *)
Definition busy_calls : list USessionManager.Call :=
  [USessionManager.CallCreateSession "player-1" "shard-1" "session-1"
     (at_unix 1700000000);
   USessionManager.CallStartSession "session-1";
   USessionManager.CallAddReward "session-1" "sword_of_dawn";
   USessionManager.CallAddReward "SESSION-1" "Sword_Of_Dawn";
   USessionManager.CallTrackEvent "session-1" "reward_grant" ∅ "event-1"
     (at_unix 1700000100);
   USessionManager.CallCreateSession "player-2" "shard-1" "session-2"
     (at_unix 1700000200);
   USessionManager.CallEndSession "session-1" (at_unix 1700003600)].

(** The first session after [busy_calls]. *)
Definition busy_session : FPlayerSession.t :=
  default created_session (USessionManager.run busy_calls ∅ !! "session-1").


(** The sessions of [shard_with_player]. *)
Definition shard_sessions : gmap string FPlayerSession.t :=
  default ∅ (GameModeWorld.SessionManager shard_with_player).

End MoreSamples.

(* ===================================================================== *)
(** * Properties of the engine strings *)
(* ===================================================================== *)

Section FStringFacts.
Import FString.

Lemma append_cons (c : ascii) (s t : string) :
  String c s +:+ t = String c (s +:+ t).
Proof. reflexivity. Qed.

Lemma append_empty_l (s : string) : EmptyString +:+ s = s.
Proof. reflexivity. Qed.

Lemma append_empty_r (s : string) : s +:+ EmptyString = s.
Proof.
  induction s as [|c s IH]; [reflexivity |].
  now rewrite append_cons, IH.
Qed.

Lemma append_assoc (a b c : string) : (a +:+ b) +:+ c = a +:+ (b +:+ c).
Proof.
  induction a as [|x a IH]; [reflexivity |].
  now rewrite !append_cons, IH.
Qed.

Lemma IsEmpty_true (s : string) : IsEmpty s = true <-> s = EmptyString.
Proof. destruct s; simpl; split; congruence. Qed.

Lemma IsEmpty_false (s : string) : IsEmpty s = false <-> s <> EmptyString.
Proof. destruct s; simpl; split; congruence. Qed.

Lemma IsEmpty_append_char (s : string) (c : ascii) :
  IsEmpty (s +:+ String c EmptyString) = false.
Proof. destruct s; reflexivity. Qed.

(** The comparison operator is equality of the case-folded strings. *)
Lemma FString_eq_true (a b : string) : eq a b = true <-> ToLower a = ToLower b.
Proof. unfold eq. apply String.eqb_eq. Qed.

Lemma FString_eq_refl (a : string) : eq a a = true.
Proof. apply FString_eq_true. reflexivity. Qed.

Lemma FString_eq_sym (a b : string) : eq a b = eq b a.
Proof. unfold eq. apply String.eqb_sym. Qed.

Lemma FString_eq_trans (a b c : string) : eq a b = true -> eq b c = true -> eq a c = true.
Proof. rewrite !FString_eq_true. congruence. Qed.

Lemma FString_eq_exact (a b : string) : a = b -> eq a b = true.
Proof. intros ->. apply FString_eq_refl. Qed.

Lemma FString_eq_key (a b : string) : eq a b = true <-> key a = key b.
Proof. apply FString_eq_true. Qed.

Lemma ToLower_IsEmpty (s : string) : IsEmpty (ToLower s) = IsEmpty s.
Proof. destruct s; reflexivity. Qed.

Lemma Contains_false (l : list string) (x : string) :
  Contains l x = false <-> Forall (fun y => eq y x = false) l.
Proof.
  unfold Contains. induction l as [|y l IH]; simpl.
  - split; [constructor | reflexivity].
  - rewrite orb_false_iff, IH. split.
    + intros [Hy Hl]. constructor; assumption.
    + intros Hall. inversion Hall; subst. split; assumption.
Qed.

Lemma Contains_app (l1 l2 : list string) (x : string) :
  Contains (l1 ++ l2) x = Contains l1 x || Contains l2 x.
Proof. unfold Contains. apply existsb_app. Qed.

(** ** Splitting at a delimiter *)

(** [ParseIntoArray] returns the fields that are not empty, in order. *)
Lemma ParseIntoArray_loop_Fields (d : ascii) (s cur : string) :
  ParseIntoArray_loop d s cur = List.filter NonEmpty (Fields_loop d s cur).
Proof.
  revert cur. induction s as [|c s IH]; intros cur; simpl.
  - unfold NonEmpty. destruct (IsEmpty cur); reflexivity.
  - destruct (Ascii.eqb c d); simpl.
    + unfold NonEmpty at 1. rewrite <- IH. destruct (IsEmpty cur); reflexivity.
    + apply IH.
Qed.

Lemma ParseIntoArray_Fields (s : string) (d : ascii) :
  ParseIntoArray s d = List.filter NonEmpty (Fields s d).
Proof. apply ParseIntoArray_loop_Fields. Qed.

Lemma Free_append_char (d c : ascii) (s : string) :
  Free d s -> Ascii.eqb c d = false -> Free d (s +:+ String c EmptyString).
Proof.
  induction s as [|x s IH]; intros Hs Hc.
  - rewrite append_empty_l. split; [assumption | exact I].
  - rewrite append_cons. destruct Hs as [Hx Hs].
    split; [assumption | apply IH; assumption].
Qed.

(** Every part returned by the scanning loop is non-empty and free of the
    delimiter. *)
Lemma ParseIntoArray_loop_parts (d : ascii) (s cur : string) :
  Free d cur ->
  Forall (fun x => IsEmpty x = false /\ Free d x) (ParseIntoArray_loop d s cur).
Proof.
  revert cur. induction s as [|c s IH]; intros cur Hcur; simpl.
  - destruct (IsEmpty cur) eqn:E; repeat constructor; assumption.
  - destruct (Ascii.eqb c d) eqn:Hc.
    + destruct (IsEmpty cur) eqn:E.
      * apply IH. exact I.
      * constructor; [split; assumption | apply IH; exact I].
    + apply IH. apply Free_append_char; assumption.
Qed.

(** Scanning a delimiter-free prefix only extends the window. *)
Lemma ParseIntoArray_loop_prefix (d : ascii) (x s cur : string) :
  Free d x ->
  ParseIntoArray_loop d (x +:+ s) cur = ParseIntoArray_loop d s (cur +:+ x).
Proof.
  revert cur. induction x as [|c x IH]; intros cur Hx.
  - now rewrite append_empty_l, append_empty_r.
  - destruct Hx as [Hc Hx]. rewrite append_cons. simpl.
    rewrite Hc, IH by assumption.
    now rewrite append_assoc, append_cons, append_empty_l.
Qed.

(** Joining three parts with single delimiters and splitting again gives
    the three parts back. *)
Lemma ParseIntoArray_join3 (d : ascii) (h p s : string) :
  IsEmpty h = false -> IsEmpty p = false -> IsEmpty s = false ->
  Free d h -> Free d p -> Free d s ->
  ParseIntoArray (h +:+ String d (p +:+ String d s)) d = [h; p; s].
Proof.
  intros Eh Ep Es Fh Fp Fs. unfold ParseIntoArray.
  rewrite ParseIntoArray_loop_prefix by assumption. simpl.
  rewrite Ascii.eqb_refl, append_empty_l, Eh.
  rewrite ParseIntoArray_loop_prefix by assumption. simpl.
  rewrite Ascii.eqb_refl, append_empty_l, Ep.
  rewrite <- (append_empty_r s) at 1.
  rewrite ParseIntoArray_loop_prefix by assumption. simpl.
  now rewrite append_empty_l, Es.
Qed.

End FStringFacts.

(* ===================================================================== *)
(** * Properties of the token validator *)
(* ===================================================================== *)

Section JWTFacts.
Context `{JsonEngine}.
Import FJWTClaims FJWTValidationResult CognitoConfig UJWTValidator.

Lemma ParseToken_Some (Token h p s : string) :
  ParseToken Token = Some (h, p, s) <-> FString.ParseIntoArray Token "." = [h; p; s].
Proof.
  unfold ParseToken.
  destruct (FString.ParseIntoArray Token ".") as [|a [|b [|c [|d l]]]];
    split; intros E; try discriminate; congruence.
Qed.

Lemma ParseToken_None (Token : string) :
  length (FString.ParseIntoArray Token ".") <> 3%nat -> ParseToken Token = None.
Proof.
  unfold ParseToken.
  destruct (FString.ParseIntoArray Token ".") as [|a [|b [|c [|d l]]]];
    simpl; intros E; try reflexivity.
  now contradiction E.
Qed.

Lemma ParseToken_not_empty (Token h p s : string) :
  ParseToken Token = Some (h, p, s) -> FString.IsEmpty Token = false.
Proof. destruct Token; [discriminate | reflexivity]. Qed.

Lemma ParseToken_join3 (Token h p s : string) :
  ParseToken Token = Some (h, p, s) -> ParseToken (join3 h p s) = Some (h, p, s).
Proof.
  intros E. apply ParseToken_Some in E. apply ParseToken_Some.
  pose proof (ParseIntoArray_loop_parts "." Token EmptyString I) as Hall.
  fold (FString.ParseIntoArray Token ".") in Hall. rewrite E in Hall.
  inversion Hall as [|? ? [Eh Fh] Hall1]; subst.
  inversion Hall1 as [|? ? [Ep Fp] Hall2]; subst.
  inversion Hall2 as [|? ? [Es Fs] _]; subst.
  now apply ParseIntoArray_join3.
Qed.

(** [ValidateToken] and [DecodeToken] see a token only through its emptiness
    and its parts. *)
Lemma ValidateToken_parts cfg UtcNow (Token Token' : string) R :
  FString.IsEmpty Token = FString.IsEmpty Token' ->
  ParseToken Token = ParseToken Token' ->
  ValidateToken cfg UtcNow Token R = ValidateToken cfg UtcNow Token' R.
Proof. intros E1 E2. unfold ValidateToken. now rewrite E1, E2. Qed.

Lemma DecodeToken_parts (Token Token' : string) C :
  ParseToken Token = ParseToken Token' ->
  DecodeToken Token C = DecodeToken Token' C.
Proof. intros E. unfold DecodeToken. now rewrite E. Qed.

Lemma IsTokenExpired_true UtcNow exp :
  IsTokenExpired UtcNow exp = true <-> exp <= FDateTime.ToUnixTimestamp UtcNow.
Proof. unfold IsTokenExpired. apply Z.leb_le. Qed.

Lemma IsTokenExpired_false UtcNow exp :
  IsTokenExpired UtcNow exp = false <-> FDateTime.ToUnixTimestamp UtcNow < exp.
Proof. unfold IsTokenExpired. apply Z.leb_gt. Qed.

Lemma ParseClaims_Some (Payload json : string) obj C0 :
  DecodeBase64URL Payload = Some json -> Deserialize json = Some obj ->
  ParseClaims Payload C0 = Some (ExtractClaims obj C0).
Proof. intros E1 E2. unfold ParseClaims. now rewrite E1, E2. Qed.

(** When the claims pass, what [ValidateClaims] tested. *)
Lemma ValidateClaims_true cfg C msg :
  fst (ValidateClaims cfg C msg) = true <->
  (FString.IsEmpty (CognitoIssuer cfg) = true
   \/ FString.eq (Issuer C) (CognitoIssuer cfg) = true) /\
  (FString.IsEmpty (CognitoClientId cfg) = true
   \/ FString.eq (Audience C) (CognitoClientId cfg) = true) /\
  (FString.eq (TokenUse C) "access" = true \/ FString.eq (TokenUse C) "id" = true) /\
  FString.IsEmpty (Subject C) = false.
Proof.
  unfold ValidateClaims, FString.ne.
  destruct (FString.IsEmpty (CognitoIssuer cfg)),
           (FString.eq (Issuer C) (CognitoIssuer cfg)),
           (FString.IsEmpty (CognitoClientId cfg)),
           (FString.eq (Audience C) (CognitoClientId cfg)),
           (FString.eq (TokenUse C) "access"),
           (FString.eq (TokenUse C) "id"),
           (FString.IsEmpty (Subject C)); simpl; intuition congruence.
Qed.

Lemma ValidateClaims_pass cfg C msg :
  fst (ValidateClaims cfg C msg) = true -> ValidateClaims cfg C msg = (true, msg).
Proof.
  unfold ValidateClaims.
  repeat match goal with |- context [if ?b then _ else _] => destruct b end;
    simpl; congruence.
Qed.

(** The expiration test on a token whose [exp] the 32-bit read of
    [ParseClaims] returns: the token is refused with the message "Token has
    expired" as soon as the clock, in seconds since the epoch, has reached
    that value. Equality counts as expired, and the answer does not depend
    on the configuration or on the other claims: their validation is not
    reached. *)
Theorem expired_token_rejected_before_claims_validation
    cfg UtcNow (Token h p s json : string) obj exp R :
  ParseToken Token = Some (h, p, s) ->
  DecodeBase64URL p = Some json ->
  Deserialize json = Some obj ->
  TryGetNumberField obj "exp" = Some exp ->
  exp <= FDateTime.ToUnixTimestamp UtcNow ->
  ValidateToken cfg UtcNow Token R
  = (false, FJWTValidationResult.mk false "Token has expired"
              (ExtractClaims obj (Claims R))).
Proof.
  intros Hparse Hdec Hjson Hexp Hle. unfold ValidateToken.
  rewrite (ParseToken_not_empty _ _ _ _ Hparse), Hparse.
  rewrite (ParseClaims_Some _ _ _ _ Hdec Hjson).
  assert (ExpirationTime (ExtractClaims obj (Claims R)) = exp) as ->
    by (simpl; now rewrite Hexp).
  apply IsTokenExpired_true in Hle. now rewrite Hle.
Qed.

(** The messages of [ValidateClaims] are not those of the earlier steps. *)
Lemma ValidateClaims_message cfg C msg :
  fst (ValidateClaims cfg C msg) = false ->
  snd (ValidateClaims cfg C msg) <> "Invalid token format"
  /\ snd (ValidateClaims cfg C msg) <> "Token has expired"
  /\ snd (ValidateClaims cfg C msg) <> "Token is empty".
Proof.
  unfold ValidateClaims.
  repeat match goal with |- context [if ?b then _ else _] => destruct b end;
    simpl; try discriminate; intros _;
    repeat split; intros E; rewrite ?append_cons in E; discriminate E.
Qed.

(** The ways [ValidateToken] ends, with what it returns in each. *)
Lemma ValidateToken_cases cfg UtcNow (Token : string) R :
  (FString.IsEmpty Token = true
   /\ ValidateToken cfg UtcNow Token R
      = (false, FJWTValidationResult.mk false "Token is empty" (Claims R)))
  \/ (FString.IsEmpty Token = false /\ ParseToken Token = None
      /\ ValidateToken cfg UtcNow Token R
         = (false, FJWTValidationResult.mk false "Invalid token format" (Claims R)))
  \/ (exists h p s,
        FString.IsEmpty Token = false /\ ParseToken Token = Some (h, p, s)
        /\ ((ParseClaims p (Claims R) = None
             /\ ValidateToken cfg UtcNow Token R
                = (false, FJWTValidationResult.mk false "Failed to parse token claims"
                            (Claims R)))
            \/ exists C1,
                 ParseClaims p (Claims R) = Some C1
                 /\ ((IsTokenExpired UtcNow (ExpirationTime C1) = true
                      /\ ValidateToken cfg UtcNow Token R
                         = (false, FJWTValidationResult.mk false "Token has expired" C1))
                     \/ (IsTokenExpired UtcNow (ExpirationTime C1) = false
                         /\ fst (ValidateClaims cfg C1 "") = false
                         /\ ValidateToken cfg UtcNow Token R
                            = (false, FJWTValidationResult.mk false
                                        (snd (ValidateClaims cfg C1 "")) C1))
                     \/ (IsTokenExpired UtcNow (ExpirationTime C1) = false
                         /\ fst (ValidateClaims cfg C1 "") = true
                         /\ ValidateToken cfg UtcNow Token R
                            = (true, FJWTValidationResult.mk true "" C1))))).
Proof.
  unfold ValidateToken.
  destruct (FString.IsEmpty Token); [left; now split |]. right.
  destruct (ParseToken Token) as [[[h p] s]|]; [right | left; now repeat split].
  exists h, p, s. split; [reflexivity |]. split; [reflexivity |].
  destruct (ParseClaims p (Claims R)) as [C1|]; [right | left; now split].
  exists C1. split; [reflexivity |].
  destruct (IsTokenExpired UtcNow (ExpirationTime C1)); [left; now split |]. right.
  pose proof (ValidateClaims_pass cfg C1 "") as Hok.
  destruct (ValidateClaims cfg C1 "") as [[] msg]; simpl in *.
  - right. specialize (Hok Logic.eq_refl). injection Hok as ->.
    unfold VerifySignature. rewrite andb_false_r. now repeat split.
  - left. now repeat split.
Qed.

(** When the 32-bit read of [exp] returns nothing (the claim is absent, is
    not a number, or lies outside the range of [int32]), the member
    [ExpirationTime] keeps the value the caller's struct held, and the
    expiration test is made on that value. *)
Lemma ValidateToken_exp_not_read cfg UtcNow (Token h p s json : string) obj R :
  ParseToken Token = Some (h, p, s) ->
  DecodeBase64URL p = Some json ->
  Deserialize json = Some obj ->
  TryGetNumberField obj "exp" = None ->
  ExpirationTime (ExtractClaims obj (Claims R)) = ExpirationTime (Claims R)
  /\ (FJWTValidationResult.ErrorMessage (snd (ValidateToken cfg UtcNow Token R))
      = "Token has expired"
      <-> ExpirationTime (Claims R) <= FDateTime.ToUnixTimestamp UtcNow).
Proof.
  intros Hparse Hdec Hjson Hexp.
  assert (ExpirationTime (ExtractClaims obj (Claims R)) = ExpirationTime (Claims R))
    as Hkeep by (simpl; now rewrite Hexp).
  split; [exact Hkeep |].
  rewrite <- IsTokenExpired_true, <- Hkeep.
  destruct (ValidateToken_cases cfg UtcNow Token R)
    as [(He & _) | [(_ & Hn & _) | (h' & p' & s' & _ & Hp & Hrest)]].
  - rewrite (ParseToken_not_empty _ _ _ _ Hparse) in He. discriminate.
  - congruence.
  - rewrite Hparse in Hp. injection Hp as <- <- <-.
    rewrite (ParseClaims_Some _ _ _ _ Hdec Hjson) in Hrest.
    destruct Hrest as [(Hc & _) | (C1 & [= <-] & Hrest)]; [discriminate |].
    destruct Hrest as [(He & ->) | [(He & Hf & ->) | (He & _ & ->)]];
      rewrite He; cbn [snd FJWTValidationResult.ErrorMessage].
    + now split.
    + split; [| discriminate].
      intros E. now destruct (proj1 (proj2 (ValidateClaims_message _ _ _ Hf)) E).
    + split; discriminate.
Qed.

(** C7 (amended): with no issuer configured the issuer is not tested, and
    with no client id configured the audience is not tested; a configured
    value is compared with [FString]'s operator, that is up to the case of
    ASCII letters, not exactly. Consequently a well-formed token whose
    [exp] is returned by the 32-bit read of [ParseClaims] and lies in the
    future, whose token use is "access" or "id" and whose subject is not
    empty is accepted under a configuration without issuer and client id,
    and the claims returned carry the subject embedded in the token.
    Nothing is said of the tokens whose [exp] that read does not return. *)
Theorem open_mode_and_configured_match :
  (forall cfg C msg,
     fst (ValidateClaims cfg C msg) = true <->
     (CognitoIssuer cfg = EmptyString
      \/ FString.ToLower (Issuer C) = FString.ToLower (CognitoIssuer cfg)) /\
     (CognitoClientId cfg = EmptyString
      \/ FString.ToLower (Audience C) = FString.ToLower (CognitoClientId cfg)) /\
     (FString.ToLower (TokenUse C) = "access" \/ FString.ToLower (TokenUse C) = "id") /\
     Subject C <> EmptyString) /\
  (forall cfg UtcNow (Token h p s json : string) obj sub use exp R,
     CognitoIssuer cfg = EmptyString ->
     CognitoClientId cfg = EmptyString ->
     ParseToken Token = Some (h, p, s) ->
     DecodeBase64URL p = Some json ->
     Deserialize json = Some obj ->
     TryGetNumberField obj "exp" = Some exp ->
     FDateTime.ToUnixTimestamp UtcNow < exp ->
     TryGetStringField obj "token_use" = Some use ->
     use = "access" \/ use = "id" ->
     TryGetStringField obj "sub" = Some sub ->
     sub <> EmptyString ->
     ValidateToken cfg UtcNow Token R
     = (true, FJWTValidationResult.mk true "" (ExtractClaims obj (Claims R)))
     /\ Subject (ExtractClaims obj (Claims R)) = sub).
Proof.
  split.
  - intros cfg C msg. rewrite ValidateClaims_true.
    rewrite !IsEmpty_true, !FString_eq_true, IsEmpty_false. reflexivity.
  - intros cfg UtcNow Token h p s json obj sub use exp R
           Hiss Haud Hparse Hdec Hjson Hexp Hlt Huse Huse' Hsub Hsub'.
    assert (Subject (ExtractClaims obj (Claims R)) = sub) as ES
      by (simpl; now rewrite Hsub).
    split; [| exact ES].
    unfold ValidateToken.
    rewrite (ParseToken_not_empty _ _ _ _ Hparse), Hparse.
    rewrite (ParseClaims_Some _ _ _ _ Hdec Hjson).
    assert (ExpirationTime (ExtractClaims obj (Claims R)) = exp) as ->
      by (simpl; now rewrite Hexp).
    apply IsTokenExpired_false in Hlt. rewrite Hlt.
    assert (fst (ValidateClaims cfg (ExtractClaims obj (Claims R)) "") = true) as Hok.
    { apply ValidateClaims_true. rewrite ES, Hiss, Haud.
      repeat split; try (left; reflexivity).
      - assert (TokenUse (ExtractClaims obj (Claims R)) = use) as ->
          by (simpl; now rewrite Huse).
        destruct Huse' as [-> | ->]; [left | right]; reflexivity.
      - now apply IsEmpty_false. }
    rewrite (ValidateClaims_pass _ _ _ Hok).
    unfold VerifySignature. now rewrite andb_false_r.
Qed.

(** [ParseToken] fails exactly when the parts are not three. *)
Lemma ParseToken_None_iff (Token : string) :
  ParseToken Token = None <-> length (FString.ParseIntoArray Token ".") <> 3%nat.
Proof.
  split; [| apply ParseToken_None].
  unfold ParseToken.
  destruct (FString.ParseIntoArray Token ".") as [|a [|b [|c [|d l]]]];
    simpl; intros E; try discriminate; lia.
Qed.

(** C9 (amended): a token whose non-empty dot-separated segments do not
    number exactly three is refused by [ValidateToken], with the message
    "Invalid token format" ("Token is empty" for the empty string; both are
    the failure the specification calls MALFORMED_TOKEN) and with the
    caller's claims untouched, and [DecodeToken] returns false. This covers
    every token with exactly two dot-separated segments and every token with
    exactly four dot-separated segments none of which is empty. A token of
    three non-empty segments whose payload segment does not decode, as
    Base64url or then as a JSON object, is refused as well, with the
    message "Failed to parse token claims" and the claims untouched, and
    [DecodeToken] returns false on it. *)
Theorem token_without_three_parts_rejected cfg UtcNow (Token : string) R C :
  (length (FString.Fields Token ".") = 2%nat
   \/ (length (FString.Fields Token ".") = 4%nat
       /\ forallb FString.NonEmpty (FString.Fields Token ".") = true)
   \/ length (List.filter FString.NonEmpty (FString.Fields Token ".")) <> 3%nat ->
   ValidateToken cfg UtcNow Token R
   = (false, FJWTValidationResult.mk false
               (if FString.IsEmpty Token then "Token is empty"
                else "Invalid token format")
               (Claims R))
   /\ DecodeToken Token C = None)
  /\ (forall h p s,
        List.filter FString.NonEmpty (FString.Fields Token ".") = [h; p; s] ->
        DecodeBase64URL p = None
        \/ (exists json, DecodeBase64URL p = Some json /\ Deserialize json = None) ->
        ValidateToken cfg UtcNow Token R
        = (false, FJWTValidationResult.mk false "Failed to parse token claims"
                    (Claims R))
        /\ DecodeToken Token C = None).
Proof.
  split.
  - intros Hshape.
    assert (length (FString.ParseIntoArray Token ".") <> 3%nat) as Hlen.
    { rewrite ParseIntoArray_Fields.
      destruct Hshape as [H2 | [[H4 Hfull] | Hne]]; [| | exact Hne].
      - pose proof (List.filter_length_le FString.NonEmpty (FString.Fields Token ".")).
        lia.
      - rewrite forallb_filter_id by exact Hfull. lia. }
    apply ParseToken_None in Hlen. unfold ValidateToken, DecodeToken.
    rewrite Hlen. split; [| reflexivity].
    destruct (FString.IsEmpty Token); reflexivity.
  - intros h p s Hparts Hbad.
    rewrite <- ParseIntoArray_Fields in Hparts. apply ParseToken_Some in Hparts.
    assert (forall C0, ParseClaims p C0 = None) as Hnone.
    { intros C0. unfold ParseClaims.
      destruct Hbad as [-> | (json & -> & ->)]; reflexivity. }
    unfold ValidateToken, DecodeToken.
    rewrite (ParseToken_not_empty _ _ _ _ Hparts), Hparts, !Hnone. now split.
Qed.

(** C10: the structure check of [ParseToken] counts the non-empty
    dot-separated segments only. A token is accepted by [ParseToken] exactly
    when its non-empty segments are three, so "a..b.c" and "a.b.c." (four
    dot-separated segments each) are accepted; [ValidateToken] and
    [DecodeToken] then treat the token exactly as they treat its three
    non-empty segments joined by single dots. Hence [ValidateToken] refuses
    a token for its format exactly when the token is not empty and its
    non-empty segments are not three, and [DecodeToken] fails on every such
    token; on a token with three non-empty segments both go on to the
    payload: [DecodeToken] returns what [ParseClaims] reads from the second
    of them, and [ValidateToken] accepts exactly when these claims are read,
    are not expired and pass [ValidateClaims]. *)
Theorem ParseToken_counts_non_empty_segments :
  (forall Token h p s,
     ParseToken Token = Some (h, p, s) <->
     List.filter FString.NonEmpty (FString.Fields Token ".") = [h; p; s]) /\
  (FString.Fields "a..b.c" "." = ["a"; ""; "b"; "c"]
   /\ ParseToken "a..b.c" = Some ("a", "b", "c")) /\
  (FString.Fields "a.b.c." "." = ["a"; "b"; "c"; ""]
   /\ ParseToken "a.b.c." = Some ("a", "b", "c")) /\
  (forall cfg UtcNow Token h p s R C,
     ParseToken Token = Some (h, p, s) ->
     ValidateToken cfg UtcNow Token R = ValidateToken cfg UtcNow (join3 h p s) R
     /\ DecodeToken Token C = DecodeToken (join3 h p s) C) /\
  (forall cfg UtcNow Token R,
     FJWTValidationResult.ErrorMessage (snd (ValidateToken cfg UtcNow Token R))
     = "Invalid token format"
     <-> Token <> EmptyString
         /\ length (List.filter FString.NonEmpty (FString.Fields Token ".")) <> 3%nat) /\
  (forall Token C,
     length (List.filter FString.NonEmpty (FString.Fields Token ".")) <> 3%nat ->
     DecodeToken Token C = None) /\
  (forall cfg UtcNow Token h p s R C,
     List.filter FString.NonEmpty (FString.Fields Token ".") = [h; p; s] ->
     DecodeToken Token C = ParseClaims p C
     /\ (fst (ValidateToken cfg UtcNow Token R) = true <->
         exists C1,
           ParseClaims p (Claims R) = Some C1
           /\ IsTokenExpired UtcNow (ExpirationTime C1) = false
           /\ fst (ValidateClaims cfg C1 "") = true)).
Proof.
  split; [| split; [| split; [| split; [| split; [| split]]]]].
  - intros Token h p s. rewrite ParseToken_Some, ParseIntoArray_Fields. reflexivity.
  - split; reflexivity.
  - split; reflexivity.
  - intros cfg UtcNow Token h p s R C Hparse.
    pose proof (ParseToken_join3 _ _ _ _ Hparse) as Hjoin.
    split.
    + apply ValidateToken_parts; [| congruence].
      rewrite (ParseToken_not_empty _ _ _ _ Hparse).
      now rewrite (ParseToken_not_empty _ _ _ _ Hjoin).
    + apply DecodeToken_parts. congruence.
  - intros cfg UtcNow Token R. rewrite <- ParseIntoArray_Fields, <- ParseToken_None_iff.
    destruct (ValidateToken_cases cfg UtcNow Token R)
      as [(He & ->) | [(He & Hn & ->) | (h & p & s & He & Hp & Hrest)]].
    + apply IsEmpty_true in He. simpl. split; [discriminate |]. now intros [Hne _].
    + apply IsEmpty_false in He. simpl. now split.
    + split; [| intros [_ Hn]; congruence].
      intros E. exfalso.
      destruct Hrest as [(_ & Hv) | (C1 & _ & [(_ & Hv) | [(_ & Hf & Hv) | (_ & _ & Hv)]])];
        rewrite Hv in E; simpl in E; try discriminate E.
      now destruct (proj1 (ValidateClaims_message _ _ _ Hf) E).
  - intros Token C Hlen. rewrite <- ParseIntoArray_Fields in Hlen.
    apply ParseToken_None in Hlen. unfold DecodeToken. now rewrite Hlen.
  - intros cfg UtcNow Token h p s R C Hparts.
    rewrite <- ParseIntoArray_Fields in Hparts. apply ParseToken_Some in Hparts.
    split; [unfold DecodeToken; now rewrite Hparts |].
    destruct (ValidateToken_cases cfg UtcNow Token R)
      as [(He & _) | [(_ & Hn & _) | (h' & p' & s' & _ & Hp & Hrest)]].
    + rewrite (ParseToken_not_empty _ _ _ _ Hparts) in He. discriminate.
    + congruence.
    + rewrite Hparts in Hp. injection Hp as <- <- <-.
      destruct Hrest as [(Hc & ->) | (C1 & Hc & [(He & ->) | [(He & Hf & ->) | (He & Hf & ->)]])];
        simpl; split; try discriminate.
      * intros (C2 & Hc2 & _). congruence.
      * intros (C2 & Hc2 & He2 & _). congruence.
      * intros (C2 & Hc2 & _ & Hf2). congruence.
      * intros _. exists C1. now repeat split.
      * reflexivity.
Qed.

End JWTFacts.

(* ===================================================================== *)
(** * Properties of the session manager *)
(* ===================================================================== *)

Section SessionFacts.
Import FPlayerSession USessionManager.

Lemma Find_Add_same {V} (k : string) (v : V) (m : gmap string V) :
  TMap.Find (TMap.Add k v m) k = Some v.
Proof. unfold TMap.Find, TMap.Add. apply lookup_insert_eq. Qed.

Lemma Find_Add_other {V} (k k' : string) (v : V) (m : gmap string V) :
  FString.key k <> FString.key k' ->
  TMap.Find (TMap.Add k v m) k' = TMap.Find m k'.
Proof. intros Hne. unfold TMap.Find, TMap.Add. now apply lookup_insert_ne. Qed.

Lemma Add_Add {V} (k : string) (v w : V) (m : gmap string V) :
  TMap.Add k w (TMap.Add k v m) = TMap.Add k w m.
Proof. unfold TMap.Add. apply insert_insert_eq. Qed.

(** ** The guarded transition *)

Lemma TransitionState_ok id From To (m : Sessions) s :
  TMap.Find m id = Some s -> State s = From ->
  TransitionState id From To m = (true, TMap.Add id (set_State To s) m).
Proof.
  intros Hfind Hst. unfold TransitionState. rewrite Hfind.
  now rewrite bool_decide_eq_true_2.
Qed.

Lemma TransitionState_wrong_state id From To (m : Sessions) s :
  TMap.Find m id = Some s -> State s <> From ->
  TransitionState id From To m = (false, m).
Proof.
  intros Hfind Hst. unfold TransitionState. rewrite Hfind.
  now rewrite bool_decide_eq_false_2.
Qed.

Lemma TransitionState_missing id From To (m : Sessions) :
  TMap.Find m id = None -> TransitionState id From To m = (false, m).
Proof. intros Hfind. unfold TransitionState. now rewrite Hfind. Qed.

(** The three ways a transition can go. *)
Lemma TransitionState_cases id From To (m : Sessions) :
  (exists s, TMap.Find m id = Some s /\ State s = From
             /\ TransitionState id From To m = (true, TMap.Add id (set_State To s) m))
  \/ ((forall s, TMap.Find m id = Some s -> State s <> From)
      /\ TransitionState id From To m = (false, m)).
Proof.
  destruct (TMap.Find m id) as [s|] eqn:Hfind.
  - destruct (decide (State s = From)) as [Hst|Hst].
    + left. exists s. eauto using TransitionState_ok.
    + right. split; [intros s' [= <-]; exact Hst |].
      eauto using TransitionState_wrong_state.
  - right. split; [discriminate |]. now apply TransitionState_missing.
Qed.

Lemma StartSession_eq id (m : Sessions) :
  StartSession id m = TransitionState id CREATED ACTIVE m.
Proof.
  unfold StartSession. now destruct (TransitionState id CREATED ACTIVE m) as [[] ?].
Qed.

(** The session a successful [EndSession] stores. *)
Lemma EndSession_active id UtcNow (m : Sessions) s :
  TMap.Find m id = Some s -> State s = ACTIVE ->
  EndSession id UtcNow m
  = (true,
     TMap.Add id
       (FPlayerSession.mk (SessionId s) (PlayerId s) (ShardId s) ENDED (StartTime s)
          UtcNow
          (map (FInteractionEvent.set_TTL (CalculateTTLFromTime UtcNow)) (Events s))
          (Rewards s) (CalculateTTLFromTime UtcNow))
       m).
Proof.
  intros Hfind Hst. unfold EndSession.
  rewrite (TransitionState_ok _ _ _ _ _ Hfind Hst), Find_Add_same.
  simpl. now rewrite Add_Add.
Qed.

Lemma EndSession_rejected id UtcNow (m : Sessions) :
  (forall s, TMap.Find m id = Some s -> State s <> ACTIVE) ->
  EndSession id UtcNow m = (false, m).
Proof.
  intros Hno. unfold EndSession.
  destruct (TransitionState_cases id ACTIVE ENDED m) as [(s & Hf & Hs & _) | [_ ->]].
  - now destruct (Hno s Hf).
  - reflexivity.
Qed.

(** ** States of stored sessions *)

Lemma Lawful_Add id s (m : Sessions) :
  State s <> EXPIRED -> Lawful m -> Lawful (TMap.Add id s m).
Proof. intros Hs Hm. unfold Lawful, TMap.Add. now apply map_Forall_insert_2. Qed.

Lemma Lawful_Find id s (m : Sessions) :
  Lawful m -> TMap.Find m id = Some s -> State s <> EXPIRED.
Proof. intros Hm Hfind. exact (Hm _ _ Hfind). Qed.

Lemma Lawful_TransitionState id From To (m : Sessions) :
  To <> EXPIRED -> Lawful m -> Lawful (snd (TransitionState id From To m)).
Proof.
  intros HTo Hm.
  destruct (TransitionState_cases id From To m) as [(s & _ & _ & ->) | [_ ->]];
    simpl; [apply Lawful_Add |]; assumption.
Qed.

Lemma Lawful_exec c (m : Sessions) : Lawful m -> Lawful (exec c m).
Proof.
  intros Hm.
  destruct c as [p sh g now | SessionId | SessionId now | SessionId ty d g now
                | SessionId r | SessionId now | SessionId | SessionId | SessionId];
    simpl; try assumption.
  - apply Lawful_Add; [discriminate | assumption].
  - rewrite StartSession_eq. now apply Lawful_TransitionState.
  - destruct (TMap.Find m SessionId) as [s|] eqn:Hfind.
    + destruct (decide (State s = ACTIVE)) as [Hst|Hst].
      * rewrite (EndSession_active _ _ _ _ Hfind Hst). simpl.
        apply Lawful_Add; [discriminate | assumption].
      * rewrite EndSession_rejected; [assumption |].
        intros s' Hs'. congruence.
    + rewrite EndSession_rejected; [assumption |]. intros s' Hs'. congruence.
  - unfold TrackEvent. destruct (TMap.Find m SessionId) as [s|] eqn:Hfind;
      [| assumption].
    destruct (negb _); [assumption |].
    apply Lawful_Add; [| assumption]. simpl. eauto using Lawful_Find.
  - unfold AddReward. destruct (TMap.Find m SessionId) as [s|] eqn:Hfind;
      [| assumption].
    destruct (FString.Contains _ _); [assumption |].
    apply Lawful_Add; [| assumption]. simpl. eauto using Lawful_Find.
  - unfold DiscardSessionState.
    destruct (TMap.Find m SessionId) as [s|] eqn:Hfind; [| assumption].
    apply Lawful_Add; [| assumption]. simpl. eauto using Lawful_Find.
Qed.

Lemma Lawful_run cs (m : Sessions) : Lawful m -> Lawful (run cs m).
Proof.
  revert m. induction cs as [|c cs IH]; intros m Hm; simpl; [assumption |].
  apply IH. now apply Lawful_exec.
Qed.

Lemma not_EXPIRED (st : ESessionState) :
  st <> EXPIRED -> st = CREATED \/ st = ACTIVE \/ st = ENDED.
Proof. destruct st; intros Hne; auto. now contradiction Hne. Qed.

Lemma StartSession_true_iff id (m : Sessions) :
  fst (StartSession id m) = true <->
  exists s, TMap.Find m id = Some s /\ State s = CREATED.
Proof.
  rewrite StartSession_eq. split.
  - destruct (TransitionState_cases id CREATED ACTIVE m)
      as [(s & Hf & Hs & ->) | [Hno ->]]; simpl; [eauto | discriminate].
  - intros (s & Hf & Hs). now rewrite (TransitionState_ok _ _ _ _ _ Hf Hs).
Qed.

Lemma StartSession_created id (m : Sessions) s :
  TMap.Find m id = Some s -> State s = CREATED ->
  StartSession id m = (true, TMap.Add id (set_State ACTIVE s) m)
  /\ GetSessionState id (snd (StartSession id m)) = ACTIVE.
Proof.
  intros Hf Hs. rewrite StartSession_eq, (TransitionState_ok _ _ _ _ _ Hf Hs).
  split; [reflexivity |]. simpl. unfold GetSessionState. now rewrite Find_Add_same.
Qed.

Lemma StartSession_refused id (m : Sessions) :
  fst (StartSession id m) = false -> snd (StartSession id m) = m.
Proof.
  rewrite StartSession_eq.
  destruct (TransitionState_cases id CREATED ACTIVE m)
    as [(s & Hf & Hs & ->) | [Hno ->]]; simpl; [discriminate | reflexivity].
Qed.

Lemma EndSession_cases id UtcNow (m : Sessions) :
  (exists s, TMap.Find m id = Some s /\ State s = ACTIVE)
  \/ EndSession id UtcNow m = (false, m).
Proof.
  destruct (TMap.Find m id) as [s|] eqn:Hfind.
  - destruct (decide (State s = ACTIVE)) as [Hst|Hst]; [eauto |].
    right. apply EndSession_rejected. intros s' Hs'. congruence.
  - right. apply EndSession_rejected. intros s' Hs'. congruence.
Qed.

Lemma EndSession_true_iff id UtcNow (m : Sessions) :
  fst (EndSession id UtcNow m) = true <->
  exists s, TMap.Find m id = Some s /\ State s = ACTIVE.
Proof.
  split.
  - destruct (EndSession_cases id UtcNow m) as [Hex | ->]; [now intros _ | discriminate].
  - intros (s & Hf & Hs). now rewrite (EndSession_active _ _ _ _ Hf Hs).
Qed.

Lemma EndSession_ended id UtcNow (m : Sessions) s :
  TMap.Find m id = Some s -> State s = ACTIVE ->
  GetSessionState id (snd (EndSession id UtcNow m)) = ENDED.
Proof.
  intros Hf Hs. rewrite (EndSession_active _ _ _ _ Hf Hs). simpl.
  unfold GetSessionState. now rewrite Find_Add_same.
Qed.

Lemma EndSession_refused id UtcNow (m : Sessions) :
  fst (EndSession id UtcNow m) = false -> snd (EndSession id UtcNow m) = m.
Proof.
  destruct (EndSession_cases id UtcNow m) as [(s & Hf & Hs) | ->]; [| reflexivity].
  rewrite (EndSession_active _ _ _ _ Hf Hs). discriminate.
Qed.

Lemma run_states cs (k : string) s :
  run cs ∅ !! k = Some s ->
  State s = CREATED \/ State s = ACTIVE \/ State s = ENDED.
Proof.
  intros Hk. apply not_EXPIRED.
  assert (Lawful (run cs ∅)) as HL by (apply Lawful_run, map_Forall_empty).
  exact (HL _ _ Hk).
Qed.

(** C1: [StartSession] succeeds exactly on a session whose state is
    [CREATED] and stores it as [ACTIVE]; [EndSession] succeeds exactly on a
    session whose state is [ACTIVE] and stores it as [ENDED]; a refused
    transition returns [false] and leaves every session as it was; and
    whatever calls are made on a new manager, every stored session is in one
    of the states [CREATED], [ACTIVE], [ENDED]. *)
Theorem session_state_machine_safety :
  (forall id (m : Sessions),
     fst (StartSession id m) = true <->
     exists s, TMap.Find m id = Some s /\ State s = CREATED) /\
  (forall id (m : Sessions) s,
     TMap.Find m id = Some s -> State s = CREATED ->
     StartSession id m = (true, TMap.Add id (set_State ACTIVE s) m)
     /\ GetSessionState id (snd (StartSession id m)) = ACTIVE) /\
  (forall id (m : Sessions),
     fst (StartSession id m) = false -> snd (StartSession id m) = m) /\
  (forall id UtcNow (m : Sessions),
     fst (EndSession id UtcNow m) = true <->
     exists s, TMap.Find m id = Some s /\ State s = ACTIVE) /\
  (forall id UtcNow (m : Sessions) s,
     TMap.Find m id = Some s -> State s = ACTIVE ->
     GetSessionState id (snd (EndSession id UtcNow m)) = ENDED) /\
  (forall id UtcNow (m : Sessions),
     fst (EndSession id UtcNow m) = false -> snd (EndSession id UtcNow m) = m) /\
  (forall cs (k : string) s,
     run cs ∅ !! k = Some s ->
     State s = CREATED \/ State s = ACTIVE \/ State s = ENDED).
Proof.
  exact (conj StartSession_true_iff
        (conj StartSession_created
        (conj StartSession_refused
        (conj EndSession_true_iff
        (conj EndSession_ended
        (conj EndSession_refused run_states)))))).
Qed.

End SessionFacts.

Section SessionEffects.
Import FPlayerSession USessionManager.

Lemma wrap64_small (z : Z) : - 2^63 <= z < 2^63 -> FDateTime.wrap64 z = z.
Proof. intros Hz. unfold FDateTime.wrap64. rewrite Z.mod_small; lia. Qed.

Lemma FromHours_72 : FDateTime.FromHours 72 = 72 * 3600 * FDateTime.TicksPerSecond.
Proof. reflexivity. Qed.

(** For a date the engine can represent and that is not before 1970, the TTL
    is the Unix time of the date plus 72 hours counted in seconds. *)
Lemma CalculateTTLFromTime_seconds (FromTime : Z) :
  FDateTime.UnixEpochTicks <= FromTime <= FDateTime.MaxTicks ->
  CalculateTTLFromTime FromTime = FDateTime.ToUnixTimestamp FromTime + 72 * 3600.
Proof.
  unfold CalculateTTLFromTime, FDateTime.ToUnixTimestamp, FDateTime.add.
  rewrite FromHours_72.
  unfold FDateTime.UnixEpochTicks, FDateTime.MaxTicks, FDateTime.TicksPerSecond.
  intros Hrange.
  rewrite (wrap64_small (FromTime + _)) by lia.
  rewrite !wrap64_small by lia.
  rewrite !Z.quot_div_nonneg by lia.
  replace (FromTime + 72 * 3600 * 10000000 - 621355968000000000)
    with (FromTime - 621355968000000000 + 72 * 3600 * 10000000) by lia.
  now rewrite Z.div_add by lia.
Qed.

Lemma Forall_set_TTL (v : Z) (l : list FInteractionEvent.t) :
  Forall (fun e => FInteractionEvent.TTL e = v) (map (FInteractionEvent.set_TTL v) l).
Proof. induction l; simpl; constructor; [reflexivity | assumption]. Qed.

Lemma Stamped_Add id s (m : Sessions) :
  (State s = ENDED ->
   TTL s = CalculateTTLFromTime (EndTime s)
   /\ Forall (fun e => FInteractionEvent.TTL e = TTL s) (Events s)) ->
  Stamped m -> Stamped (TMap.Add id s m).
Proof. intros Hs Hm. unfold Stamped, TMap.Add. now apply map_Forall_insert_2. Qed.

Lemma Stamped_exec c (m : Sessions) : Stamped m -> Stamped (exec c m).
Proof.
  intros Hm.
  destruct c as [p sh g now | SessionId | SessionId now | SessionId ty d g now
                | SessionId r | SessionId now | SessionId | SessionId | SessionId];
    simpl; try assumption.
  - apply Stamped_Add; [discriminate | assumption].
  - rewrite StartSession_eq.
    destruct (TransitionState_cases SessionId CREATED ACTIVE m)
      as [(s & _ & _ & ->) | [_ ->]]; simpl; [| assumption].
    apply Stamped_Add; [discriminate | assumption].
  - destruct (EndSession_cases SessionId now m) as [(s & Hf & Hs) | ->];
      [| assumption].
    rewrite (EndSession_active _ _ _ _ Hf Hs). simpl.
    apply Stamped_Add; [| assumption]. simpl. intros _.
    split; [reflexivity | apply Forall_set_TTL].
  - unfold TrackEvent. destruct (TMap.Find m SessionId) as [s|] eqn:Hfind;
      [| assumption].
    destruct (bool_decide (State s = ACTIVE)) eqn:Hact; simpl; [| assumption].
    apply bool_decide_eq_true_1 in Hact.
    apply Stamped_Add; [| assumption]. simpl. congruence.
  - unfold AddReward. destruct (TMap.Find m SessionId) as [s|] eqn:Hfind;
      [| assumption].
    destruct (FString.Contains _ _); [assumption |].
    apply Stamped_Add; [| assumption]. simpl. exact (Hm _ _ Hfind).
  - unfold DiscardSessionState.
    destruct (TMap.Find m SessionId) as [s|] eqn:Hfind; [| assumption].
    apply Stamped_Add; [| assumption]. simpl. intros Hst.
    split; [exact (proj1 (Hm _ _ Hfind Hst)) | constructor].
Qed.

Lemma Stamped_run cs (m : Sessions) : Stamped m -> Stamped (run cs m).
Proof.
  revert m. induction cs as [|c cs IH]; intros m Hm; simpl; [assumption |].
  apply IH. now apply Stamped_exec.
Qed.

(** C4: a successful [EndSession] on an [ACTIVE] session stamps the end time
    [UtcNow] and stores as TTL the Unix timestamp, in seconds, of
    [UtcNow] plus 72 hours; the events recorded before are kept in order and
    each of them then carries that same TTL; nothing else in the session
    changes besides its state. For a date not before 1970 the TTL is the
    Unix time of [UtcNow] plus 259200 seconds. Afterwards, whatever calls
    are made, an ended session keeps the TTL computed from its end time and
    every event it still holds carries that TTL. *)
Theorem end_session_stamps_ttl id UtcNow (m : Sessions) s :
  TMap.Find m id = Some s ->
  State s = ACTIVE ->
  EndSession id UtcNow m
  = (true,
     TMap.Add id
       (FPlayerSession.mk (SessionId s) (PlayerId s) (ShardId s) ENDED (StartTime s)
          UtcNow
          (map (FInteractionEvent.set_TTL (CalculateTTLFromTime UtcNow)) (Events s))
          (Rewards s) (CalculateTTLFromTime UtcNow))
       m)
  /\ CalculateTTLFromTime UtcNow
     = FDateTime.ToUnixTimestamp (FDateTime.add UtcNow (FDateTime.FromHours 72))
  /\ (forall s', TMap.Find (snd (EndSession id UtcNow m)) id = Some s' ->
        EndTime s' = UtcNow
        /\ TTL s' = CalculateTTLFromTime UtcNow
        /\ length (Events s') = length (Events s)
        /\ Forall (fun e => FInteractionEvent.TTL e = TTL s') (Events s'))
  /\ (FDateTime.UnixEpochTicks <= UtcNow <= FDateTime.MaxTicks ->
      CalculateTTLFromTime UtcNow = FDateTime.ToUnixTimestamp UtcNow + 259200)
  /\ (forall cs (k : string) s',
        run cs ∅ !! k = Some s' -> State s' = ENDED ->
        TTL s' = CalculateTTLFromTime (EndTime s')
        /\ Forall (fun e => FInteractionEvent.TTL e = TTL s') (Events s')).
Proof.
  intros Hfind Hst. rewrite (EndSession_active _ _ _ _ Hfind Hst).
  split; [reflexivity |]. split; [reflexivity |]. split; [| split].
  - simpl. rewrite Find_Add_same. intros s' [= <-]. simpl.
    rewrite length_map. repeat split. apply Forall_set_TTL.
  - apply CalculateTTLFromTime_seconds.
  - intros cs k s' Hk.
    assert (Stamped (run cs ∅)) as HS by (apply Stamped_run, map_Forall_empty).
    exact (HS _ _ Hk).
Qed.

Lemma TrackEvent_inactive id ty d g now (m : Sessions) s :
  TMap.Find m id = Some s -> State s <> ACTIVE -> TrackEvent id ty d g now m = m.
Proof.
  intros Hfind Hst. unfold TrackEvent. rewrite Hfind.
  now rewrite bool_decide_eq_false_2.
Qed.

Lemma AddReward_found id r (m : Sessions) s :
  TMap.Find m id = Some s ->
  AddReward id r m
  = if FString.Contains (Rewards s) r then m
    else TMap.Add id (set_Rewards (Rewards s ++ [r]) s) m.
Proof. intros Hfind. unfold AddReward. now rewrite Hfind. Qed.

Lemma AddReward_missing id r (m : Sessions) :
  TMap.Find m id = None -> AddReward id r m = m.
Proof. intros Hfind. unfold AddReward. now rewrite Hfind. Qed.

(** C8 (amended): on a registered session whose state is not [ACTIVE],
    [TrackEvent] leaves the manager unchanged: no event is appended.
    [AddReward] does not read the state of the session: it leaves the
    manager unchanged when the session is missing or already holds the
    reward id, and in every other case, whatever the state, it appends the
    reward id to the rewards of the session and changes nothing else. *)
Theorem track_event_needs_active_add_reward_does_not :
  (forall id ty d g now (m : Sessions) s,
     TMap.Find m id = Some s -> State s <> ACTIVE ->
     TrackEvent id ty d g now m = m) /\
  (forall id r (m : Sessions) s,
     TMap.Find m id = Some s ->
     AddReward id r m
     = if FString.Contains (Rewards s) r then m
       else TMap.Add id
              (FPlayerSession.mk (SessionId s) (PlayerId s) (ShardId s) (State s)
                 (StartTime s) (EndTime s) (Events s) (Rewards s ++ [r]) (TTL s))
              m) /\
  (forall id r (m : Sessions), TMap.Find m id = None -> AddReward id r m = m).
Proof.
  exact (conj TrackEvent_inactive (conj AddReward_found AddReward_missing)).
Qed.

End SessionEffects.

(* ===================================================================== *)
(** * Properties of the reward system *)
(* ===================================================================== *)

Section RewardFacts.
Import FRewardGrantResult URewardSystem.

Lemma FindOrAdd_found p (m : gmap string (list string)) l :
  TMap.Find m p = Some l -> FindOrAdd p m = (m, l).
Proof. intros E. unfold FindOrAdd. now rewrite E. Qed.

Lemma FindOrAdd_missing p (m : gmap string (list string)) :
  TMap.Find m p = None -> FindOrAdd p m = (TMap.Add p [] m, []).
Proof. intros E. unfold FindOrAdd. now rewrite E. Qed.

Lemma IsValidRewardId_loaded r rs :
  IsValidRewardId r rs = true -> bCatalogLoaded rs = true.
Proof. unfold IsValidRewardId. destruct (bCatalogLoaded rs); [reflexivity | discriminate]. Qed.

Lemma not_found_message_differs (r : string) :
  "Reward ID '" +:+ r +:+ "' not found in catalog" <> "Reward ID is empty".
Proof. intros E. cbv in E. discriminate. Qed.

Lemma GrantReward_empty_player p r rs :
  FString.IsEmpty p = true ->
  GrantReward p r rs = (Failure "INVALID_PLAYER_ID" "Player ID is empty" "", rs).
Proof. intros E. unfold GrantReward. now rewrite E. Qed.

Lemma GrantReward_empty_reward p r rs :
  FString.IsEmpty p = false -> FString.IsEmpty r = true ->
  GrantReward p r rs = (Failure "INVALID_REWARD_ID" "Reward ID is empty" "", rs).
Proof. intros E1 E2. unfold GrantReward. now rewrite E1, E2. Qed.

Lemma GrantReward_no_catalog p r rs :
  FString.IsEmpty p = false -> FString.IsEmpty r = false ->
  bCatalogLoaded rs = false ->
  GrantReward p r rs
  = (Failure "REWARD_CATALOG_NOT_FOUND" "Rewards catalog is not loaded" r, rs).
Proof. intros E1 E2 E3. unfold GrantReward. now rewrite E1, E2, E3. Qed.

Lemma GrantReward_unknown_reward p r rs :
  FString.IsEmpty p = false -> FString.IsEmpty r = false ->
  bCatalogLoaded rs = true -> IsValidRewardId r rs = false ->
  GrantReward p r rs
  = (Failure "INVALID_REWARD_ID" ("Reward ID '" +:+ r +:+ "' not found in catalog") r,
     rs)
  /\ "Reward ID '" +:+ r +:+ "' not found in catalog" <> "Reward ID is empty".
Proof.
  intros E1 E2 E3 E4. split; [| apply not_found_message_differs].
  unfold GrantReward. now rewrite E1, E2, E3, E4.
Qed.

Lemma GrantReward_already_granted p r rs :
  FString.IsEmpty p = false -> FString.IsEmpty r = false ->
  bCatalogLoaded rs = true -> IsValidRewardId r rs = true ->
  HasReward p r rs = true ->
  GrantReward p r rs
  = (Failure "REWARD_ALREADY_GRANTED" ("Reward '" +:+ r +:+ "' already granted") r, rs).
Proof.
  intros E1 E2 E3 E4 E5. unfold GrantReward. rewrite E1, E2, E3, E4. simpl.
  unfold HasReward in E5.
  destruct (TMap.Find (PlayerRewards rs) p) as [l|] eqn:Hfind; [| discriminate].
  rewrite (FindOrAdd_found _ _ _ Hfind), E5. destruct rs; simpl in *. now subst.
Qed.

Lemma GrantReward_granted p r rs :
  FString.IsEmpty p = false -> FString.IsEmpty r = false ->
  bCatalogLoaded rs = true -> IsValidRewardId r rs = true ->
  HasReward p r rs = false ->
  GrantReward p r rs
  = (Success r,
     URewardSystem.mk (Catalog rs)
       (TMap.Add p (GetPlayerRewards p rs ++ [r]) (PlayerRewards rs))
       (bCatalogLoaded rs)).
Proof.
  intros E1 E2 E3 E4 E5. unfold GrantReward. rewrite E1, E2, E3, E4. simpl.
  unfold HasReward in E5. unfold GetPlayerRewards.
  destruct (TMap.Find (PlayerRewards rs) p) as [l|] eqn:Hfind.
  - now rewrite (FindOrAdd_found _ _ _ Hfind), E5.
  - rewrite (FindOrAdd_missing _ _ Hfind). simpl. now rewrite Add_Add.
Qed.

(** C2: [GrantReward] checks, in this order and stopping at the first
    failure: the player id is not empty (INVALID_PLAYER_ID); the reward id is
    not empty (INVALID_REWARD_ID, "Reward ID is empty"); the catalog is
    loaded (REWARD_CATALOG_NOT_FOUND); the reward id is in the catalog
    (INVALID_REWARD_ID, with a "not found in catalog" message that differs
    from the "empty" one); the player does not hold the reward yet
    (REWARD_ALREADY_GRANTED). Every failure leaves the reward system as it
    was. Otherwise the reward id is appended to the rewards of the player
    and the result is a success carrying the reward id. *)
Theorem grant_validation_order p r rs :
  (FString.IsEmpty p = true ->
   GrantReward p r rs = (Failure "INVALID_PLAYER_ID" "Player ID is empty" "", rs)) /\
  (FString.IsEmpty p = false -> FString.IsEmpty r = true ->
   GrantReward p r rs = (Failure "INVALID_REWARD_ID" "Reward ID is empty" "", rs)) /\
  (FString.IsEmpty p = false -> FString.IsEmpty r = false ->
   bCatalogLoaded rs = false ->
   GrantReward p r rs
   = (Failure "REWARD_CATALOG_NOT_FOUND" "Rewards catalog is not loaded" r, rs)) /\
  (FString.IsEmpty p = false -> FString.IsEmpty r = false ->
   bCatalogLoaded rs = true -> IsValidRewardId r rs = false ->
   GrantReward p r rs
   = (Failure "INVALID_REWARD_ID"
        ("Reward ID '" +:+ r +:+ "' not found in catalog") r, rs)
   /\ "Reward ID '" +:+ r +:+ "' not found in catalog" <> "Reward ID is empty") /\
  (FString.IsEmpty p = false -> FString.IsEmpty r = false ->
   bCatalogLoaded rs = true -> IsValidRewardId r rs = true ->
   HasReward p r rs = true ->
   GrantReward p r rs
   = (Failure "REWARD_ALREADY_GRANTED"
        ("Reward '" +:+ r +:+ "' already granted") r, rs)) /\
  (FString.IsEmpty p = false -> FString.IsEmpty r = false ->
   bCatalogLoaded rs = true -> IsValidRewardId r rs = true ->
   HasReward p r rs = false ->
   GrantReward p r rs
   = (Success r,
      URewardSystem.mk (Catalog rs)
        (TMap.Add p (GetPlayerRewards p rs ++ [r]) (PlayerRewards rs))
        (bCatalogLoaded rs))
   /\ bSuccess (fst (GrantReward p r rs)) = true
   /\ RewardId (fst (GrantReward p r rs)) = r).
Proof.
  split; [apply GrantReward_empty_player |].
  split; [apply GrantReward_empty_reward |].
  split; [apply GrantReward_no_catalog |].
  split; [apply GrantReward_unknown_reward |].
  split; [apply GrantReward_already_granted |].
  intros E1 E2 E3 E4 E5.
  rewrite (GrantReward_granted _ _ _ E1 E2 E3 E4 E5). repeat split.
Qed.

(** ** At most one grant *)

Lemma AtMostOnce_nil : AtMostOnce [].
Proof. intros r. simpl. lia. Qed.

Lemma filter_none (f : string -> bool) (l : list string) :
  Forall (fun y => f y = false) l -> List.filter f l = [].
Proof.
  induction 1 as [|y l Hy _ IH]; simpl; [reflexivity |]. now rewrite Hy.
Qed.

Lemma AtMostOnce_snoc (l : list string) (r : string) :
  AtMostOnce l -> FString.Contains l r = false -> AtMostOnce (l ++ [r]).
Proof.
  intros Hl Hnew x. rewrite List.filter_app, length_app. simpl.
  destruct (FString.eq r x) eqn:Erx; simpl.
  - rewrite filter_none; [simpl; lia |].
    apply Contains_false in Hnew. eapply Forall_impl; [exact Hnew |].
    intros y Hy. simpl in Hy. destruct (FString.eq y x) eqn:Eyx; [| reflexivity].
    rewrite FString_eq_sym in Erx.
    now rewrite (FString_eq_trans _ _ _ Eyx Erx) in Hy.
  - specialize (Hl x). lia.
Qed.

Lemma Sound_GrantReward p r rs : Sound rs -> Sound (snd (GrantReward p r rs)).
Proof.
  intros Hrs. unfold GrantReward.
  destruct (FString.IsEmpty p); [assumption |].
  destruct (FString.IsEmpty r); [assumption |].
  destruct (negb (bCatalogLoaded rs)); [assumption |].
  destruct (negb (IsValidRewardId r rs)); [assumption |].
  unfold FindOrAdd.
  destruct (TMap.Find (PlayerRewards rs) p) as [l|] eqn:Hfind.
  - destruct (FString.Contains l r) eqn:Hc; simpl; [assumption |].
    unfold Sound, TMap.Add. simpl. apply map_Forall_insert_2; [| assumption].
    apply AtMostOnce_snoc; [exact (Hrs _ _ Hfind) | assumption].
  - simpl. unfold Sound, TMap.Add. simpl.
    apply map_Forall_insert_2; [| apply map_Forall_insert_2; [| assumption]].
    + apply (AtMostOnce_snoc [] r); [apply AtMostOnce_nil | reflexivity].
    + apply AtMostOnce_nil.
Qed.

Lemma Sound_grants gs rs : Sound rs -> Sound (grants gs rs).
Proof.
  revert rs. induction gs as [|g gs IH]; intros rs Hrs; simpl; [assumption |].
  apply IH. now apply Sound_GrantReward.
Qed.

Lemma Sound_GetPlayerRewards p rs : Sound rs -> AtMostOnce (GetPlayerRewards p rs).
Proof.
  intros Hrs. unfold GetPlayerRewards.
  destruct (TMap.Find (PlayerRewards rs) p) as [l|] eqn:Hfind;
    [exact (Hrs _ _ Hfind) | apply AtMostOnce_nil].
Qed.

Lemma count_occ_le_filter (l : list string) (r : string) :
  (count_occ string_dec l r <= length (List.filter (fun y => FString.eq y r) l))%nat.
Proof.
  induction l as [|y l IH]; simpl; [lia |].
  destruct (string_dec y r) as [->|Hne].
  - rewrite FString_eq_refl. simpl. lia.
  - destruct (FString.eq y r); simpl; lia.
Qed.

(** C3: granting a catalog reward that the player does not hold succeeds,
    and granting it again right away fails with REWARD_ALREADY_GRANTED and
    changes nothing; and after any sequence of [GrantReward] calls on a new
    reward system, the rewards of a player hold at most one entry for any
    reward id (even counting entries that differ from it by letter case
    only). *)
Theorem grant_is_at_most_once :
  (forall p r rs,
     FString.IsEmpty p = false -> FString.IsEmpty r = false ->
     IsValidRewardId r rs = true -> HasReward p r rs = false ->
     exists rs1,
       GrantReward p r rs = (Success r, rs1)
       /\ GrantReward p r rs1
          = (Failure "REWARD_ALREADY_GRANTED"
               ("Reward '" +:+ r +:+ "' already granted") r, rs1)) /\
  (forall gs catalog loaded p r,
     (length (List.filter (fun y => FString.eq y r)
                (GetPlayerRewards p (grants gs (URewardSystem.mk catalog ∅ loaded))))
      <= 1)%nat
     /\ (count_occ string_dec
           (GetPlayerRewards p (grants gs (URewardSystem.mk catalog ∅ loaded))) r
         <= 1)%nat).
Proof.
  split.
  - intros p r rs E1 E2 E4 E5.
    pose proof (IsValidRewardId_loaded _ _ E4) as E3.
    eexists. split; [apply GrantReward_granted; assumption |].
    apply GrantReward_already_granted; try assumption.
    + unfold HasReward. simpl. rewrite Find_Add_same, Contains_app. simpl.
      rewrite FString_eq_refl. apply orb_true_r.
  - intros gs catalog loaded p r.
    assert (AtMostOnce
              (GetPlayerRewards p (grants gs (URewardSystem.mk catalog ∅ loaded))))
      as Hone.
    { apply Sound_GetPlayerRewards, Sound_grants. apply map_Forall_empty. }
    split; [apply Hone |].
    etransitivity; [apply count_occ_le_filter | apply Hone].
Qed.

End RewardFacts.

(* ===================================================================== *)
(** * Properties of the admission path *)
(* ===================================================================== *)

Section GameModeFacts.
Context `{JsonEngine}.
Variable ParseOption : string -> string -> string.
Variable IsValid : nat -> bool.
Import AHMVRGameMode.

Lemma count_loop (l : list nat) (n : Z) :
  fold_left (fun ValidPlayerCount PlayerPtr =>
               if IsValid PlayerPtr then ValidPlayerCount + 1 else ValidPlayerCount)
            l n
  = n + Z.of_nat (length (List.filter IsValid l)).
Proof.
  revert n. induction l as [|x l IH]; intros n; simpl; [lia |].
  rewrite IH. destruct (IsValid x); simpl; lia.
Qed.

(** The count is the number of entries whose object still exists; entries of
    destroyed objects stay in the array and are skipped. *)
Lemma GetCurrentPlayerCount_filter gm :
  GetCurrentPlayerCount IsValid gm
  = Z.of_nat (length (List.filter IsValid (ConnectedPlayers gm))).
Proof. unfold GetCurrentPlayerCount. now rewrite count_loop. Qed.

Lemma CanAcceptNewPlayer_false gm :
  CanAcceptNewPlayer IsValid gm = false <->
  MaxPlayers gm <= GetCurrentPlayerCount IsValid gm.
Proof. unfold CanAcceptNewPlayer. apply Z.ltb_ge. Qed.

(** The outcome of a refusal for lack of capacity. *)
Lemma PreLogin_full cfg UtcNow exp0 iat0 NewGuid Options ErrorMessage0 gm :
  MaxPlayers gm <= GetCurrentPlayerCount IsValid gm ->
  PreLogin ParseOption IsValid cfg UtcNow exp0 iat0 NewGuid Options ErrorMessage0 gm
  = mkOutcome ("Server full. Maximum " +:+ pretty (MaxPlayers gm)
               +:+ " players allowed.") gm [].
Proof.
  intros Hfull. apply CanAcceptNewPlayer_false in Hfull.
  unfold PreLogin. now rewrite Hfull.
Qed.

(** With capacity left, the outcome is never that one: either the message is
    another one or the token validator has been called. *)
Lemma PreLogin_not_full cfg UtcNow exp0 iat0 NewGuid Options ErrorMessage0 gm :
  GetCurrentPlayerCount IsValid gm < MaxPlayers gm ->
  PreLogin ParseOption IsValid cfg UtcNow exp0 iat0 NewGuid Options ErrorMessage0 gm
  <> mkOutcome ("Server full. Maximum " +:+ pretty (MaxPlayers gm)
                +:+ " players allowed.") gm [].
Proof.
  intros Hroom. unfold PreLogin, CanAcceptNewPlayer.
  apply Z.ltb_lt in Hroom. rewrite Hroom. simpl.
  destruct (FString.IsEmpty (ParseOption Options "Token")).
  - intros E. apply (f_equal ErrorMessage) in E. simpl in E.
    rewrite append_cons in E. discriminate E.
  - destruct (ValidateJWTToken _ _ _ _ _ _ _) as [[[] PlayerId] msg].
    + destruct (bGameLiftInitialized gm).
      * destruct (negb _).
        -- destruct (ValidatePlayerSession _ _ _) as [[] ?];
             intros E; apply (f_equal Effects) in E; discriminate E.
        -- intros E; apply (f_equal Effects) in E; discriminate E.
      * intros E; apply (f_equal Effects) in E; discriminate E.
    + intros E; apply (f_equal Effects) in E; discriminate E.
Qed.

(** C6: the number of players is the number of entries of
    [ConnectedPlayers] whose object is still valid (stale entries are
    skipped, not removed); a connection is refused for lack of capacity
    exactly when that number has reached [MaxPlayers]; the refusal, with the
    message "Server full. Maximum N players allowed." (the specification's
    SERVER_FULL), is decided before the token is looked up or validated; in
    particular with [MaxPlayers = 15] and 15 valid connections the next
    attempt is refused whatever its options and token. *)
Theorem capacity_gate_precedes_token_check :
  (forall gm,
     GetCurrentPlayerCount IsValid gm
     = Z.of_nat (length (List.filter IsValid (ConnectedPlayers gm)))) /\
  (forall gm,
     CanAcceptNewPlayer IsValid gm = false <->
     MaxPlayers gm <= GetCurrentPlayerCount IsValid gm) /\
  (forall cfg UtcNow exp0 iat0 NewGuid Options ErrorMessage0 gm,
     PreLogin ParseOption IsValid cfg UtcNow exp0 iat0 NewGuid Options ErrorMessage0 gm
     = mkOutcome ("Server full. Maximum " +:+ pretty (MaxPlayers gm)
                  +:+ " players allowed.") gm []
     <-> MaxPlayers gm <= GetCurrentPlayerCount IsValid gm) /\
  (forall cfg UtcNow exp0 iat0 NewGuid Options ErrorMessage0 gm,
     MaxPlayers gm = 15 ->
     length (List.filter IsValid (ConnectedPlayers gm)) = 15%nat ->
     PreLogin ParseOption IsValid cfg UtcNow exp0 iat0 NewGuid Options ErrorMessage0 gm
     = mkOutcome "Server full. Maximum 15 players allowed." gm []).
Proof.
  split; [exact GetCurrentPlayerCount_filter |].
  split; [exact CanAcceptNewPlayer_false |].
  split.
  - intros cfg UtcNow exp0 iat0 NewGuid Options ErrorMessage0 gm. split.
    + intros E.
      destruct (Z_lt_le_dec (GetCurrentPlayerCount IsValid gm) (MaxPlayers gm))
        as [Hroom | Hfull]; [| exact Hfull].
      now destruct (PreLogin_not_full cfg UtcNow exp0 iat0 NewGuid Options
                      ErrorMessage0 gm Hroom).
    + apply PreLogin_full.
  - intros cfg UtcNow exp0 iat0 NewGuid Options ErrorMessage0 gm Hmax Hcount.
    rewrite PreLogin_full, Hmax; [reflexivity |].
    rewrite GetCurrentPlayerCount_filter, Hcount, Hmax. lia.
Qed.

End GameModeFacts.

(* ===================================================================== *)
(** * The properties on the sample data *)
(* ===================================================================== *)

Section Runs.
Import Samples.

(** C1, witness: the two scenarios of the state machine: a created session
    can be started; ending it before it is started, or starting it after it
    has ended, is refused and changes nothing. *)
Lemma session_state_machine_witness :
  USessionManager.GetSessionState "session-1"
    (snd (USessionManager.StartSession "session-1" created)) = ACTIVE
  /\ snd (USessionManager.EndSession "session-1" (at_unix 1700000001) created) = created
  /\ snd (USessionManager.StartSession "session-1" ended) = ended.
Proof.
  pose proof session_state_machine_safety
    as (_ & Hstart & Hstart_refused & _ & _ & Hend_refused & _).
  split; [| split].
  - apply (Hstart "session-1" created created_session); vm_compute; reflexivity.
  - apply Hend_refused. vm_compute. reflexivity.
  - apply Hstart_refused. vm_compute. reflexivity.
Defined.

(** C2, witness: the catalog scenario of the specification, one call at a
    time. *)
Lemma grant_validation_order_witness :
  fst (URewardSystem.GrantReward "p1" "sword_of_dawn" ledger)
  = FRewardGrantResult.Success "sword_of_dawn"
  /\ URewardSystem.GrantReward "p1" "nonexistent" ledger
     = (FRewardGrantResult.Failure "INVALID_REWARD_ID"
          "Reward ID 'nonexistent' not found in catalog" "nonexistent", ledger)
  /\ URewardSystem.GrantReward "" "sword_of_dawn" ledger
     = (FRewardGrantResult.Failure "INVALID_PLAYER_ID" "Player ID is empty" "", ledger).
Proof.
  split; [| split].
  - destruct (grant_validation_order "p1" "sword_of_dawn" ledger)
      as (_ & _ & _ & _ & _ & Hgrant).
    destruct Hgrant as (E & _); [reflexivity .. |]. now rewrite E.
  - destruct (grant_validation_order "p1" "nonexistent" ledger)
      as (_ & _ & _ & Hunknown & _).
    destruct Hunknown as (E & _); [reflexivity .. |]. exact E.
  - destruct (grant_validation_order "" "sword_of_dawn" ledger) as (Hplayer & _).
    now apply Hplayer.
Defined.

(** C3, witness: granting twice, and then once more under another letter
    case. *)
Lemma grant_is_at_most_once_witness :
  fst (URewardSystem.GrantReward "p1" "sword_of_dawn" ledger)
  = FRewardGrantResult.Success "sword_of_dawn"
  /\ fst (URewardSystem.GrantReward "p1" "sword_of_dawn"
            (snd (URewardSystem.GrantReward "p1" "sword_of_dawn" ledger)))
     = FRewardGrantResult.Failure "REWARD_ALREADY_GRANTED"
         "Reward 'sword_of_dawn' already granted" "sword_of_dawn"
  /\ URewardSystem.GetPlayerRewards "p1"
       (URewardSystem.grants
          [("p1", "sword_of_dawn"); ("p1", "sword_of_dawn"); ("p1", "SWORD_OF_DAWN")]
          ledger)
     = ["sword_of_dawn"].
Proof.
  destruct (proj1 grant_is_at_most_once "p1" "sword_of_dawn" ledger)
    as (rs1 & E1 & E2); [reflexivity .. |].
  rewrite E1. simpl. rewrite E2. simpl.
  split; [reflexivity |]. split; [reflexivity |]. vm_compute. reflexivity.
Defined.

(** C4, witness: ending the played session one hour after its creation. *)
Lemma end_session_stamps_ttl_witness :
  TMap.Find ended "session-1"
  = Some (FPlayerSession.mk "session-1" "player-1" "shard-1" ENDED
            (at_unix 1700000000) (at_unix 1700003600)
            [FInteractionEvent.mk "event-1" (at_unix 1700000100) "player-1"
               "player_join" ∅ 1700262800;
             FInteractionEvent.mk "event-2" (at_unix 1700000200) "player-1"
               "reward_grant" ∅ 1700262800]
            [] 1700262800).
Proof.
  unfold ended.
  destruct (end_session_stamps_ttl "session-1" (at_unix 1700003600) played
              played_session) as (E & _).
  - vm_compute. reflexivity.
  - reflexivity.
  - rewrite E. vm_compute. reflexivity.
Defined.

(** The expiration test on a token whose every claim is wrong, validated
    under the production configuration at the very second of its
    expiration. *)
Lemma expired_token_witness :
  UJWTValidator.ValidateToken (H := RefEngine.engine) production (at_unix 1700000000)
    (token payload_stale) (FJWTValidationResult.fresh 0 0)
  = (false,
     FJWTValidationResult.mk false "Token has expired"
       (FJWTClaims.mk "" "elsewhere" "nobody" 1700000000 0 "refresh" "" [])).
Proof.
  etransitivity.
  - apply (expired_token_rejected_before_claims_validation (H := RefEngine.engine)
             production (at_unix 1700000000) (token payload_stale)
             header payload_stale signature
             (decoded payload_stale) (object_of payload_stale) 1700000000).
    + vm_compute. reflexivity.
    + vm_compute. reflexivity.
    + vm_compute. reflexivity.
    + vm_compute. reflexivity.
    + vm_compute. discriminate.
  - vm_compute. reflexivity.
Defined.

(** C5 (a defect of the code): an expired token whose [exp] lies outside
    the range of [int32] is not refused as expired. [ParseClaims] reads
    [exp] through an [int32], the read returns nothing for 3000000000, and
    the expiration test is made on the value the caller's struct held. So
    the token with [payload_far], validated 100000000 seconds after its
    [exp] into a result struct whose [ExpirationTime] held 4000000000, is
    accepted; and the same token, validated long before its [exp] into a
    struct that held 0, is refused as expired. *)
Theorem expired_token_beyond_int32_is_accepted :
  RefEngine.read_object (decoded payload_far)
  = Some [("sub", RefEngine.JString "player-2");
          ("token_use", RefEngine.JString "id");
          ("exp", RefEngine.JNumber 3000000000)]
  /\ TryGetNumberField (JsonEngine := RefEngine.engine) (object_of payload_far) "exp"
     = None
  /\ FDateTime.ToUnixTimestamp (at_unix 3100000000) = 3100000000
  /\ UJWTValidator.ValidateToken (H := RefEngine.engine) CognitoConfig.unset
       (at_unix 3100000000) (token payload_far)
       (FJWTValidationResult.fresh 4000000000 0)
     = (true,
        FJWTValidationResult.mk true ""
          (FJWTClaims.mk "player-2" "" "" 4000000000 0 "id" "" []))
  /\ FDateTime.ToUnixTimestamp (at_unix 1800000000) = 1800000000
  /\ UJWTValidator.ValidateToken (H := RefEngine.engine) CognitoConfig.unset
       (at_unix 1800000000) (token payload_far) (FJWTValidationResult.fresh 0 0)
     = (false,
        FJWTValidationResult.mk false "Token has expired"
          (FJWTClaims.mk "player-2" "" "" 0 0 "id" "" [])).
Proof. repeat split; vm_compute; reflexivity. Qed.

(** C6, witness: fifteen live connections and two stale entries: the
    sixteenth attempt is refused although its token is valid, and the
    validator is not called. *)
Lemma capacity_gate_witness :
  AHMVRGameMode.GetCurrentPlayerCount alive full_house = 15
  /\ AHMVRGameMode.PreLogin (H := RefEngine.engine) token_option alive production
       (at_unix 1800000000) 0 0 "guid-1" (token payload_full) "" full_house
     = AHMVRGameMode.mkOutcome "Server full. Maximum 15 players allowed." full_house [].
Proof.
  destruct (capacity_gate_precedes_token_check (H := RefEngine.engine)
              token_option alive) as (Hcount & _ & _ & Hfull).
  split.
  - rewrite Hcount. vm_compute. reflexivity.
  - apply Hfull; vm_compute; reflexivity.
Defined.

(** C7, witness: a token without issuer and audience under the unset
    configuration. *)
Lemma open_mode_witness :
  UJWTValidator.ValidateToken (H := RefEngine.engine) CognitoConfig.unset
    (at_unix 1800000000) (token payload_open) (FJWTValidationResult.fresh 0 0)
  = (true, FJWTValidationResult.mk true "" open_claims).
Proof.
  destruct (proj2 (open_mode_and_configured_match (H := RefEngine.engine))
              CognitoConfig.unset (at_unix 1800000000) (token payload_open)
              header payload_open signature
              (decoded payload_open) (object_of payload_open)
              "player-2" "id" 2000000000 (FJWTValidationResult.fresh 0 0))
    as (E & _).
  - reflexivity.
  - reflexivity.
  - vm_compute. reflexivity.
  - vm_compute. reflexivity.
  - vm_compute. reflexivity.
  - vm_compute. reflexivity.
  - vm_compute. reflexivity.
  - vm_compute. reflexivity.
  - right. reflexivity.
  - vm_compute. reflexivity.
  - discriminate.
  - rewrite E. vm_compute. reflexivity.
Defined.

(** C7, counterexample: under the production configuration a token whose
    issuer and audience are spelled in capital letters, hence different
    from the configured strings, passes [ValidateClaims] and is accepted by
    [ValidateToken]: the configured match is not case-sensitive. And with
    no issuer and no audience configured, the well-formed token with
    [payload_far] (token use "id", a subject, [exp] 3000000000) is refused
    as expired at the time 1800000000, long before its [exp], when the
    result struct held 0: its [exp] is beyond the 32-bit read. *)
Lemma configured_match_ignores_case :
  FJWTClaims.Issuer upper_claims <> CognitoConfig.CognitoIssuer production
  /\ FJWTClaims.Audience upper_claims <> CognitoConfig.CognitoClientId production
  /\ UJWTValidator.ValidateClaims production upper_claims "" = (true, "")
  /\ UJWTValidator.ValidateToken (H := RefEngine.engine) production
       (at_unix 1800000000) (token payload_upper) (FJWTValidationResult.fresh 0 0)
     = (true, FJWTValidationResult.mk true "" upper_claims)
  /\ RefEngine.read_object (decoded payload_far)
     = Some [("sub", RefEngine.JString "player-2");
             ("token_use", RefEngine.JString "id");
             ("exp", RefEngine.JNumber 3000000000)]
  /\ FDateTime.ToUnixTimestamp (at_unix 1800000000) = 1800000000
  /\ UJWTValidator.ValidateToken (H := RefEngine.engine) CognitoConfig.unset
       (at_unix 1800000000) (token payload_far) (FJWTValidationResult.fresh 0 0)
     = (false,
        FJWTValidationResult.mk false "Token has expired"
          (FJWTClaims.mk "player-2" "" "" 0 0 "id" "" [])).
Proof.
  split; [| split; [| split; [| split; [| split; [| split]]]]].
  - intros E. vm_compute in E. discriminate E.
  - intros E. vm_compute in E. discriminate E.
  - vm_compute. reflexivity.
  - vm_compute. reflexivity.
  - vm_compute. reflexivity.
  - vm_compute. reflexivity.
  - vm_compute. reflexivity.
Qed.

(** C8, witness: on a session that was never started [TrackEvent] changes
    nothing, and on the started session [AddReward] appends the reward. *)
Lemma track_event_add_reward_witness :
  USessionManager.TrackEvent "session-1" "player_join" ∅ "event-1"
    (at_unix 1700000100) created = created
  /\ FPlayerSession.Rewards
       <$> TMap.Find (USessionManager.AddReward "session-1" "sword_of_dawn" started)
             "session-1"
     = Some ["sword_of_dawn"].
Proof.
  destruct track_event_needs_active_add_reward_does_not as (Htrack & Hadd & _).
  split.
  - apply (Htrack _ _ _ _ _ created created_session); [reflexivity | discriminate].
  - rewrite (Hadd "session-1" "sword_of_dawn" started
               (FPlayerSession.set_State ACTIVE created_session))
      by (vm_compute; reflexivity).
    vm_compute. reflexivity.
Defined.

(** C8, counterexample: [AddReward] on a session in the state [CREATED], and
    on a session in the state [ENDED], is not a no-op: the reward id is
    added to the rewards of the session. *)
Lemma add_reward_ignores_state :
  USessionManager.GetSessionState "session-1" created = CREATED
  /\ USessionManager.AddReward "session-1" "sword_of_dawn" created <> created
  /\ FPlayerSession.Rewards
       <$> TMap.Find (USessionManager.AddReward "session-1" "sword_of_dawn" created)
             "session-1"
     = Some ["sword_of_dawn"]
  /\ USessionManager.GetSessionState "session-1" ended = ENDED
  /\ FPlayerSession.Rewards
       <$> TMap.Find (USessionManager.AddReward "session-1" "sword_of_dawn" ended)
             "session-1"
     = Some ["sword_of_dawn"].
Proof.
  split; [vm_compute; reflexivity |].
  split.
  { intros E.
    apply (f_equal (fun m => FPlayerSession.Rewards <$> TMap.Find m "session-1")) in E.
    vm_compute in E. discriminate E. }
  repeat split; vm_compute; reflexivity.
Qed.

(** C9, witness: a token of two segments, and a token of three segments
    whose payload is not Base64url text. *)
Lemma token_without_three_parts_witness :
  (UJWTValidator.ValidateToken (H := RefEngine.engine) CognitoConfig.unset
     (at_unix 1800000000) token_two_segments (FJWTValidationResult.fresh 0 0)
   = (false, FJWTValidationResult.mk false "Invalid token format" (FJWTClaims.fresh 0 0))
   /\ UJWTValidator.DecodeToken (H := RefEngine.engine) token_two_segments
        (FJWTClaims.fresh 0 0) = None)
  /\ (UJWTValidator.ValidateToken (H := RefEngine.engine) CognitoConfig.unset
        (at_unix 1800000000) (UJWTValidator.join3 header "!!!" signature)
        (FJWTValidationResult.fresh 0 0)
      = (false,
         FJWTValidationResult.mk false "Failed to parse token claims"
           (FJWTClaims.fresh 0 0))
      /\ UJWTValidator.DecodeToken (H := RefEngine.engine)
           (UJWTValidator.join3 header "!!!" signature) (FJWTClaims.fresh 0 0) = None).
Proof.
  split.
  - apply (proj1 (token_without_three_parts_rejected (H := RefEngine.engine)
                    CognitoConfig.unset (at_unix 1800000000) token_two_segments
                    (FJWTValidationResult.fresh 0 0) (FJWTClaims.fresh 0 0))).
    left. vm_compute. reflexivity.
  - apply (proj2 (token_without_three_parts_rejected (H := RefEngine.engine)
                    CognitoConfig.unset (at_unix 1800000000)
                    (UJWTValidator.join3 header "!!!" signature)
                    (FJWTValidationResult.fresh 0 0) (FJWTClaims.fresh 0 0))
             header "!!!" signature).
    + vm_compute. reflexivity.
    + left. vm_compute. reflexivity.
Defined.

(** C9, counterexample: a token with exactly four dot-separated segments
    (the second one empty) is not refused as malformed: [ValidateToken]
    accepts it and [DecodeToken] returns its claims. So is a token of three
    segments whose header and signature are not base64url text: only the
    payload is ever decoded. *)
Lemma four_segment_token_accepted :
  length (FString.Fields token_four_segments ".") = 4%nat
  /\ UJWTValidator.ValidateToken (H := RefEngine.engine) CognitoConfig.unset
       (at_unix 1800000000) token_four_segments (FJWTValidationResult.fresh 0 0)
     = (true, FJWTValidationResult.mk true "" open_claims)
  /\ UJWTValidator.DecodeToken (H := RefEngine.engine) token_four_segments
       (FJWTClaims.fresh 0 0) = Some open_claims
  /\ RefEngine.decode "!!!=" = None
  /\ UJWTValidator.ValidateToken (H := RefEngine.engine) CognitoConfig.unset
       (at_unix 1800000000) (UJWTValidator.join3 "!!!" payload_open "???")
       (FJWTValidationResult.fresh 0 0)
     = (true, FJWTValidationResult.mk true "" open_claims).
Proof. repeat split; vm_compute; reflexivity. Qed.

(** C10, witness: the token of four segments is treated as the token of its
    three non-empty segments, and [DecodeToken] returns on it what
    [ParseClaims] reads from its payload. *)
Lemma ParseToken_counts_non_empty_segments_witness :
  UJWTValidator.ValidateToken (H := RefEngine.engine) production (at_unix 1800000000)
    token_four_segments (FJWTValidationResult.fresh 0 0)
  = UJWTValidator.ValidateToken (H := RefEngine.engine) production (at_unix 1800000000)
      (token payload_open) (FJWTValidationResult.fresh 0 0)
  /\ UJWTValidator.DecodeToken (H := RefEngine.engine) token_four_segments
       (FJWTClaims.fresh 0 0)
     = UJWTValidator.ParseClaims (H := RefEngine.engine) payload_open
         (FJWTClaims.fresh 0 0).
Proof.
  destruct (ParseToken_counts_non_empty_segments (H := RefEngine.engine))
    as (_ & _ & _ & Hsame & _ & _ & Hpayload).
  split.
  - apply (Hsame production (at_unix 1800000000) token_four_segments
             header payload_open signature (FJWTValidationResult.fresh 0 0)
             (FJWTClaims.fresh 0 0)).
    vm_compute. reflexivity.
  - apply (Hpayload production (at_unix 1800000000) token_four_segments
             header payload_open signature (FJWTValidationResult.fresh 0 0)
             (FJWTClaims.fresh 0 0)).
    vm_compute. reflexivity.
Defined.

End Runs.

(* ===================================================================== *)
(** * Further properties of the session manager *)
(* ===================================================================== *)

Section SessionMore.
Import FPlayerSession USessionManager SessionCalls.

(** Every call either leaves [ActiveSessions] as it is or stores one
    session under the key of its target. *)
Lemma exec_shape c (m : Sessions) :
  exec c m = m
  \/ exists id s', target c = Some id /\ exec c m = TMap.Add id s' m.
Proof.
  destruct c as [p sh g now | id | id now | id ty d g now
                | id r | id now | id | id | id]; simpl; eauto.
  - rewrite StartSession_eq.
    destruct (TransitionState_cases id CREATED ACTIVE m)
      as [(s & _ & _ & ->) | [_ ->]]; simpl; eauto.
  - destruct (EndSession_cases id now m) as [(s & Hf & Hs) | ->]; [| eauto].
    rewrite (EndSession_active _ _ _ _ Hf Hs). simpl. eauto.
  - unfold TrackEvent. destruct (TMap.Find m id) as [s|]; [| eauto].
    destruct (negb _); eauto.
  - unfold AddReward. destruct (TMap.Find m id) as [s|]; [| eauto].
    destruct (FString.Contains _ _); eauto.
  - unfold DiscardSessionState. destruct (TMap.Find m id) as [s|]; eauto.
Qed.

(** X1: a call never touches a session filed under another key than the
    key of the session id it is given (for [CreateSession], of the id it
    draws). *)
Theorem call_leaves_other_sessions c (m : Sessions) (k : string) :
  (forall id, target c = Some id -> FString.key id <> k) ->
  exec c m !! k = m !! k.
Proof.
  intros Hk. destruct (exec_shape c m) as [-> | (id & s' & Ht & ->)];
    [reflexivity |].
  unfold TMap.Add. apply lookup_insert_ne. now apply Hk.
Qed.

Lemma Extends_refl s : Extends s s.
Proof. repeat split; try lia. exists []. now rewrite app_nil_r. Qed.

Lemma Extends_trans s1 s2 s3 : Extends s1 s2 -> Extends s2 s3 -> Extends s1 s3.
Proof.
  intros (A1 & A2 & A3 & A4 & A5 & l & A6) (B1 & B2 & B3 & B4 & B5 & l' & B6).
  repeat split; try congruence; try lia.
  exists (l ++ l'). now rewrite B6, A6, app_assoc.
Qed.

(** One call on a stored session. *)
Lemma exec_Extends c (m : Sessions) (k : string) s :
  m !! k = Some s -> KeepsKey k c ->
  exists s', exec c m !! k = Some s' /\ Extends s s'.
Proof.
  intros Hs Hc.
  assert (forall id, FString.key id = k -> TMap.Find m id = Some s) as Hfind
    by (intros id <-; exact Hs).
  assert (forall id s', FString.key id = k -> Extends s s' ->
            exists s'', TMap.Add id s' m !! k = Some s'' /\ Extends s s'') as Hput.
  { intros id s' <- He. exists s'. split; [apply lookup_insert_eq | exact He]. }
  assert (forall id m', FString.key id <> k -> m' = m \/ (exists s', m' = TMap.Add id s' m) ->
            exists s'', m' !! k = Some s'' /\ Extends s s'') as Hskip.
  { intros id m' Hne [-> | (s' & ->)]; exists s; split; auto using Extends_refl.
    unfold TMap.Add. now rewrite lookup_insert_ne. }
  assert (exists s'', m !! k = Some s'' /\ Extends s s'') as Hsame
    by (exists s; auto using Extends_refl).
  destruct c as [p sh g now | id | id now | id ty d g now
                | id r | id now | id | id | id]; simpl in *; try exact Hsame.
  - apply (Hskip g _ Hc); right; eauto.
  - rewrite StartSession_eq.
    destruct (decide (FString.key id = k)) as [Hid | Hid].
    + destruct (TransitionState_cases id CREATED ACTIVE m)
        as [(s0 & Hf & Hst & ->) | [_ ->]]; simpl; [| exact Hsame].
      rewrite (Hfind id Hid) in Hf. injection Hf as <-.
      apply Hput; [exact Hid |].
      repeat split; simpl; try (rewrite Hst; simpl; lia).
      exists []. now rewrite app_nil_r.
    + apply (Hskip id _ Hid).
      destruct (TransitionState_cases id CREATED ACTIVE m)
        as [(s0 & _ & _ & ->) | [_ ->]]; simpl; eauto.
  - destruct (EndSession_cases id now m) as [(s0 & Hf & Hst) | ->]; [| exact Hsame].
    rewrite (EndSession_active _ _ _ _ Hf Hst). simpl.
    destruct (decide (FString.key id = k)) as [Hid | Hid].
    + rewrite (Hfind id Hid) in Hf. injection Hf as <-.
      apply Hput; [exact Hid |].
      repeat split; simpl; try (rewrite Hst; simpl; lia).
      exists []. now rewrite app_nil_r.
    + apply (Hskip id _ Hid). eauto.
  - unfold TrackEvent. destruct (TMap.Find m id) as [s0|] eqn:Hf; [| exact Hsame].
    destruct (negb _); [exact Hsame |].
    destruct (decide (FString.key id = k)) as [Hid | Hid].
    + rewrite (Hfind id Hid) in Hf. injection Hf as <-.
      apply Hput; [exact Hid |].
      repeat split; simpl; try lia. exists []. now rewrite app_nil_r.
    + apply (Hskip id _ Hid). eauto.
  - unfold AddReward. destruct (TMap.Find m id) as [s0|] eqn:Hf; [| exact Hsame].
    destruct (FString.Contains _ _); [exact Hsame |].
    destruct (decide (FString.key id = k)) as [Hid | Hid].
    + rewrite (Hfind id Hid) in Hf. injection Hf as <-.
      apply Hput; [exact Hid |].
      repeat split; simpl; try lia. now exists [r].
    + apply (Hskip id _ Hid). eauto.
  - unfold DiscardSessionState.
    destruct (TMap.Find m id) as [s0|] eqn:Hf; [| exact Hsame].
    destruct (decide (FString.key id = k)) as [Hid | Hid].
    + rewrite (Hfind id Hid) in Hf. injection Hf as <-.
      apply Hput; [exact Hid |].
      repeat split; simpl; try lia. exists []. now rewrite app_nil_r.
    + apply (Hskip id _ Hid). eauto.
Qed.

(** X2: a stored session is never removed, and as long as no
    [CreateSession] draws its id again, its identity (session id, player
    id, shard id, start time) never changes, its state never moves back in
    the order CREATED, ACTIVE, ENDED, and its rewards are only ever
    extended. *)
Theorem session_only_moves_forward cs (m : Sessions) (k : string) s :
  m !! k = Some s ->
  Forall (KeepsKey k) cs ->
  exists s', run cs m !! k = Some s' /\ Extends s s'.
Proof.
  revert m s. induction cs as [|c cs IH]; intros m s Hs Hall; simpl.
  - exists s. auto using Extends_refl.
  - inversion Hall as [|? ? Hc Hcs]; subst.
    destruct (exec_Extends c m k s Hs Hc) as (s1 & Hs1 & He1).
    destruct (IH _ _ Hs1 Hcs) as (s2 & Hs2 & He2).
    exists s2. eauto using Extends_trans.
Qed.

Lemma Coherent_Add id s' (m : Sessions) :
  CoherentSession (FString.key id) s' -> Coherent m -> Coherent (TMap.Add id s' m).
Proof. intros Hs Hm. unfold Coherent, TMap.Add. now apply map_Forall_insert_2. Qed.

Lemma Coherent_exec c (m : Sessions) : Coherent m -> Coherent (exec c m).
Proof.
  intros Hm.
  destruct c as [p sh g now | id | id now | id ty d g now
                | id r | id now | id | id | id]; simpl; try assumption.
  - apply Coherent_Add; [| assumption].
    repeat split; simpl; auto using AtMostOnce_nil.
  - rewrite StartSession_eq.
    destruct (TransitionState_cases id CREATED ACTIVE m)
      as [(s & Hf & Hst & ->) | [_ ->]]; simpl; [| assumption].
    destruct (Hm _ _ Hf) as (H1 & H2 & H3 & H4 & H5).
    apply Coherent_Add; [| assumption].
    repeat split; simpl; try assumption; try (apply H4; congruence).
    discriminate.
  - destruct (EndSession_cases id now m) as [(s & Hf & Hst) | ->]; [| assumption].
    rewrite (EndSession_active _ _ _ _ Hf Hst). simpl.
    destruct (Hm _ _ Hf) as (H1 & H2 & H3 & H4 & H5).
    apply Coherent_Add; [| assumption].
    repeat split; simpl; try assumption; try done.
    apply Forall_map. eapply Forall_impl; [exact H3 |]. now intros e He.
  - unfold TrackEvent. destruct (TMap.Find m id) as [s|] eqn:Hf; [| assumption].
    destruct (bool_decide (State s = ACTIVE)) eqn:Hact; simpl; [| assumption].
    apply bool_decide_eq_true_1 in Hact.
    destruct (Hm _ _ Hf) as (H1 & H2 & H3 & H4 & H5).
    assert (State s <> ENDED) as Hne by congruence.
    destruct (H4 Hne) as (H6 & H7 & H8).
    apply Coherent_Add; [| assumption].
    repeat split; simpl; try assumption; try congruence.
    + apply Forall_app. split; [assumption | now repeat constructor].
    + apply Forall_app. split; [assumption | now repeat constructor].
  - unfold AddReward. destruct (TMap.Find m id) as [s|] eqn:Hf; [| assumption].
    destruct (FString.Contains _ _) eqn:Hc; [assumption |].
    destruct (Hm _ _ Hf) as (H1 & H2 & H3 & H4 & H5).
    apply Coherent_Add; [| assumption].
    repeat split; simpl; try assumption; try (apply H4; assumption).
    now apply AtMostOnce_snoc.
  - unfold DiscardSessionState.
    destruct (TMap.Find m id) as [s|] eqn:Hf; [| assumption].
    destruct (Hm _ _ Hf) as (H1 & H2 & H3 & H4 & H5).
    apply Coherent_Add; [| assumption].
    repeat split; simpl; try assumption; try constructor;
      try (apply H4; assumption).
Qed.

Lemma Coherent_run cs (m : Sessions) : Coherent m -> Coherent (run cs m).
Proof.
  revert m. induction cs as [|c cs IH]; intros m Hm; simpl; [assumption |].
  apply IH. now apply Coherent_exec.
Qed.

Lemma Coherent_reachable cs : Coherent (run cs ∅).
Proof. apply Coherent_run, map_Forall_empty. Qed.

Lemma AddReward_idempotent id r (m : Sessions) :
  AddReward id r (AddReward id r m) = AddReward id r m.
Proof.
  unfold AddReward. destruct (TMap.Find m id) as [s|] eqn:Hf.
  - destruct (FString.Contains (Rewards s) r) eqn:Hc.
    + now rewrite Hf, Hc.
    + rewrite Find_Add_same. simpl.
      rewrite Contains_app. simpl. rewrite FString_eq_refl.
      now rewrite orb_true_r.
  - now rewrite Hf.
Qed.

(** X3: whatever calls are made on a new manager, the rewards of a stored
    session hold no reward id twice (ids compared as [Contains] compares
    them), and adding the same reward to a session twice is the same as
    adding it once. *)
Theorem session_rewards_hold_no_id_twice cs (k : string) s :
  run cs ∅ !! k = Some s ->
  URewardSystem.AtMostOnce (Rewards s)
  /\ (forall r, (count_occ string_dec (Rewards s) r <= 1)%nat)
  /\ (forall id r,
        AddReward id r (AddReward id r (run cs ∅)) = AddReward id r (run cs ∅)).
Proof.
  intros Hk. destruct (Coherent_reachable cs _ _ Hk) as (_ & Hone & _).
  split; [exact Hone |]. split.
  - intros r. etransitivity; [apply count_occ_le_filter | apply Hone].
  - intros id r. apply AddReward_idempotent.
Qed.

(** X4: whatever calls are made on a new manager, [GetSession] returns a
    session whose id is the id asked for, up to letter case, and whose
    events carry its player id; a session that has not ended has no end
    time and no TTL, and none of its events has a TTL; a session that was
    never started has no event: events are recorded only from
    [StartSession] on, and TTLs are written by [EndSession] only. *)
Theorem stored_session_is_coherent cs (id : string) s :
  GetSession id (run cs ∅) = Some s ->
  FString.eq (SessionId s) id = true
  /\ Forall (fun e => FInteractionEvent.PlayerId e = PlayerId s) (Events s)
  /\ (State s <> ENDED ->
      TTL s = 0 /\ EndTime s = 0
      /\ Forall (fun e => FInteractionEvent.TTL e = 0) (Events s))
  /\ (State s = CREATED -> Events s = []).
Proof.
  intros Hg.
  destruct (Coherent_reachable cs _ _ Hg) as (Hkey & _ & Hev & H4 & H5).
  split; [apply FString_eq_key; now symmetry |].
  split; [exact Hev |]. split; [exact H4 | exact H5].
Qed.

(** X5: whatever calls are made on a new manager, [GetSessionState]
    answers [EXPIRED] exactly for the ids under which no session is stored:
    the answer [EXPIRED] never describes a stored session. *)
Theorem expired_means_unknown cs (id : string) :
  GetSessionState id (run cs ∅) = EXPIRED <-> GetSession id (run cs ∅) = None.
Proof.
  unfold GetSessionState, GetSession.
  destruct (TMap.Find (run cs ∅) id) as [s|] eqn:Hf; split; try congruence.
  intros Hst. exfalso.
  assert (Lawful (run cs ∅)) as HL by (apply Lawful_run, map_Forall_empty).
  exact (HL _ _ Hf Hst).
Qed.

Lemma TrackEvents_cons id ty d g now evs (m : Sessions) :
  TrackEvents id ((ty, d, g, now) :: evs) m
  = TrackEvents id evs (TrackEvent id ty d g now m).
Proof. reflexivity. Qed.

Lemma TrackEvents_active id evs (m : Sessions) s :
  TMap.Find m id = Some s -> State s = ACTIVE ->
  TrackEvents id evs m
  = TMap.Add id
      (set_Events
         (Events s ++ map (fun '(ty, d, g, now) => NewEvent s ty d g now) evs) s)
      m.
Proof.
  revert m s. induction evs as [|[[[ty d] g] now] evs IH]; intros m s Hf Hst.
  - simpl. rewrite app_nil_r. unfold TMap.Add, TMap.Find in *.
    rewrite insert_id; [reflexivity |]. rewrite Hf. now destruct s.
  - rewrite TrackEvents_cons.
    unfold TrackEvent. rewrite Hf, bool_decide_eq_true_2 by assumption. simpl.
    rewrite (IH _ (set_Events (Events s ++ [NewEvent s ty d g now]) s));
      [| apply Find_Add_same | assumption].
    rewrite Add_Add. simpl. unfold set_Events. simpl.
    now rewrite <- app_assoc.
Qed.

(** X6: the life of a session as the calls compose: after [CreateSession],
    [StartSession], any number of [TrackEvent] calls and [EndSession], the
    stored session is ENDED, holds one event per [TrackEvent] call in the
    order of the calls, each with the id, time, type and data of its call,
    the player id of the session and the TTL of the session; its summary
    carries the session id, the player id and the two times, and
    [DiscardSessionState] then removes the events and nothing else. *)
Theorem session_lifecycle p sh g t0 evs t1 now now' (m : Sessions) :
  fst (EndSession g t1 (TrackEvents g evs
         (snd (StartSession g (snd (CreateSession p sh g t0 m)))))) = true
  /\ TMap.Find
       (snd (EndSession g t1 (TrackEvents g evs
          (snd (StartSession g (snd (CreateSession p sh g t0 m)))))))
       g
     = Some (FPlayerSession.mk g p sh ENDED t0 t1
               (map (fun '(ty, d, eg, t) =>
                       FInteractionEvent.mk eg t p ty d (CalculateTTLFromTime t1))
                    evs)
               [] (CalculateTTLFromTime t1))
  /\ GenerateSessionSummary g now now'
       (snd (EndSession g t1 (TrackEvents g evs
          (snd (StartSession g (snd (CreateSession p sh g t0 m)))))))
     = FPlayerSessionSummary.mk g p [] t0 t1
  /\ TMap.Find
       (DiscardSessionState g
          (snd (EndSession g t1 (TrackEvents g evs
             (snd (StartSession g (snd (CreateSession p sh g t0 m))))))))
       g
     = Some (FPlayerSession.mk g p sh ENDED t0 t1 [] [] (CalculateTTLFromTime t1)).
Proof.
  set (s0 := FPlayerSession.mk g p sh CREATED t0 0 [] [] 0).
  assert (snd (CreateSession p sh g t0 m) = TMap.Add g s0 m) as -> by reflexivity.
  destruct (StartSession_created g (TMap.Add g s0 m) s0) as [-> _];
    [apply Find_Add_same | reflexivity |].
  simpl. rewrite Add_Add.
  rewrite (TrackEvents_active g evs _ (set_State ACTIVE s0));
    [| apply Find_Add_same | reflexivity].
  rewrite Add_Add. simpl.
  erewrite EndSession_active; [| apply Find_Add_same | reflexivity].
  simpl. rewrite Add_Add.
  assert (map (FInteractionEvent.set_TTL (CalculateTTLFromTime t1))
            (map (fun '(ty, d, g0, now0) =>
                    NewEvent (set_State ACTIVE s0) ty d g0 now0) evs)
          = map (fun '(ty, d, eg, t) =>
                   FInteractionEvent.mk eg t p ty d (CalculateTTLFromTime t1)) evs)
    as ->.
  { rewrite map_map. apply map_ext. now intros [[[ty d] eg] t]. }
  split; [reflexivity |]. split; [apply Find_Add_same |]. split.
  - unfold GenerateSessionSummary. now rewrite Find_Add_same.
  - unfold DiscardSessionState. rewrite Find_Add_same.
    now rewrite Add_Add, Find_Add_same.
Qed.

(** X7: [DiscardSessionState] clears the events of the session and leaves
    every other member as it was; doing it twice is doing it once; and the
    summary of a session does not depend on its events: for the same two
    clock readings it is the same before and after [DiscardSessionState],
    and before and after a [TrackEvent]. *)
Theorem discard_clears_events_only id now now' (m : Sessions) :
  (forall s, TMap.Find m id = Some s ->
     TMap.Find (DiscardSessionState id m) id
     = Some (FPlayerSession.mk (SessionId s) (PlayerId s) (ShardId s) (State s)
               (StartTime s) (EndTime s) [] (Rewards s) (TTL s)))
  /\ DiscardSessionState id (DiscardSessionState id m) = DiscardSessionState id m
  /\ GenerateSessionSummary id now now' (DiscardSessionState id m)
     = GenerateSessionSummary id now now' m
  /\ (forall ty d g t,
        GenerateSessionSummary id now now' (TrackEvent id ty d g t m)
        = GenerateSessionSummary id now now' m).
Proof.
  unfold DiscardSessionState, GenerateSessionSummary, TrackEvent.
  destruct (TMap.Find m id) as [s|] eqn:Hf.
  - rewrite Find_Add_same, Add_Add. repeat split.
    + now intros s' [= <-].
    + intros ty d g t. destruct (negb _); [now rewrite Hf |].
      now rewrite Find_Add_same.
  - rewrite Hf. repeat split. discriminate.
Qed.

End SessionMore.

(* ===================================================================== *)
(** * Further properties of the token validator *)
(* ===================================================================== *)

Section JWTMore.
Context `{JsonEngine}.
Import FJWTClaims FJWTValidationResult CognitoConfig UJWTValidator.

Lemma append_not_empty (c : ascii) (s t : string) :
  String c s +:+ t <> EmptyString.
Proof. rewrite append_cons. discriminate. Qed.

(** A refusal by [ValidateClaims] comes with a message. *)
Lemma ValidateClaims_refusal cfg C msg :
  fst (ValidateClaims cfg C msg) = false ->
  snd (ValidateClaims cfg C msg) <> EmptyString.
Proof.
  unfold ValidateClaims.
  repeat match goal with |- context [if ?b then _ else _] => destruct b end;
    simpl; try discriminate; intros _; try apply append_not_empty.
Qed.

(** X8: the three ways [ValidateToken] reports its verdict agree: the
    value returned is the member [bIsValid] of the result, and it is [true]
    exactly when the error message of the result is empty; every refusal
    comes with a message. *)
Theorem validate_token_verdict_is_coherent cfg UtcNow (Token : string) R :
  bIsValid (snd (ValidateToken cfg UtcNow Token R))
  = fst (ValidateToken cfg UtcNow Token R)
  /\ (fst (ValidateToken cfg UtcNow Token R) = true <->
      ErrorMessage (snd (ValidateToken cfg UtcNow Token R)) = EmptyString).
Proof.
  unfold ValidateToken.
  destruct (FString.IsEmpty Token); [simpl; split; [reflexivity | split; discriminate] |].
  destruct (ParseToken Token) as [[[h p] s]|];
    [| simpl; split; [reflexivity | split; discriminate]].
  destruct (ParseClaims p (Claims R)) as [C|];
    [| simpl; split; [reflexivity | split; discriminate]].
  destruct (IsTokenExpired UtcNow (ExpirationTime C));
    [simpl; split; [reflexivity | split; discriminate] |].
  pose proof (ValidateClaims_refusal cfg C EmptyString) as Hmsg.
  pose proof (ValidateClaims_pass cfg C EmptyString) as Hok.
  destruct (ValidateClaims cfg C EmptyString) as [[] msg]; simpl in *.
  - specialize (Hok Logic.eq_refl). injection Hok as ->.
    unfold VerifySignature. rewrite andb_false_r. simpl. now split.
  - specialize (Hmsg Logic.eq_refl). split; [reflexivity |].
    split; [discriminate | intros E; now destruct (Hmsg E)].
Qed.

(** X9: the header and the signature of a token play no part: two tokens
    with the same payload segment get the same verdict, the same message and
    the same claims from [ValidateToken], under any configuration, and the
    same answer from [DecodeToken]. In particular the signature is never a
    reason to refuse a token. *)
Theorem header_and_signature_are_ignored
    cfg UtcNow (Token Token' h h' p s s' : string) R C :
  ParseToken Token = Some (h, p, s) ->
  ParseToken Token' = Some (h', p, s') ->
  ValidateToken cfg UtcNow Token R = ValidateToken cfg UtcNow Token' R
  /\ DecodeToken Token C = DecodeToken Token' C
  /\ ErrorMessage (snd (ValidateToken cfg UtcNow Token R))
     <> "Token signature verification failed".
Proof.
  intros E E'. unfold ValidateToken, DecodeToken.
  rewrite (ParseToken_not_empty _ _ _ _ E), (ParseToken_not_empty _ _ _ _ E'), E, E'.
  unfold VerifySignature. rewrite andb_false_r.
  split; [reflexivity |]. split; [reflexivity |].
  destruct (ParseClaims p (Claims R)) as [C1|]; [| simpl; discriminate].
  destruct (IsTokenExpired UtcNow (ExpirationTime C1)); [simpl; discriminate |].
  pose proof (ValidateClaims_pass cfg C1 EmptyString) as Hok.
  unfold ValidateClaims in *.
  repeat match goal with |- context [if ?b then _ else _] => destruct b end;
    simpl; try discriminate; rewrite append_cons; discriminate.
Qed.

(** X10: a token that [ValidateToken] accepts is a token that [DecodeToken]
    decodes, to the same claims; the converse fails on purpose, since
    [DecodeToken] checks neither the expiration nor the claims: whenever the
    parts and the payload of a token can be read, [DecodeToken] succeeds
    whatever the clock and the configuration. *)
Theorem validated_token_decodes_to_same_claims cfg UtcNow (Token : string) R :
  (fst (ValidateToken cfg UtcNow Token R) = true ->
   DecodeToken Token (Claims R)
   = Some (Claims (snd (ValidateToken cfg UtcNow Token R))))
  /\ (DecodeToken Token (Claims R) = None ->
      ValidateToken cfg UtcNow Token R
      = (false,
         FJWTValidationResult.mk false
           (if FString.IsEmpty Token then "Token is empty"
            else match ParseToken Token with
                 | None => "Invalid token format"
                 | Some _ => "Failed to parse token claims"
                 end)
           (Claims R)))
  /\ (forall C, DecodeToken Token (Claims R) = Some C ->
      Claims (snd (ValidateToken cfg UtcNow Token R)) = C).
Proof.
  unfold ValidateToken, DecodeToken.
  destruct (FString.IsEmpty Token) eqn:Hempty.
  - apply IsEmpty_true in Hempty. subst Token. simpl.
    split; [discriminate |]. split; [reflexivity | discriminate].
  - destruct (ParseToken Token) as [[[h p] s]|];
      [| simpl; split; [discriminate | split; [reflexivity | discriminate]]].
    destruct (ParseClaims p (Claims R)) as [C1|];
      [| simpl; split; [discriminate | split; [reflexivity | discriminate]]].
    assert (forall b R', Claims R' = C1 ->
              (b = true -> Some C1 = Some (Claims R'))
              /\ (Some C1 = None -> (b, R') = (false, FJWTValidationResult.mk false
                                         "Failed to parse token claims" (Claims R)))
              /\ (forall C, Some C1 = Some C -> Claims R' = C)) as Hgen.
    { intros b R' <-. split; [reflexivity |]. split; [discriminate | congruence]. }
    destruct (IsTokenExpired UtcNow (ExpirationTime C1)); [now apply Hgen |].
    destruct (ValidateClaims cfg C1 EmptyString) as [[] msg]; [| now apply Hgen].
    destruct (_ && _); now apply Hgen.
Qed.

(** X11: once [SetCognitoConfig] has been called, with any arguments, the
    issuer is always tested: the configured issuer is never empty (it
    starts with "https://cognito-idp."), so the validation mode without
    issuer cannot be configured back, and claims without issuer are always
    refused. The audience is tested exactly when the client id given is not
    empty. *)
Theorem configured_issuer_is_never_empty (UserPoolId Region ClientId : string) C msg :
  CognitoIssuer (SetCognitoConfig UserPoolId Region ClientId) <> EmptyString
  /\ (fst (ValidateClaims (SetCognitoConfig UserPoolId Region ClientId) C msg) = true ->
      FString.eq (Issuer C)
        ("https://cognito-idp." +:+ Region +:+ ".amazonaws.com/" +:+ UserPoolId) = true
      /\ Issuer C <> EmptyString
      /\ (ClientId <> EmptyString -> FString.eq (Audience C) ClientId = true)).
Proof.
  assert (CognitoIssuer (SetCognitoConfig UserPoolId Region ClientId) <> EmptyString)
    as Hne by (simpl; apply append_not_empty).
  split; [exact Hne |].
  intros Hok. apply ValidateClaims_true in Hok.
  destruct Hok as ([Hiss | Hiss] & [Haud | Haud] & _).
  - apply IsEmpty_true in Hiss. now destruct Hne.
  - apply IsEmpty_true in Hiss. now destruct Hne.
  - simpl in *. split; [exact Hiss |]. split.
    + intros E. rewrite E in Hiss. apply FString_eq_true in Hiss.
      rewrite append_cons in Hiss. discriminate Hiss.
    + intros Hc. apply IsEmpty_true in Haud. now destruct Hc.
  - simpl in *. split; [exact Hiss |]. split.
    + intros E. rewrite E in Hiss. apply FString_eq_true in Hiss.
      rewrite append_cons in Hiss. discriminate Hiss.
    + intros _. exact Haud.
Qed.

Lemma wrap64_date (t : Z) :
  0 <= t <= FDateTime.MaxTicks ->
  FDateTime.wrap64 (t - FDateTime.UnixEpochTicks) = t - FDateTime.UnixEpochTicks.
Proof.
  unfold FDateTime.MaxTicks, FDateTime.UnixEpochTicks. intros Ht.
  apply wrap64_small. lia.
Qed.

(** X12: expiration is permanent: for clock readings the engine can
    represent, a token found expired at one instant is found expired at
    every later instant, and the Unix time the check uses never decreases
    with the clock. *)
Theorem expired_token_stays_expired (UtcNow UtcNow' exp : Z) :
  0 <= UtcNow -> UtcNow <= UtcNow' -> UtcNow' <= FDateTime.MaxTicks ->
  FDateTime.ToUnixTimestamp UtcNow <= FDateTime.ToUnixTimestamp UtcNow'
  /\ (IsTokenExpired UtcNow exp = true -> IsTokenExpired UtcNow' exp = true).
Proof.
  intros H0 Hle Hmax.
  assert (FDateTime.ToUnixTimestamp UtcNow <= FDateTime.ToUnixTimestamp UtcNow') as Hmono.
  { unfold FDateTime.ToUnixTimestamp. rewrite !wrap64_date by lia.
    apply Z.quot_le_mono; [reflexivity | lia]. }
  split; [exact Hmono |].
  rewrite !IsTokenExpired_true. lia.
Qed.

Lemma length_append (a b : string) :
  String.length (a +:+ b) = (String.length a + String.length b)%nat.
Proof.
  induction a as [|c a IH]; [reflexivity |].
  rewrite append_cons. simpl. now rewrite IH.
Qed.

Lemma length_ReplaceChar (from to : ascii) (s : string) :
  String.length (FString.ReplaceChar from to s) = String.length s.
Proof. induction s as [|c s IH]; simpl; [reflexivity | now rewrite IH]. Qed.

Lemma length_AppendChars (s : string) (c : ascii) (n : nat) :
  String.length (FString.AppendChars s c n) = (String.length s + n)%nat.
Proof.
  revert s. induction n as [|n IH]; intros s; simpl; [lia |].
  rewrite IH, length_append. simpl. lia.
Qed.

Lemma Free_ReplaceChar_same (from to : ascii) (s : string) :
  Ascii.eqb to from = false -> FString.Free from (FString.ReplaceChar from to s).
Proof.
  intros Hne. induction s as [|c s IH]; simpl; [exact I |].
  split; [| exact IH]. destruct (Ascii.eqb c from) eqn:E; assumption.
Qed.

Lemma Free_ReplaceChar_other (d from to : ascii) (s : string) :
  Ascii.eqb to d = false -> FString.Free d s ->
  FString.Free d (FString.ReplaceChar from to s).
Proof.
  intros Hne. induction s as [|c s IH]; simpl; [trivial |].
  intros [Hc Hs]. split; [| now apply IH].
  destruct (Ascii.eqb c from); assumption.
Qed.

Lemma Free_AppendChars (d c : ascii) (s : string) (n : nat) :
  Ascii.eqb c d = false -> FString.Free d s ->
  FString.Free d (FString.AppendChars s c n).
Proof.
  intros Hne. revert s. induction n as [|n IH]; intros s Hs; simpl; [assumption |].
  apply IH. now apply Free_append_char.
Qed.

Lemma ReplaceChar_Free (from to : ascii) (s : string) :
  FString.Free from s -> FString.ReplaceChar from to s = s.
Proof.
  induction s as [|c s IH]; simpl; [reflexivity |].
  intros [Hc Hs]. now rewrite Hc, IH.
Qed.

Lemma padding_completes (n : nat) : ((n + (4 - n mod 4) mod 4) mod 4 = 0)%nat.
Proof.
  pose proof (Nat.mod_upper_bound n 4 ltac:(lia)) as Hlt.
  rewrite Nat.Div0.add_mod.
  destruct (n mod 4)%nat as [|[|[|[|r]]]]; [reflexivity .. | lia].
Qed.

Lemma string_of_list_ascii_app (l1 l2 : list ascii) :
  string_of_list_ascii (l1 ++ l2)
  = string_of_list_ascii l1 +:+ string_of_list_ascii l2.
Proof.
  induction l1 as [|c l1 IH]; simpl; [now rewrite append_empty_l |].
  now rewrite IH, append_cons.
Qed.

(** The two replacements of [DecodeBase64URL], character by character. *)
Lemma ReplaceChar_twice (s : string) :
  FString.ReplaceChar "_" "/" (FString.ReplaceChar "-" "+" s)
  = string_of_list_ascii
      (map (fun c : ascii =>
              if Ascii.eqb c "-" then "+"%char
              else if Ascii.eqb c "_" then "/"%char else c)
         (list_ascii_of_string s)).
Proof.
  induction s as [|c s IH]; simpl; [reflexivity |].
  rewrite IH. now destruct (Ascii.eqb c "-").
Qed.

(** The padding loop appends [n] copies of the character. *)
Lemma AppendChars_repeat (s : string) (c : ascii) (n : nat) :
  FString.AppendChars s c n = s +:+ string_of_list_ascii (List.repeat c n).
Proof.
  revert s. induction n as [|n IH]; intros s; simpl.
  - now rewrite append_empty_r.
  - rewrite IH, append_assoc. now rewrite append_cons, append_empty_l.
Qed.

(** X13: what [DecodeBase64URL] hands to the Base64 decoder of the engine:
    the characters of the input, in order, with every "-" turned into "+",
    every "_" into "/" and every other character kept, followed by [n]
    characters "=", where [n] is at most three and brings the length to a
    multiple of four. The string handed over has no "-" and no "_", and an
    input that is already standard Base64 (none of the two characters,
    length a multiple of four) is handed over unchanged. *)
Theorem base64url_is_normalised (Input : string) :
  exists (Base64 : string) (n : nat),
    DecodeBase64URL Input = Base64_Decode Base64
    /\ Base64
       = string_of_list_ascii
           (map (fun c : ascii =>
                   if Ascii.eqb c "-" then "+"%char
                   else if Ascii.eqb c "_" then "/"%char else c)
              (list_ascii_of_string Input)
            ++ List.repeat "="%char n)
    /\ (n <= 3)%nat
    /\ (String.length Base64 = String.length Input + n)%nat
    /\ (String.length Base64 mod 4 = 0)%nat
    /\ (String.length Input <= String.length Base64 < String.length Input + 4)%nat
    /\ FString.Free "-" Base64
    /\ FString.Free "_" Base64
    /\ (FString.Free "-" Input -> FString.Free "_" Input ->
        (String.length Input mod 4 = 0)%nat -> Base64 = Input).
Proof.
  unfold DecodeBase64URL. eexists. eexists. split; [reflexivity |].
  rewrite length_AppendChars, !length_ReplaceChar.
  split.
  { rewrite AppendChars_repeat, ReplaceChar_twice.
    now rewrite string_of_list_ascii_app. }
  pose proof (Nat.mod_upper_bound (4 - String.length Input mod 4) 4 ltac:(lia)).
  split; [lia |].
  split; [reflexivity |].
  split; [apply padding_completes |].
  split; [lia |].
  split.
  { apply Free_AppendChars; [reflexivity |].
    apply Free_ReplaceChar_other; [reflexivity |].
    now apply Free_ReplaceChar_same. }
  split.
  { apply Free_AppendChars; [reflexivity |]. now apply Free_ReplaceChar_same. }
  intros Hm Hu Hlen.
  rewrite (ReplaceChar_Free "-" "+" Input Hm), (ReplaceChar_Free "_" "/" Input Hu).
  now rewrite Hlen.
Qed.



End JWTMore.

(* ===================================================================== *)
(** * Further properties of the reward system *)
(* ===================================================================== *)

Section RewardMore.
Import FRewardGrantResult URewardSystem RewardLedger.

Lemma IsValidRewardId_same_catalog r rs rs' :
  Catalog rs' = Catalog rs -> bCatalogLoaded rs' = bCatalogLoaded rs ->
  IsValidRewardId r rs' = IsValidRewardId r rs.
Proof. intros Hc Hl. unfold IsValidRewardId. now rewrite Hc, Hl. Qed.

(** The outcome of [GrantReward], by cases on what it tests. *)
Lemma GrantReward_cases p r rs :
  (bSuccess (fst (GrantReward p r rs)) = false /\ snd (GrantReward p r rs) = rs
   /\ (FString.IsEmpty p = true \/ FString.IsEmpty r = true
       \/ IsValidRewardId r rs = false \/ HasReward p r rs = true))
  \/ (FString.IsEmpty p = false /\ FString.IsEmpty r = false
      /\ IsValidRewardId r rs = true /\ HasReward p r rs = false
      /\ GrantReward p r rs
         = (Success r,
            URewardSystem.mk (Catalog rs)
              (TMap.Add p (GetPlayerRewards p rs ++ [r]) (PlayerRewards rs))
              (bCatalogLoaded rs))).
Proof.
  destruct (FString.IsEmpty p) eqn:E1.
  { left. rewrite GrantReward_empty_player by assumption. simpl. auto. }
  destruct (FString.IsEmpty r) eqn:E2.
  { left. rewrite GrantReward_empty_reward by assumption. simpl. auto. }
  destruct (bCatalogLoaded rs) eqn:E3.
  2:{ left. rewrite GrantReward_no_catalog by assumption. simpl.
      repeat split. right. right. left. unfold IsValidRewardId. now rewrite E3. }
  destruct (IsValidRewardId r rs) eqn:E4.
  2:{ left. destruct (GrantReward_unknown_reward p r rs E1 E2 E3 E4) as [-> _].
      simpl. auto 8. }
  destruct (HasReward p r rs) eqn:E5.
  { left. rewrite GrantReward_already_granted by assumption. simpl. auto 8. }
  right. rewrite GrantReward_granted by assumption. now rewrite E3.
Qed.

(** X15: [GrantReward] succeeds exactly when the player id and the reward
    id are not empty, the reward id is valid for the loaded catalog and the
    player does not hold it; a failure leaves the reward system exactly as
    it was; after a success the player holds the reward, and the catalog
    and its loaded flag are untouched. *)
Theorem grant_succeeds_exactly_when p r rs :
  (bSuccess (fst (GrantReward p r rs)) = true <->
   FString.IsEmpty p = false /\ FString.IsEmpty r = false
   /\ IsValidRewardId r rs = true /\ HasReward p r rs = false)
  /\ (bSuccess (fst (GrantReward p r rs)) = false -> snd (GrantReward p r rs) = rs)
  /\ (bSuccess (fst (GrantReward p r rs)) = true ->
      HasReward p r (snd (GrantReward p r rs)) = true
      /\ Catalog (snd (GrantReward p r rs)) = Catalog rs
      /\ bCatalogLoaded (snd (GrantReward p r rs)) = bCatalogLoaded rs).
Proof.
  destruct (GrantReward_cases p r rs)
    as [(Hf & Hs & Hwhy) | (E1 & E2 & E4 & E5 & ->)].
  - rewrite Hf, Hs. split; [| split; [reflexivity | discriminate]].
    split; [discriminate |]. intros (A1 & A2 & A4 & A5).
    destruct Hwhy as [B | [B | [B | B]]]; congruence.
  - simpl. split; [now split |]. split; [discriminate |]. intros _.
    split; [| now split].
    unfold HasReward. simpl. rewrite Find_Add_same, Contains_app. simpl.
    rewrite FString_eq_refl. apply orb_true_r.
Qed.

Lemma Contains_In (l : list string) (x : string) : In x l -> FString.Contains l x = true.
Proof.
  unfold FString.Contains. intros Hin. apply existsb_exists.
  exists x. split; [assumption | apply FString_eq_refl].
Qed.

(** One grant, seen from a player [q]. *)
Lemma GrantReward_extends p r rs q :
  exists l, GetPlayerRewards q (snd (GrantReward p r rs)) = GetPlayerRewards q rs ++ l.
Proof.
  destruct (GrantReward_cases p r rs) as [(_ & -> & _) | (_ & _ & _ & _ & ->)].
  - exists []. now rewrite app_nil_r.
  - simpl. unfold GetPlayerRewards at 1. simpl.
    destruct (decide (FString.key p = FString.key q)) as [E | E].
    + unfold TMap.Find, TMap.Add. rewrite <- E, lookup_insert_eq.
      exists [r]. unfold GetPlayerRewards, TMap.Find. now rewrite E.
    + rewrite Find_Add_other by assumption. exists []. now rewrite app_nil_r.
Qed.

(** X16: rewards are never revoked and never reordered: whatever grants
    follow, the rewards of a player are the rewards the player had, in the
    same order, followed by the new ones; in particular a reward once held
    is held for good. *)
Theorem rewards_are_never_revoked gs rs (q r : string) :
  HasReward q r rs = true ->
  HasReward q r (grants gs rs) = true
  /\ exists l, GetPlayerRewards q (grants gs rs) = GetPlayerRewards q rs ++ l.
Proof.
  intros Hhas.
  assert (exists l, GetPlayerRewards q (grants gs rs) = GetPlayerRewards q rs ++ l)
    as Hext.
  { clear Hhas. revert rs. induction gs as [|[p r'] gs IH]; intros rs; simpl.
    - exists []. now rewrite app_nil_r.
    - destruct (IH (snd (GrantReward p r' rs))) as (l2 & ->).
      destruct (GrantReward_extends p r' rs q) as (l1 & ->).
      exists (l1 ++ l2). now rewrite app_assoc. }
  split; [| exact Hext]. destruct Hext as (l & Hl).
  assert (forall rs', HasReward q r rs' = FString.Contains (GetPlayerRewards q rs') r)
    as Hdef.
  { intros rs'. unfold HasReward, GetPlayerRewards.
    now destruct (TMap.Find (PlayerRewards rs') q). }
  rewrite Hdef, Hl, Contains_app. rewrite Hdef in Hhas. now rewrite Hhas.
Qed.

Lemma key_not_empty (p : string) : FString.IsEmpty p = false -> FString.key p <> EmptyString.
Proof. destruct p; [discriminate | discriminate]. Qed.

Lemma Ledger_GrantReward rs0 p r rs : Ledger rs0 rs -> Ledger rs0 (snd (GrantReward p r rs)).
Proof.
  intros (Hc & Hl & Hm).
  destruct (GrantReward_cases p r rs) as [(_ & -> & _) | (E1 & E2 & E4 & E5 & ->)];
    [exact (conj Hc (conj Hl Hm)) |].
  unfold Ledger. simpl. split; [exact Hc |]. split; [exact Hl |].
  unfold TMap.Add. apply map_Forall_insert_2; [| exact Hm].
  split; [now apply key_not_empty |].
  apply Forall_app. split.
  - unfold GetPlayerRewards.
    destruct (TMap.Find (PlayerRewards rs) p) as [l|] eqn:Hf; [| constructor].
    exact (proj2 (Hm _ _ Hf)).
  - repeat constructor; [now apply IsEmpty_false |].
    now rewrite <- (IsValidRewardId_same_catalog r rs0 rs Hc Hl).
Qed.

Lemma Ledger_grants rs0 gs rs : Ledger rs0 rs -> Ledger rs0 (grants gs rs).
Proof.
  revert rs. induction gs as [|[p r] gs IH]; intros rs Hrs; simpl; [assumption |].
  apply IH. now apply Ledger_GrantReward.
Qed.

(** X17: the ledger only ever holds rewards of the catalog: whatever grants
    are made on a reward system with an empty ledger, every reward id a
    player holds is a non-empty id valid for the catalog, a player with the
    empty id holds nothing, and while the catalog is not loaded nobody
    holds anything. *)
Theorem ledger_holds_catalog_rewards_only gs catalog loaded (p r : string) :
  In r (GetPlayerRewards p (grants gs (URewardSystem.mk catalog ∅ loaded))) ->
  r <> EmptyString
  /\ p <> EmptyString
  /\ loaded = true
  /\ IsValidRewardId r (URewardSystem.mk catalog ∅ loaded) = true.
Proof.
  set (rs0 := URewardSystem.mk catalog ∅ loaded).
  assert (Ledger rs0 (grants gs rs0)) as (_ & _ & Hm).
  { apply Ledger_grants.
    split; [reflexivity | split; [reflexivity | apply map_Forall_empty]]. }
  unfold GetPlayerRewards.
  destruct (TMap.Find (PlayerRewards (grants gs rs0)) p) as [l|] eqn:Hf;
    [| intros []].
  intros Hin. destruct (Hm _ _ Hf) as (Hk & Hall).
  rewrite Forall_forall in Hall. destruct (Hall r) as (Hr & Hv).
  { now apply list_elem_of_In. }
  split; [exact Hr |]. split.
  - intros ->. now apply Hk.
  - split; [| exact Hv]. now apply IsValidRewardId_loaded in Hv.
Qed.

Lemma Contains_eq (l : list string) (x y : string) :
  FString.eq x y = true -> FString.Contains l x = FString.Contains l y.
Proof.
  intros E. unfold FString.Contains. induction l as [|z l IH]; simpl; [reflexivity |].
  rewrite IH. f_equal. unfold FString.eq in *.
  apply String.eqb_eq in E. now rewrite E.
Qed.

(** X18: players and rewards are identified up to the case of ASCII
    letters: two spellings of a player id that differ by letter case
    designate the same entry of the ledger, two such spellings of a reward
    id are the same reward for [IsValidRewardId] and [HasReward], and
    [GrantReward] gives the same verdict and error code for them. So a
    reward granted under one spelling is refused as already granted
    under the other. *)
Theorem ids_are_compared_ignoring_case (p p' r r' : string) rs :
  FString.eq p p' = true ->
  FString.eq r r' = true ->
  GetPlayerRewards p rs = GetPlayerRewards p' rs
  /\ IsValidRewardId r rs = IsValidRewardId r' rs
  /\ HasReward p r rs = HasReward p' r' rs
  /\ bSuccess (fst (GrantReward p r rs)) = bSuccess (fst (GrantReward p' r' rs))
  /\ ErrorCode (fst (GrantReward p r rs)) = ErrorCode (fst (GrantReward p' r' rs))
  /\ (bSuccess (fst (GrantReward p r rs)) = true ->
      ErrorCode (fst (GrantReward p' r' (snd (GrantReward p r rs))))
      = "REWARD_ALREADY_GRANTED").
Proof.
  intros Ep Er.
  assert (FString.key p = FString.key p') as Hk by now apply FString_eq_key.
  assert (forall rs', GetPlayerRewards p rs' = GetPlayerRewards p' rs') as Hget.
  { intros rs'. unfold GetPlayerRewards, TMap.Find. now rewrite Hk. }
  assert (forall rs', IsValidRewardId r rs' = IsValidRewardId r' rs') as Hval.
  { intros rs'. unfold IsValidRewardId. destruct (negb _); [reflexivity |].
    induction (FRewardCatalog.Rewards (Catalog rs')) as [|e l IH]; simpl;
      [reflexivity |].
    rewrite IH. f_equal. unfold FString.eq in *.
    apply String.eqb_eq in Er. now rewrite Er. }
  assert (forall rs', HasReward p r rs' = HasReward p' r' rs') as Hhas.
  { intros rs'. unfold HasReward, TMap.Find. rewrite Hk.
    destruct (PlayerRewards rs' !! FString.key p'); [| reflexivity].
    now apply Contains_eq. }
  assert (FString.IsEmpty p = FString.IsEmpty p') as Hep.
  { rewrite <- (ToLower_IsEmpty p), <- (ToLower_IsEmpty p').
    unfold FString.key in Hk. now rewrite Hk. }
  assert (FString.IsEmpty r = FString.IsEmpty r') as Her.
  { rewrite <- (ToLower_IsEmpty r), <- (ToLower_IsEmpty r').
    apply FString_eq_true in Er. now rewrite Er. }
  split; [apply Hget |]. split; [apply Hval |]. split; [apply Hhas |].
  assert (forall rs',
            bSuccess (fst (GrantReward p r rs')) = bSuccess (fst (GrantReward p' r' rs'))
            /\ ErrorCode (fst (GrantReward p r rs'))
               = ErrorCode (fst (GrantReward p' r' rs'))) as Hsame.
  { intros rs'. unfold GrantReward. rewrite <- Hep, <- Her, <- Hval.
    destruct (FString.IsEmpty p); [now split |].
    destruct (FString.IsEmpty r); [now split |].
    destruct (negb (bCatalogLoaded rs')); [now split |].
    destruct (negb (IsValidRewardId r rs')); [now split |].
    unfold FindOrAdd, TMap.Find. rewrite Hk.
    destruct (PlayerRewards rs' !! FString.key p') as [l|]; simpl.
    - rewrite (Contains_eq l r r' Er). now destruct (FString.Contains l r').
    - now split. }
  split; [apply Hsame |]. split; [apply Hsame |].
  intros Hok.
  destruct (GrantReward_cases p r rs)
    as [(Hf & _) | (E1 & E2 & E4 & E5 & Hg)]; [congruence |].
  rewrite Hg. simpl.
  rewrite GrantReward_already_granted; try reflexivity; try congruence; simpl.
  - now apply IsValidRewardId_loaded in E4.
  - rewrite <- Hval. unfold IsValidRewardId in *. exact E4.
  - rewrite <- Hhas. unfold HasReward. simpl.
    rewrite Find_Add_same, Contains_app. simpl.
    rewrite FString_eq_refl. apply orb_true_r.
Qed.

End RewardMore.

(* ===================================================================== *)
(** * Properties of the catalog loader *)
(* ===================================================================== *)

Section CatalogFacts.
Context `{CatalogServices}.
Import URewardSystem CatalogLoader.

Lemma ParseEntries_loop (arr : list FJsonValue) (acc : list FRewardCatalogEntry.t) :
  fold_left
    (fun Rewards RewardValue =>
       match TryGetObject RewardValue with
       | None => Rewards
       | Some RewardObject => Rewards ++ [ParseEntry RewardObject]
       end)
    arr acc
  = acc ++ map ParseEntry (omap TryGetObject arr).
Proof.
  revert acc. induction arr as [|v arr IH]; intros acc; simpl.
  - now rewrite app_nil_r.
  - rewrite IH. destruct (TryGetObject v); simpl; [| reflexivity].
    now rewrite <- app_assoc.
Qed.

(** The entries are those of the objects of the array, in order. *)
Lemma ParseEntries_objects (arr : list FJsonValue) :
  ParseEntries arr = map ParseEntry (omap TryGetObject arr).
Proof. unfold ParseEntries. now rewrite ParseEntries_loop. Qed.

(** What [ParseCatalogJson] never touches, and what it keeps on failure. *)
Lemma ParseCatalogJson_keeps (JsonString : string) rs :
  PlayerRewards (snd (ParseCatalogJson JsonString rs)) = PlayerRewards rs
  /\ bCatalogLoaded (snd (ParseCatalogJson JsonString rs)) = bCatalogLoaded rs
  /\ (fst (ParseCatalogJson JsonString rs) = false ->
      FRewardCatalog.Rewards (Catalog (snd (ParseCatalogJson JsonString rs)))
      = FRewardCatalog.Rewards (Catalog rs)).
Proof.
  unfold ParseCatalogJson.
  destruct (Deserialize JsonString) as [obj|]; [| now repeat split].
  destruct (HasField obj "version"), (HasField obj "lastUpdated"),
    (HasField obj "rewards"); simpl;
    try (now repeat split);
    destruct (TryGetArrayField obj "rewards"); simpl;
    repeat split; discriminate.
Qed.

(** On success, where the rewards come from. *)
Lemma ParseCatalogJson_ok (JsonString : string) rs :
  fst (ParseCatalogJson JsonString rs) = true ->
  exists obj arr,
    Deserialize JsonString = Some obj
    /\ HasField obj "rewards" = true
    /\ TryGetArrayField obj "rewards" = Some arr
    /\ FRewardCatalog.Rewards (Catalog (snd (ParseCatalogJson JsonString rs)))
       = ParseEntries arr.
Proof.
  unfold ParseCatalogJson.
  destruct (Deserialize JsonString) as [obj|]; [| discriminate].
  destruct (HasField obj "rewards") eqn:Hr; simpl.
  - destruct (TryGetArrayField obj "rewards") as [arr|] eqn:Ha; [| discriminate].
    intros _. exists obj, arr. now repeat split.
  - discriminate.
Qed.

Lemma LoadCatalogFromFile_fst_snd (FilePath : string) rs :
  LoadFileToString FilePath = None /\ LoadCatalogFromFile FilePath rs = (false, rs)
  \/ exists js, LoadFileToString FilePath = Some js
       /\ fst (LoadCatalogFromFile FilePath rs) = fst (ParseCatalogJson js rs)
       /\ Catalog (snd (LoadCatalogFromFile FilePath rs))
          = Catalog (snd (ParseCatalogJson js rs))
       /\ PlayerRewards (snd (LoadCatalogFromFile FilePath rs)) = PlayerRewards rs
       /\ bCatalogLoaded (snd (LoadCatalogFromFile FilePath rs))
          = (bCatalogLoaded rs || fst (ParseCatalogJson js rs)).
Proof.
  unfold LoadCatalogFromFile.
  destruct (LoadFileToString FilePath) as [js|]; [right | left; now split].
  exists js. split; [reflexivity |].
  destruct (ParseCatalogJson_keeps js rs) as (Hp & Hl & _).
  destruct (ParseCatalogJson js rs) as [[] rs']; simpl in *.
  - rewrite orb_true_r. now repeat split.
  - rewrite orb_false_r. now repeat split.
Qed.

Lemma failed_load (FilePath : string) rs :
  fst (LoadCatalogFromFile FilePath rs) = false ->
  bCatalogLoaded (snd (LoadCatalogFromFile FilePath rs)) = bCatalogLoaded rs
  /\ FRewardCatalog.Rewards (Catalog (snd (LoadCatalogFromFile FilePath rs)))
     = FRewardCatalog.Rewards (Catalog rs)
  /\ PlayerRewards (snd (LoadCatalogFromFile FilePath rs)) = PlayerRewards rs.
Proof.
  destruct (LoadCatalogFromFile_fst_snd FilePath rs)
    as [[_ ->] | (js & _ & Hf & Hc & Hp & Hl)]; [now repeat split |].
  rewrite Hf. intros Hfail. rewrite Hl, Hc, Hp, Hfail, orb_false_r.
  split; [reflexivity |]. split; [| reflexivity].
  now apply ParseCatalogJson_keeps.
Qed.

(** X19: a load that fails (file unreadable, text that is no JSON object,
    no array of rewards) leaves the loaded flag, the rewards of the catalog
    and the rewards of the players as they were, so every reward id is valid
    after it exactly if it was before: a catalog once loaded stays in force.
    (The version and the date of the catalog may have been overwritten.) *)
Theorem failed_load_keeps_catalog_in_force (FilePath : string) rs :
  fst (LoadCatalogFromFile FilePath rs) = false ->
  bCatalogLoaded (snd (LoadCatalogFromFile FilePath rs)) = bCatalogLoaded rs
  /\ FRewardCatalog.Rewards (Catalog (snd (LoadCatalogFromFile FilePath rs)))
     = FRewardCatalog.Rewards (Catalog rs)
  /\ PlayerRewards (snd (LoadCatalogFromFile FilePath rs)) = PlayerRewards rs
  /\ (forall r, IsValidRewardId r (snd (LoadCatalogFromFile FilePath rs))
               = IsValidRewardId r rs).
Proof.
  intros Hfail. destruct (failed_load FilePath rs Hfail) as (Hl & Hr & Hp).
  repeat split; try assumption.
  intros r. unfold IsValidRewardId. now rewrite Hl, Hr.
Qed.

(** X20: a load that succeeds sets the loaded flag, keeps the rewards of
    the players, and installs one catalog entry for each element of the
    "rewards" array that is an object, in order, elements of other kinds
    being skipped; a reward id is then valid exactly when one of these
    objects has it as "id", up to letter case. *)
Theorem successful_load_installs_objects (FilePath : string) rs :
  fst (LoadCatalogFromFile FilePath rs) = true ->
  bCatalogLoaded (snd (LoadCatalogFromFile FilePath rs)) = true
  /\ PlayerRewards (snd (LoadCatalogFromFile FilePath rs)) = PlayerRewards rs
  /\ exists js obj arr,
       LoadFileToString FilePath = Some js
       /\ Deserialize js = Some obj
       /\ TryGetArrayField obj "rewards" = Some arr
       /\ FRewardCatalog.Rewards (Catalog (snd (LoadCatalogFromFile FilePath rs)))
          = map ParseEntry (omap TryGetObject arr)
       /\ (forall r,
             IsValidRewardId r (snd (LoadCatalogFromFile FilePath rs)) = true <->
             exists v o, In v arr /\ TryGetObject v = Some o
                         /\ FString.eq (GetStringField o "id") r = true).
Proof.
  destruct (LoadCatalogFromFile_fst_snd FilePath rs)
    as [[_ ->] | (js & Hjs & Hf & Hc & Hp & Hl)]; [discriminate |].
  rewrite Hf. intros Hok. rewrite Hl, Hok, orb_true_r.
  split; [reflexivity |]. split; [exact Hp |].
  destruct (ParseCatalogJson_ok js rs Hok) as (obj & arr & Hd & _ & Ha & Hr).
  exists js, obj, arr. repeat split; try assumption.
  - now rewrite Hc, Hr, ParseEntries_objects.
  - unfold IsValidRewardId. rewrite Hl, Hok, orb_true_r, Hc, Hr, ParseEntries_objects.
    simpl. rewrite existsb_exists. intros (e & Hin & He).
    apply in_map_iff in Hin. destruct Hin as (o & <- & Hin).
    apply list_elem_of_In, list_elem_of_omap in Hin.
    destruct Hin as (v & Hv & Ho). exists v, o.
    repeat split; [now apply list_elem_of_In | assumption | exact He].
  - intros (v & o & Hv & Ho & He).
    unfold IsValidRewardId. rewrite Hl, Hok, orb_true_r, Hc, Hr, ParseEntries_objects.
    simpl. rewrite existsb_exists. exists (ParseEntry o). split; [| exact He].
    apply in_map. apply list_elem_of_In, list_elem_of_omap.
    exists v. split; [now apply list_elem_of_In | assumption].
Qed.

Lemma GrantReward_unloaded p r rs :
  bCatalogLoaded rs = false ->
  snd (GrantReward p r rs) = rs
  /\ (FString.IsEmpty p = false -> FString.IsEmpty r = false ->
      FRewardGrantResult.ErrorCode (fst (GrantReward p r rs))
      = "REWARD_CATALOG_NOT_FOUND").
Proof.
  intros Hl. unfold GrantReward. rewrite Hl. simpl.
  destruct (FString.IsEmpty p); [split; [reflexivity | discriminate] |].
  destruct (FString.IsEmpty r); [split; [reflexivity | discriminate] |].
  now split.
Qed.

Lemma grants_unloaded gs rs : bCatalogLoaded rs = false -> grants gs rs = rs.
Proof.
  intros Hl. induction gs as [|[p r] gs IH]; simpl; [reflexivity |].
  now rewrite (proj1 (GrantReward_unloaded p r rs Hl)).
Qed.

(** X21: when [Initialize] fails on a new reward system, the reward system
    keeps refusing: whatever grants are attempted afterwards, none changes
    anything, and every grant with a player id and a reward id that are not
    empty fails with REWARD_CATALOG_NOT_FOUND. *)
Theorem failed_initialize_refuses_every_grant gs (p r : string) :
  fst (Initialize URewardSystem.init) = false ->
  grants gs (snd (Initialize URewardSystem.init)) = snd (Initialize URewardSystem.init)
  /\ PlayerRewards (grants gs (snd (Initialize URewardSystem.init))) = ∅
  /\ (FString.IsEmpty p = false -> FString.IsEmpty r = false ->
      FRewardGrantResult.ErrorCode
        (fst (GrantReward p r (grants gs (snd (Initialize URewardSystem.init)))))
      = "REWARD_CATALOG_NOT_FOUND").
Proof.
  unfold Initialize.
  destruct (LoadCatalogFromFile CatalogPath URewardSystem.init) as [b rs1] eqn:E.
  assert (fst (LoadCatalogFromFile CatalogPath URewardSystem.init) = b) as Hb
    by now rewrite E.
  assert (snd (LoadCatalogFromFile CatalogPath URewardSystem.init) = rs1) as Hs
    by now rewrite E.
  destruct b; simpl; [discriminate |]. intros _.
  destruct (failed_load CatalogPath URewardSystem.init Hb) as (Hl & _ & Hp).
  rewrite Hs in Hl, Hp. simpl in Hl, Hp.
  rewrite (grants_unloaded gs rs1 Hl).
  split; [reflexivity |]. split; [exact Hp |].
  now apply GrantReward_unloaded.
Qed.

End CatalogFacts.

(* ===================================================================== *)
(** * Properties of the API client and of the game instance *)
(* ===================================================================== *)

Section ClientFacts.
Context `{JsonEngine}.

Lemma SetEndpointURL_fields (URL : string) c :
  USessionAPIClient.EndpointURL (USessionAPIClient.SetEndpointURL URL c) = URL
  /\ USessionAPIClient.bMockMode (USessionAPIClient.SetEndpointURL URL c)
     = USessionAPIClient.bMockMode c && FString.IsEmpty URL.
Proof.
  unfold USessionAPIClient.SetEndpointURL.
  destruct (FString.IsEmpty URL); simpl; split; try reflexivity.
  - now rewrite andb_true_r.
  - now rewrite andb_false_r.
Qed.

Lemma last_cons_default {A} (l : list A) (a d : A) :
  List.last (a :: l) d = List.last l a.
Proof.
  revert a d. induction l as [|b l IH]; intros a d; [reflexivity |].
  change (List.last (a :: b :: l) d) with (List.last (b :: l) d).
  now rewrite !IH.
Qed.

(** X22: the mock mode of the API client is never restored: after any
    sequence of [SetEndpointURL] calls the client is in mock mode exactly
    when it was and every URL given was empty, its URL is the last one
    given, and [SendSessionSummary] and [SendInteractionEvent] succeed
    exactly in mock mode. So once a URL has been set every send fails,
    also after the URL is reset to the empty string. *)
Theorem mock_mode_is_never_restored (urls : list string) c Summary Event :
  USessionAPIClient.bMockMode (USessionAPIClient.SetEndpointURLs urls c)
  = USessionAPIClient.bMockMode c && forallb FString.IsEmpty urls
  /\ USessionAPIClient.EndpointURL (USessionAPIClient.SetEndpointURLs urls c)
     = List.last urls (USessionAPIClient.EndpointURL c)
  /\ USessionAPIClient.SendSessionSummary Summary
       (USessionAPIClient.SetEndpointURLs urls c)
     = USessionAPIClient.bMockMode c && forallb FString.IsEmpty urls
  /\ USessionAPIClient.SendInteractionEvent Event
       (USessionAPIClient.SetEndpointURLs urls c)
     = USessionAPIClient.bMockMode c && forallb FString.IsEmpty urls.
Proof.
  assert (USessionAPIClient.bMockMode (USessionAPIClient.SetEndpointURLs urls c)
          = USessionAPIClient.bMockMode c && forallb FString.IsEmpty urls
          /\ USessionAPIClient.EndpointURL (USessionAPIClient.SetEndpointURLs urls c)
             = List.last urls (USessionAPIClient.EndpointURL c)) as [Hm Hu].
  { revert c. induction urls as [|u urls IH]; intros c.
    - simpl. now rewrite andb_true_r.
    - change (USessionAPIClient.SetEndpointURLs (u :: urls) c)
        with (USessionAPIClient.SetEndpointURLs urls
                (USessionAPIClient.SetEndpointURL u c)).
      destruct (IH (USessionAPIClient.SetEndpointURL u c)) as [-> ->].
      destruct (SetEndpointURL_fields u c) as [-> ->].
      split; [simpl; now rewrite andb_assoc |]. now rewrite last_cons_default. }
  unfold USessionAPIClient.SendSessionSummary, USessionAPIClient.SendInteractionEvent.
  rewrite Hm, Hu.
  destruct (USessionAPIClient.bMockMode c && forallb FString.IsEmpty urls);
    now repeat split.
Qed.

End ClientFacts.

(* ===================================================================== *)
(** * Further properties of the admission path *)
(* ===================================================================== *)

Section AdmissionMore.
Context `{CatalogServices}.
Variable ParseOption : string -> string -> string.
Variable IsValid : nat -> bool.
Import FJWTClaims FJWTValidationResult CognitoConfig UJWTValidator AHMVRGameMode.

(** What an acceptance by [ValidateToken] went through. *)
Lemma ValidateToken_accepts cfg UtcNow (Token : string) R :
  fst (ValidateToken cfg UtcNow Token R) = true ->
  exists h p s C,
    FString.IsEmpty Token = false
    /\ ParseToken Token = Some (h, p, s)
    /\ ParseClaims p (Claims R) = Some C
    /\ IsTokenExpired UtcNow (ExpirationTime C) = false
    /\ fst (ValidateClaims cfg C EmptyString) = true
    /\ ValidateToken cfg UtcNow Token R
       = (true, FJWTValidationResult.mk true EmptyString C).
Proof.
  unfold ValidateToken.
  destruct (FString.IsEmpty Token); [discriminate |].
  destruct (ParseToken Token) as [[[h p] s]|]; [| discriminate].
  destruct (ParseClaims p (Claims R)) as [C|] eqn:Hc; [| discriminate].
  destruct (IsTokenExpired UtcNow (ExpirationTime C)) eqn:He; [discriminate |].
  pose proof (ValidateClaims_pass cfg C EmptyString) as Hok.
  destruct (fst (ValidateClaims cfg C EmptyString)) eqn:Hv.
  - rewrite (Hok Logic.eq_refl).
    unfold VerifySignature. rewrite andb_false_r. intros _.
    exists h, p, s, C. now repeat split.
  - destruct (ValidateClaims cfg C EmptyString) as [[] msg]; discriminate.
Qed.

(** A refusal by [ValidateToken] comes with a message. *)
Lemma ValidateToken_refuses cfg UtcNow (Token : string) R :
  fst (ValidateToken cfg UtcNow Token R) = false ->
  FJWTValidationResult.ErrorMessage (snd (ValidateToken cfg UtcNow Token R))
  <> EmptyString.
Proof.
  unfold ValidateToken.
  destruct (FString.IsEmpty Token); [discriminate |].
  destruct (ParseToken Token) as [[[h p] s]|]; [| discriminate].
  destruct (ParseClaims p (Claims R)) as [C|]; [| discriminate].
  destruct (IsTokenExpired UtcNow (ExpirationTime C)); [discriminate |].
  pose proof (ValidateClaims_refusal cfg C EmptyString) as Hmsg.
  destruct (ValidateClaims cfg C EmptyString) as [[] msg]; simpl in *.
  - unfold VerifySignature. rewrite andb_false_r. discriminate.
  - intros _. now apply Hmsg.
Qed.

(** The two ways [ValidateJWTToken] ends for a token that is not empty. *)
Lemma ValidateJWTToken_cases cfg UtcNow exp0 iat0 (Token pid0 msg0 : string) :
  FString.IsEmpty Token = false ->
  (fst (ValidateToken cfg UtcNow Token (FJWTValidationResult.fresh exp0 iat0)) = true
   /\ FString.IsEmpty
        (Subject (Claims (snd (ValidateToken cfg UtcNow Token
                                 (FJWTValidationResult.fresh exp0 iat0))))) = false
   /\ ValidateJWTToken cfg UtcNow exp0 iat0 Token pid0 msg0
      = (true,
         Subject (Claims (snd (ValidateToken cfg UtcNow Token
                                 (FJWTValidationResult.fresh exp0 iat0)))),
         msg0))
  \/ (fst (ValidateToken cfg UtcNow Token (FJWTValidationResult.fresh exp0 iat0)) = false
      /\ exists msg, msg <> EmptyString
           /\ ValidateJWTToken cfg UtcNow exp0 iat0 Token pid0 msg0 = (false, pid0, msg)).
Proof.
  intros Hne. unfold ValidateJWTToken. rewrite Hne.
  destruct (fst (ValidateToken cfg UtcNow Token (FJWTValidationResult.fresh exp0 iat0)))
    eqn:Hv.
  - left. destruct (ValidateToken_accepts _ _ _ _ Hv) as (h & p & s & C & _ & _ & _ & _ & Hc & ->).
    apply ValidateClaims_true in Hc. destruct Hc as (_ & _ & _ & Hsub).
    simpl. rewrite Hsub. now repeat split.
  - right. split; [reflexivity |].
    pose proof (ValidateToken_refuses _ _ _ _ Hv) as Hmsg.
    destruct (ValidateToken cfg UtcNow Token (FJWTValidationResult.fresh exp0 iat0))
      as [ok R']. simpl in Hv. subst ok. simpl.
    exists (FJWTValidationResult.ErrorMessage R'). now split.
Qed.

(** X23: the client and the server read the same player id from a token:
    [SetJWTToken] always stores the token; it keeps the former player id
    when the token cannot be decoded; and for every token that the server's
    [ValidateJWTToken] accepts, under any configuration and at any time, it
    stores the player id the server extracts. *)
Theorem client_and_server_agree_on_player_id (Token : string) (e i : Z) gi :
  UHMVRGameInstance.JWTToken (UHMVRGameInstance.SetJWTToken Token e i gi) = Token
  /\ (DecodeToken Token (FJWTClaims.fresh e i) = None ->
      UHMVRGameInstance.PlayerId (UHMVRGameInstance.SetJWTToken Token e i gi)
      = UHMVRGameInstance.PlayerId gi)
  /\ (forall cfg UtcNow exp0 iat0 pid0 msg0 pid msg,
        ValidateJWTToken cfg UtcNow exp0 iat0 Token pid0 msg0 = (true, pid, msg) ->
        UHMVRGameInstance.PlayerId (UHMVRGameInstance.SetJWTToken Token e i gi) = pid).
Proof.
  unfold UHMVRGameInstance.SetJWTToken. split; [| split].
  - now destruct (DecodeToken Token (FJWTClaims.fresh e i)).
  - now intros ->.
  - intros cfg UtcNow exp0 iat0 pid0 msg0 pid msg Hv.
    destruct (FString.IsEmpty Token) eqn:Hne.
    { unfold ValidateJWTToken in Hv. rewrite Hne in Hv. discriminate. }
    destruct (ValidateJWTToken_cases cfg UtcNow exp0 iat0 Token pid0 msg0 Hne)
      as [(Hok & _ & E) | (_ & m & _ & E)]; rewrite E in Hv; [| discriminate].
    injection Hv as <- _.
    destruct (ValidateToken_accepts _ _ _ _ Hok)
      as (h & p & s & C & _ & Hp & Hc & _ & _ & ->).
    unfold DecodeToken. rewrite Hp. simpl.
    unfold ParseClaims in *.
    destruct (DecodeBase64URL p) as [js|]; [| discriminate].
    destruct (Deserialize js) as [obj|]; [| discriminate].
    injection Hc as <-. reflexivity.
Qed.

Lemma PreLogin_After cfg UtcNow exp0 iat0 NewGuid Options msg0 gm :
  After (PreLogin ParseOption IsValid cfg UtcNow exp0 iat0 NewGuid Options msg0 gm) = gm
  \/ (bGameLiftInitialized gm = true
      /\ bGameLiftProcessReady gm = true
      /\ FString.IsEmpty (ParseOption Options "PlayerSessionId") = false
      /\ ErrorMessage
           (PreLogin ParseOption IsValid cfg UtcNow exp0 iat0 NewGuid Options msg0 gm)
         = msg0
      /\ After (PreLogin ParseOption IsValid cfg UtcNow exp0 iat0 NewGuid Options msg0 gm)
         = set_PlayerSessionMap
             (TMap.Add (ParseOption Options "PlayerSessionId") NewGuid
                (PlayerSessionMap gm)) gm).
Proof.
  unfold PreLogin.
  destruct (negb (CanAcceptNewPlayer IsValid gm)); [now left |].
  destruct (FString.IsEmpty (ParseOption Options "Token")) eqn:Hne; [now left |].
  destruct (ValidateJWTToken_cases cfg UtcNow exp0 iat0 (ParseOption Options "Token")
              EmptyString msg0 Hne) as [(_ & _ & ->) | (_ & m & _ & ->)]; [| now left].
  destruct (bGameLiftInitialized gm) eqn:Hi; [| now left].
  destruct (FString.IsEmpty (ParseOption Options "PlayerSessionId")) eqn:Hs;
    [now left |]. simpl.
  unfold ValidatePlayerSession, AcceptPlayerSession. rewrite Hs, Hi. simpl.
  destruct (bGameLiftProcessReady gm); simpl; [right; now repeat split | now left].
Qed.

(** X24: [PreLogin] lets a connection through, that is, leaves empty an
    error message it received empty, exactly when there is room, the
    token of the options passes [ValidateToken], and, on a fleet, the
    options carry a player session id and the process is ready. *)
Theorem prelogin_admits_exactly_when cfg UtcNow exp0 iat0 NewGuid Options gm :
  ErrorMessage
    (PreLogin ParseOption IsValid cfg UtcNow exp0 iat0 NewGuid Options EmptyString gm)
  = EmptyString
  <->
  GetCurrentPlayerCount IsValid gm < MaxPlayers gm
  /\ fst (ValidateToken cfg UtcNow (ParseOption Options "Token")
            (FJWTValidationResult.fresh exp0 iat0)) = true
  /\ (bGameLiftInitialized gm = true ->
      FString.IsEmpty (ParseOption Options "PlayerSessionId") = false
      /\ bGameLiftProcessReady gm = true).
Proof.
  unfold PreLogin, CanAcceptNewPlayer.
  destruct (GetCurrentPlayerCount IsValid gm <? MaxPlayers gm) eqn:Hroom; simpl.
  2:{ apply Z.ltb_ge in Hroom. split.
      - intros E. now destruct (append_not_empty _ _ _ E).
      - intros (Hlt & _). lia. }
  apply Z.ltb_lt in Hroom.
  destruct (FString.IsEmpty (ParseOption Options "Token")) eqn:Hne.
  { split; [discriminate |]. intros (_ & Hv & _).
    apply ValidateToken_accepts in Hv. destruct Hv as (h & p & s & C & Hne' & _).
    congruence. }
  destruct (ValidateJWTToken_cases cfg UtcNow exp0 iat0 (ParseOption Options "Token")
              EmptyString EmptyString Hne) as [(Hv & _ & ->) | (Hv & m & Hm & ->)].
  2:{ simpl. split; [intros E; now destruct (Hm E) |]. intros (_ & Hv' & _). congruence. }
  destruct (bGameLiftInitialized gm) eqn:Hi.
  2:{ simpl. split; [| reflexivity]. intros _. repeat split; try assumption; discriminate. }
  destruct (FString.IsEmpty (ParseOption Options "PlayerSessionId")) eqn:Hs; simpl.
  { split; [discriminate |]. intros (_ & _ & Hfleet).
    destruct (Hfleet Logic.eq_refl) as [? _]. discriminate. }
  unfold ValidatePlayerSession. rewrite Hs, Hi. simpl.
  destruct (bGameLiftProcessReady gm); simpl.
  - split; [| reflexivity]. intros _. now repeat split.
  - split; [intros E; now destruct (append_not_empty _ _ _ E) |].
    intros (_ & _ & Hfleet). destruct (Hfleet Logic.eq_refl) as [_ ?]. discriminate.
Qed.

(** X25: [PreLogin] reserves no place: it changes no member of the game
    mode but the map of fleet player sessions: the array of connections,
    the two capacities and the two fleet flags are after it what they were
    before, so the answer of [CanAcceptNewPlayer] is the same after it as
    before, whatever its verdict. The map itself is left as it was, or, for
    a connection that is let through with the fleet initialised and ready
    and a player session id in the options, gets the one entry that maps
    this id to the identifier drawn. *)
Theorem prelogin_reserves_no_place cfg UtcNow exp0 iat0 NewGuid Options msg0 gm :
  After (PreLogin ParseOption IsValid cfg UtcNow exp0 iat0 NewGuid Options msg0 gm)
  = AHMVRGameMode.mk (MaxPlayers gm) (MinPlayers gm) (ConnectedPlayers gm)
      (bGameLiftInitialized gm) (bGameLiftProcessReady gm)
      (PlayerSessionMap
         (After (PreLogin ParseOption IsValid cfg UtcNow exp0 iat0 NewGuid Options
                   msg0 gm)))
  /\ (PlayerSessionMap
        (After (PreLogin ParseOption IsValid cfg UtcNow exp0 iat0 NewGuid Options
                  msg0 gm))
      = PlayerSessionMap gm
      \/ (bGameLiftInitialized gm = true
          /\ bGameLiftProcessReady gm = true
          /\ FString.IsEmpty (ParseOption Options "PlayerSessionId") = false
          /\ ErrorMessage
               (PreLogin ParseOption IsValid cfg UtcNow exp0 iat0 NewGuid Options
                  msg0 gm)
             = msg0
          /\ PlayerSessionMap
               (After (PreLogin ParseOption IsValid cfg UtcNow exp0 iat0 NewGuid
                         Options msg0 gm))
             = TMap.Add (ParseOption Options "PlayerSessionId") NewGuid
                 (PlayerSessionMap gm)))
  /\ ConnectedPlayers
       (After (PreLogin ParseOption IsValid cfg UtcNow exp0 iat0 NewGuid Options msg0 gm))
     = ConnectedPlayers gm
  /\ MaxPlayers
       (After (PreLogin ParseOption IsValid cfg UtcNow exp0 iat0 NewGuid Options msg0 gm))
     = MaxPlayers gm
  /\ CanAcceptNewPlayer IsValid
       (After (PreLogin ParseOption IsValid cfg UtcNow exp0 iat0 NewGuid Options msg0 gm))
     = CanAcceptNewPlayer IsValid gm
  /\ (After (PreLogin ParseOption IsValid cfg UtcNow exp0 iat0 NewGuid Options msg0 gm)
      <> gm ->
      bGameLiftInitialized gm = true /\ bGameLiftProcessReady gm = true
      /\ ErrorMessage
           (PreLogin ParseOption IsValid cfg UtcNow exp0 iat0 NewGuid Options msg0 gm)
         = msg0).
Proof.
  destruct (PreLogin_After cfg UtcNow exp0 iat0 NewGuid Options msg0 gm)
    as [-> | (Hi & Hr & Hs & Hm & ->)].
  - split; [now destruct gm |]. split; [now left |].
    split; [reflexivity |]. split; [reflexivity |]. split; [reflexivity |].
    intros Hneq. now destruct Hneq.
  - split; [reflexivity |].
    split; [right; now repeat split |].
    split; [reflexivity |]. split; [reflexivity |]. split; [reflexivity |].
    intros _. now repeat split.
Qed.

(** X26: a dedicated server never becomes a fleet server: after
    [InitGame], on a dedicated server or not, with the flags as the
    constructor left them, the fleet is not initialised; from then on
    [PreLogin] changes nothing in the game mode and never calls the
    reservation functions, [ValidatePlayerSession] refuses every id, and
    [AcceptPlayerSession] and [RemovePlayerSession] do nothing. *)
Theorem fleet_is_never_initialised DedicatedServer (Guid : string) (Now : Z) w
    cfg UtcNow exp0 iat0 NewGuid Options msg0 (Id msg : string) :
  bGameLiftInitialized (GameModeWorld.Mode w) = false ->
  let gm := GameModeWorld.Mode (GameModeWorld.InitGame DedicatedServer Guid Now w) in
  bGameLiftInitialized gm = false
  /\ After (PreLogin ParseOption IsValid cfg UtcNow exp0 iat0 NewGuid Options msg0 gm) = gm
  /\ (forall e,
        In e (Effects (PreLogin ParseOption IsValid cfg UtcNow exp0 iat0 NewGuid
                         Options msg0 gm)) ->
        e = DidValidateJWTToken (ParseOption Options "Token"))
  /\ fst (ValidatePlayerSession Id gm msg) = false
  /\ AcceptPlayerSession Id NewGuid gm = gm
  /\ GameModeWorld.RemovePlayerSession Id gm = gm.
Proof.
  intros Hctor gm.
  assert (bGameLiftInitialized gm = false) as Hi.
  { subst gm. unfold GameModeWorld.InitGame.
    destruct (GameModeWorld.RewardSystem w), DedicatedServer; simpl; try assumption;
      reflexivity. }
  split; [exact Hi |].
  split; [| split; [| split; [| split]]].
  - destruct (PreLogin_After cfg UtcNow exp0 iat0 NewGuid Options msg0 gm)
      as [-> | (Hi' & _)]; [reflexivity | congruence].
  - unfold PreLogin. rewrite Hi.
    destruct (negb (CanAcceptNewPlayer IsValid gm)); [intros e [] |].
    destruct (FString.IsEmpty (ParseOption Options "Token")); [intros e [] |].
    destruct (ValidateJWTToken _ _ _ _ _ _ _) as [[[] pid] m];
      intros e [<- | []]; reflexivity.
  - unfold ValidatePlayerSession. rewrite Hi.
    now destruct (FString.IsEmpty Id).
  - unfold AcceptPlayerSession. now rewrite Hi.
  - unfold GameModeWorld.RemovePlayerSession. rewrite Hi.
    now destruct (FString.IsEmpty Id).
Qed.

End AdmissionMore.

(* ===================================================================== *)
(** * Properties of the game mode: connections, sessions and rewards *)
(* ===================================================================== *)

Section WorldFacts.
Variable IsValid : nat -> bool.
Import AHMVRGameMode GameModeWorld USessionManager WorldShapes.

Lemma OnPlayerJoined_eq p pg sg eg t1 t2 w (m : Sessions) :
  SessionManager w = Some m ->
  OnPlayerJoined (Some p) pg sg eg t1 t2 w
  = GameModeWorld.mk (Mode w) (Some (TMap.Add sg (JoinedSession pg sg eg t1 t2 w) m))
      (RewardSystem w) (SessionAPIClient w) (TMap.Add pg sg (PlayerToSessionMap w))
      (CurrentSessionId w) (SessionStartTime w).
Proof.
  intros Hm. unfold OnPlayerJoined. rewrite Hm.
  unfold CreateSession, StartSession, TransitionState, TrackEvent. simpl.
  rewrite Find_Add_same. simpl.
  rewrite Find_Add_same. simpl.
  unfold set_SessionManager, set_PlayerToSessionMap. simpl.
  now rewrite !Add_Add.
Qed.

(** X27: [PostLogin] admits without looking at the capacity: the player is
    appended to the connections, so the count of live connections grows by
    one for a live controller whatever [MaxPlayers] is, and the player gets
    a session of its own, already active, whose only event is the join
    event, filed in the manager under the session id drawn and in the map
    of the game mode under the player id drawn. *)
Theorem post_login_opens_active_session p pg sg eg t1 t2 w (m : Sessions) :
  SessionManager w = Some m ->
  PostLogin (Some p) pg sg eg t1 t2 w
  = GameModeWorld.mk
      (set_ConnectedPlayers (ConnectedPlayers (Mode w) ++ [p]) (Mode w))
      (Some (TMap.Add sg (JoinedSession pg sg eg t1 t2 w) m))
      (RewardSystem w) (SessionAPIClient w) (TMap.Add pg sg (PlayerToSessionMap w))
      (CurrentSessionId w) (SessionStartTime w)
  /\ GetCurrentPlayerCount IsValid (Mode (PostLogin (Some p) pg sg eg t1 t2 w))
     = GetCurrentPlayerCount IsValid (Mode w) + (if IsValid p then 1 else 0)
  /\ MaxPlayers (Mode (PostLogin (Some p) pg sg eg t1 t2 w)) = MaxPlayers (Mode w).
Proof.
  intros Hm. unfold PostLogin.
  rewrite (OnPlayerJoined_eq p pg sg eg t1 t2 _ m) by exact Hm.
  split; [reflexivity |]. split; [| reflexivity]. simpl.
  rewrite !GetCurrentPlayerCount_filter. simpl.
  rewrite List.filter_app, length_app. simpl.
  destruct (IsValid p); simpl; lia.
Qed.

Lemma TrackEvent_active id ty d g now (m : Sessions) s :
  TMap.Find m id = Some s -> FPlayerSession.State s = ACTIVE ->
  TrackEvent id ty d g now m
  = TMap.Add id
      (FPlayerSession.set_Events
         (FPlayerSession.Events s
          ++ [FInteractionEvent.mk g now (FPlayerSession.PlayerId s) ty d 0]) s) m.
Proof. intros Hf Hs. unfold TrackEvent. now rewrite Hf, Hs. Qed.

Lemma OnPlayerLeft_unknown c pg eg t1 t2 t3 t4 w :
  TMap.Find (PlayerToSessionMap w) pg = None ->
  OnPlayerLeft c pg eg t1 t2 t3 t4 w = (w, None).
Proof.
  intros Hf. unfold OnPlayerLeft. rewrite Hf.
  now destruct c, (SessionManager w), (SessionAPIClient w).
Qed.

(** X28: what [OnPlayerLeft] does for a player id that the game mode maps
    to a stored, active session: the session is ended at the clock reading
    of [EndSession] and stamped with the TTL, its events (the leave event
    included) are discarded without having been handed to the API client,
    the summary handed to the client carries the rewards and the two times
    of the session, the answer of the client is its mock mode, and the
    player id is removed from the map. *)
Theorem player_left_closes_session c pg eg t1 t2 t3 t4 w (m : Sessions) api sid s :
  SessionManager w = Some m ->
  SessionAPIClient w = Some api ->
  TMap.Find (PlayerToSessionMap w) pg = Some sid ->
  TMap.Find m sid = Some s ->
  FPlayerSession.State s = ACTIVE ->
  OnPlayerLeft (Some c) pg eg t1 t2 t3 t4 w
  = (GameModeWorld.mk (Mode w) (Some (TMap.Add sid (ClosedSession s t2) m))
       (RewardSystem w) (Some api) (TMapMore.Remove pg (PlayerToSessionMap w))
       (CurrentSessionId w) (SessionStartTime w),
     Some (SummaryOf s t2, USessionAPIClient.bMockMode api)).
Proof.
  intros Hm Hapi Hmap Hs Hact. unfold OnPlayerLeft. rewrite Hm, Hapi, Hmap.
  rewrite (TrackEvent_active sid _ _ _ _ m s Hs Hact).
  erewrite EndSession_active; [| apply Find_Add_same | exact Hact].
  cbn [snd]. rewrite Add_Add.
  unfold GenerateSessionSummary, DiscardSessionState. rewrite !Find_Add_same.
  rewrite Add_Add.
  unfold set_SessionManager, set_PlayerToSessionMap, USessionAPIClient.SendSessionSummary,
    ClosedSession, SummaryOf.
  cbn. rewrite Hapi. now destruct (USessionAPIClient.bMockMode api).
Qed.

Lemma filter_out_last (l : list nat) (p : nat) :
  List.filter (fun q => negb (Nat.eqb q p)) (l ++ [p])
  = List.filter (fun q => negb (Nat.eqb q p)) l.
Proof.
  rewrite List.filter_app. simpl. rewrite Nat.eqb_refl. simpl. apply app_nil_r.
Qed.

Lemma RemovePlayerSession_ConnectedPlayers Key gm :
  ConnectedPlayers (RemovePlayerSession Key gm) = ConnectedPlayers gm.
Proof.
  unfold RemovePlayerSession.
  destruct (FString.IsEmpty Key); [reflexivity |].
  now destruct (negb (bGameLiftInitialized gm) || negb (bGameLiftProcessReady gm)).
Qed.

(** X29: a player who logs out under a player id other than the one drawn
    at login, and unknown to the map of the game mode, keeps the session:
    after [PostLogin] and then [Logout] of the same controller, the
    connection is gone from the array, but no summary has been sent, the
    map still holds the entry of the login, and the session of the login is
    still stored and still active. Both functions draw the id afresh. *)
Theorem logout_under_new_id_leaves_session_open
    p pg sg eg t1 t2 FirstEntry pg' eg' t3 t4 t5 t6 w (m : Sessions) :
  SessionManager w = Some m ->
  FString.key pg' <> FString.key pg ->
  TMap.Find (PlayerToSessionMap w) pg' = None ->
  let w1 := PostLogin (Some p) pg sg eg t1 t2 w in
  let r := Logout (Some (APlayerController p)) FirstEntry pg' eg' t3 t4 t5 t6 w1 in
  snd r = None
  /\ ConnectedPlayers (Mode (fst r))
     = List.filter (fun q => negb (Nat.eqb q p)) (ConnectedPlayers (Mode w))
  /\ TMap.Find (PlayerToSessionMap (fst r)) pg = Some sg
  /\ SessionManager (fst r)
     = Some (TMap.Add sg (JoinedSession pg sg eg t1 t2 w) m)
  /\ GetSessionState sg (TMap.Add sg (JoinedSession pg sg eg t1 t2 w) m) = ACTIVE.
Proof.
  intros Hm Hneq Hnone w1 r. subst r w1. unfold PostLogin.
  rewrite (OnPlayerJoined_eq p pg sg eg t1 t2 _ m) by exact Hm.
  unfold Logout. rewrite OnPlayerLeft_unknown.
  2:{ simpl. unfold TMap.Find, TMap.Add. rewrite lookup_insert_ne by congruence.
      exact Hnone. }
  simpl. split; [reflexivity |]. split; [| split; [| split]].
  - destruct FirstEntry as [Key|]; simpl;
      [rewrite RemovePlayerSession_ConnectedPlayers |]; simpl; apply filter_out_last.
  - apply Find_Add_same.
  - reflexivity.
  - unfold GetSessionState. now rewrite Find_Add_same.
Qed.

Lemma GrantRewardToPlayer_RewardSystem p r pg eg now w rs (m : Sessions) :
  RewardSystem w = Some rs ->
  SessionManager w = Some m ->
  FString.IsEmpty r = false ->
  RewardSystem (GrantRewardToPlayer (Some p) r pg eg now w)
  = Some (snd (URewardSystem.GrantReward pg r rs))
  /\ (exists m', SessionManager (GrantRewardToPlayer (Some p) r pg eg now w) = Some m')
  /\ (TMap.Find (PlayerToSessionMap w) pg = None ->
      SessionManager (GrantRewardToPlayer (Some p) r pg eg now w) = Some m).
Proof.
  intros Hrs Hm Hr. unfold GrantRewardToPlayer. rewrite Hrs, Hm, Hr.
  destruct (URewardSystem.GrantReward pg r rs) as [Result rs'].
  destruct (FRewardGrantResult.bSuccess Result); simpl.
  - destruct (TMap.Find (PlayerToSessionMap w) pg); simpl.
    + split; [reflexivity |]. split; [eauto | discriminate].
    + rewrite Hm. split; [reflexivity |]. split; [eauto | reflexivity].
  - rewrite Hm. split; [reflexivity |]. split; [eauto | reflexivity].
Qed.

(** X30: the reward system grants a reward to a player id at most once,
    but [GrantRewardToPlayer] draws the player id at each call: two calls
    for the same controller and the same reward of the catalog, under two
    ids the ledger has not seen, are both granted, each id ends up holding
    the reward, and the sessions see neither grant when the map of the game
    mode knows neither id. *)
Theorem grant_to_player_is_repeatable
    p r pg1 eg1 now1 pg2 eg2 now2 w rs (m : Sessions) :
  RewardSystem w = Some rs ->
  SessionManager w = Some m ->
  URewardSystem.IsValidRewardId r rs = true ->
  FString.IsEmpty r = false ->
  FString.IsEmpty pg1 = false ->
  FString.IsEmpty pg2 = false ->
  FString.key pg1 <> FString.key pg2 ->
  TMap.Find (URewardSystem.PlayerRewards rs) pg1 = None ->
  TMap.Find (URewardSystem.PlayerRewards rs) pg2 = None ->
  TMap.Find (PlayerToSessionMap w) pg1 = None ->
  TMap.Find (PlayerToSessionMap w) pg2 = None ->
  let w2 :=
    GrantRewardToPlayer (Some p) r pg2 eg2 now2
      (GrantRewardToPlayer (Some p) r pg1 eg1 now1 w) in
  (exists rs2,
     RewardSystem w2 = Some rs2
     /\ URewardSystem.GetPlayerRewards pg1 rs2 = [r]
     /\ URewardSystem.GetPlayerRewards pg2 rs2 = [r])
  /\ SessionManager w2 = Some m.
Proof.
  intros Hrs Hm Hvalid Hr Hp1 Hp2 Hneq Hn1 Hn2 Hm1 Hm2 w2. subst w2.
  destruct (GrantRewardToPlayer_RewardSystem p r pg1 eg1 now1 w rs m Hrs Hm Hr)
    as (Hrs1 & _ & Hs1).
  specialize (Hs1 Hm1).
  assert (PlayerToSessionMap (GrantRewardToPlayer (Some p) r pg1 eg1 now1 w)
          = PlayerToSessionMap w) as Hmap1.
  { unfold GrantRewardToPlayer. rewrite Hrs, Hm, Hr.
    destruct (URewardSystem.GrantReward pg1 r rs) as [Result rs'].
    destruct (FRewardGrantResult.bSuccess Result); simpl; [| reflexivity].
    now destruct (TMap.Find (PlayerToSessionMap w) pg1). }
  destruct (GrantRewardToPlayer_RewardSystem p r pg2 eg2 now2 _ _ m Hrs1 Hs1 Hr)
    as (Hrs2 & _ & Hs2).
  rewrite Hmap1 in Hs2. specialize (Hs2 Hm2).
  split; [| exact Hs2].
  eexists. split; [exact Hrs2 |].
  assert (URewardSystem.bCatalogLoaded rs = true) as Hl.
  { unfold URewardSystem.IsValidRewardId in Hvalid.
    now destruct (URewardSystem.bCatalogLoaded rs). }
  assert (snd (URewardSystem.GrantReward pg1 r rs)
          = URewardSystem.mk (URewardSystem.Catalog rs)
              (TMap.Add pg1 [r] (URewardSystem.PlayerRewards rs)) true) as E1.
  { unfold URewardSystem.GrantReward, URewardSystem.FindOrAdd.
    rewrite Hp1, Hr, Hl, Hvalid, Hn1. simpl. now rewrite Add_Add. }
  rewrite E1.
  assert (URewardSystem.IsValidRewardId r
            (URewardSystem.mk (URewardSystem.Catalog rs)
               (TMap.Add pg1 [r] (URewardSystem.PlayerRewards rs)) true) = true) as Hvalid'.
  { unfold URewardSystem.IsValidRewardId in *. rewrite Hl in Hvalid. exact Hvalid. }
  unfold URewardSystem.GrantReward, URewardSystem.FindOrAdd.
  rewrite Hp2, Hr, Hvalid'. simpl.
  rewrite Find_Add_other by congruence. rewrite Hn2. simpl.
  rewrite Add_Add. unfold URewardSystem.GetPlayerRewards. simpl.
  rewrite Find_Add_same.
  rewrite Find_Add_other by congruence. now rewrite Find_Add_same.
Qed.

End WorldFacts.

(* ===================================================================== *)
(** * The further properties on the sample data *)
(* ===================================================================== *)

Section MoreRuns.
Import Samples MoreSamples.

(** X1, witness: ending the first of two sessions leaves the second one as
    it was. *)
Lemma call_leaves_other_sessions_witness :
  USessionManager.exec (USessionManager.CallEndSession "session-1" (at_unix 1700003600))
    two_sessions !! "session-2"
  = two_sessions !! "session-2".
Proof.
  apply call_leaves_other_sessions.
  intros id E. vm_compute in E. injection E as <-. vm_compute. discriminate.
Defined.

(** X2, witness: the first session through the rest of [busy_calls]. *)
Lemma session_only_moves_forward_witness :
  exists s',
    USessionManager.run (tl busy_calls) created !! "session-1" = Some s'
    /\ SessionCalls.Extends created_session s'.
Proof.
  apply session_only_moves_forward.
  - vm_compute. reflexivity.
  - unfold busy_calls. simpl tl.
    repeat (constructor; [first [exact I | vm_compute; discriminate] |]).
    constructor.
Defined.

(** X3, witness: the reward given twice to the first session of
    [busy_calls] is held once. *)
Lemma session_rewards_hold_no_id_twice_witness :
  (count_occ string_dec (FPlayerSession.Rewards busy_session) "sword_of_dawn" <= 1)%nat.
Proof.
  destruct (session_rewards_hold_no_id_twice busy_calls "session-1" busy_session)
    as (_ & Hone & _).
  - vm_compute. reflexivity.
  - apply Hone.
Defined.

(** X4, witness: the first session of [busy_calls], asked for in capital
    letters. *)
Lemma stored_session_is_coherent_witness :
  FString.eq (FPlayerSession.SessionId busy_session) "SESSION-1" = true.
Proof.
  destruct (stored_session_is_coherent busy_calls "SESSION-1" busy_session)
    as (Hid & _).
  - vm_compute. reflexivity.
  - exact Hid.
Defined.

(** X9, witness: the token with [payload_full] and the same payload
    between another header and another signature. *)
Lemma header_and_signature_are_ignored_witness :
  UJWTValidator.ValidateToken (H := RefEngine.engine) production (at_unix 1800000000)
    (token payload_full) (FJWTValidationResult.fresh 0 0)
  = UJWTValidator.ValidateToken (H := RefEngine.engine) production (at_unix 1800000000)
      (UJWTValidator.join3 "x" payload_full "y") (FJWTValidationResult.fresh 0 0).
Proof.
  destruct (header_and_signature_are_ignored (H := RefEngine.engine)
              production (at_unix 1800000000)
              (token payload_full) (UJWTValidator.join3 "x" payload_full "y")
              header "x" payload_full signature "y"
              (FJWTValidationResult.fresh 0 0) (FJWTClaims.fresh 0 0)) as (E & _).
  - vm_compute. reflexivity.
  - vm_compute. reflexivity.
  - exact E.
Defined.

(** X12, witness: a token that expires at 2000000000, at that second and
    one second later. *)
Lemma expired_token_stays_expired_witness :
  UJWTValidator.IsTokenExpired (at_unix 2000000001) 2000000000 = true.
Proof.
  destruct (expired_token_stays_expired (at_unix 2000000000) (at_unix 2000000001)
              2000000000) as (_ & Hlater).
  - vm_compute. discriminate.
  - vm_compute. discriminate.
  - vm_compute. discriminate.
  - apply Hlater. vm_compute. reflexivity.
Defined.


(** X16, witness: a reward held before two further grants. *)
Lemma rewards_are_never_revoked_witness :
  URewardSystem.HasReward "p1" "sword_of_dawn"
    (URewardSystem.grants [("p1", "shield_basic"); ("p2", "sword_of_dawn")]
       (snd (URewardSystem.GrantReward "p1" "sword_of_dawn" ledger)))
  = true.
Proof.
  apply rewards_are_never_revoked. vm_compute. reflexivity.
Defined.

(** X17, witness: a reward held after grants on the sample catalog, one of
    them for an id the catalog does not have. *)
Lemma ledger_holds_catalog_rewards_only_witness :
  URewardSystem.IsValidRewardId "sword_of_dawn" (URewardSystem.mk catalog ∅ true) = true.
Proof.
  apply (ledger_holds_catalog_rewards_only
           [("p1", "nonexistent"); ("p1", "sword_of_dawn")] catalog true
           "p1" "sword_of_dawn").
  vm_compute. left. reflexivity.
Defined.

(** X18, witness: a reward granted in small letters and asked for again in
    capital letters. *)
Lemma ids_are_compared_ignoring_case_witness :
  FRewardGrantResult.ErrorCode
    (fst (URewardSystem.GrantReward "P1" "SWORD_OF_DAWN"
            (snd (URewardSystem.GrantReward "p1" "sword_of_dawn" ledger))))
  = "REWARD_ALREADY_GRANTED".
Proof.
  destruct (ids_are_compared_ignoring_case "p1" "P1" "sword_of_dawn" "SWORD_OF_DAWN"
              ledger) as (_ & _ & _ & _ & _ & Hagain).
  - vm_compute. reflexivity.
  - vm_compute. reflexivity.
  - apply Hagain. vm_compute. reflexivity.
Defined.

(** X19, witness: reading [broken.json] after [catalog.json]. *)
Lemma failed_load_keeps_catalog_in_force_witness :
  URewardSystem.bCatalogLoaded
    (snd (CatalogLoader.LoadCatalogFromFile (H0 := RefCatalog.services "catalog.json")
            "broken.json" loaded_system))
  = true
  /\ URewardSystem.IsValidRewardId "shield_basic"
       (snd (CatalogLoader.LoadCatalogFromFile (H0 := RefCatalog.services "catalog.json")
               "broken.json" loaded_system))
     = true.
Proof.
  destruct (failed_load_keeps_catalog_in_force
              (H0 := RefCatalog.services "catalog.json") "broken.json" loaded_system)
    as (Hflag & _ & _ & Hvalid).
  - vm_compute. reflexivity.
  - rewrite Hflag, Hvalid. split; vm_compute; reflexivity.
Defined.

(** X20, witness: reading [catalog.json] into a new reward system. *)
Lemma successful_load_installs_objects_witness :
  URewardSystem.bCatalogLoaded
    (snd (CatalogLoader.LoadCatalogFromFile (H0 := RefCatalog.services "catalog.json")
            "catalog.json" URewardSystem.init))
  = true.
Proof.
  destruct (successful_load_installs_objects
              (H0 := RefCatalog.services "catalog.json") "catalog.json"
              URewardSystem.init) as (Hflag & _).
  - vm_compute. reflexivity.
  - exact Hflag.
Defined.

(** X21, witness: [Initialize] when the catalog file is missing. *)
Lemma failed_initialize_refuses_every_grant_witness :
  FRewardGrantResult.ErrorCode
    (fst (URewardSystem.GrantReward "p1" "sword_of_dawn"
            (URewardSystem.grants [("p2", "shield_basic")]
               (snd (CatalogLoader.Initialize
                       (H0 := RefCatalog.services "missing.json")
                       URewardSystem.init)))))
  = "REWARD_CATALOG_NOT_FOUND".
Proof.
  destruct (failed_initialize_refuses_every_grant
              (H0 := RefCatalog.services "missing.json")
              [("p2", "shield_basic")] "p1" "sword_of_dawn") as (_ & _ & Hcode).
  - vm_compute. reflexivity.
  - apply Hcode; vm_compute; reflexivity.
Defined.

(** X26, witness: a connection with a valid token on the sample shard. *)
Lemma fleet_is_never_initialised_witness :
  AHMVRGameMode.After
    (AHMVRGameMode.PreLogin (H := RefCatalog.json) token_option alive production
       (at_unix 1800000000) 0 0 "guid-1" (token payload_full) ""
       (GameModeWorld.Mode shard))
  = GameModeWorld.Mode shard.
Proof.
  destruct (fleet_is_never_initialised (H0 := RefCatalog.services "catalog.json")
              token_option alive true "shard-1" (at_unix 1700000000)
              GameModeWorld.ctor production (at_unix 1800000000) 0 0 "guid-1"
              (token payload_full) "" "player-session-1" "") as (_ & Hafter & _).
  - vm_compute. reflexivity.
  - exact Hafter.
Defined.

(** X27, witness: the first player of the sample shard. *)
Lemma post_login_opens_active_session_witness :
  AHMVRGameMode.GetCurrentPlayerCount alive (GameModeWorld.Mode shard_with_player) = 1
  /\ USessionManager.GetSessionState "session-guid-1" shard_sessions = ACTIVE.
Proof.
  destruct (post_login_opens_active_session alive 1%nat "player-guid-1" "session-guid-1"
              "event-guid-1" (at_unix 1700000010) (at_unix 1700000011) shard ∅)
    as (Hw & Hcount & _).
  - vm_compute. reflexivity.
  - unfold shard_sessions, shard_with_player. rewrite Hcount, Hw.
    split; vm_compute; reflexivity.
Defined.

(** X28, witness: the player of the sample shard leaves under the player
    id of the login. *)
Lemma player_left_closes_session_witness :
  snd (GameModeWorld.OnPlayerLeft (Some (APlayerController 1)) "player-guid-1"
         "event-guid-2" (at_unix 1700000020) (at_unix 1700000021) (at_unix 1700000022)
         (at_unix 1700000023) shard_with_player)
  = Some (FPlayerSessionSummary.mk "session-guid-1" "player-guid-1" []
            (at_unix 1700000010) (at_unix 1700000021),
          true).
Proof.
  rewrite (player_left_closes_session (APlayerController 1) "player-guid-1"
             "event-guid-2" (at_unix 1700000020) (at_unix 1700000021)
             (at_unix 1700000022) (at_unix 1700000023) shard_with_player shard_sessions
             USessionAPIClient.ctor "session-guid-1"
             (WorldShapes.JoinedSession "player-guid-1" "session-guid-1" "event-guid-1"
                (at_unix 1700000010) (at_unix 1700000011) shard)).
  - vm_compute. reflexivity.
  - vm_compute. reflexivity.
  - vm_compute. reflexivity.
  - vm_compute. reflexivity.
  - vm_compute. reflexivity.
  - reflexivity.
Defined.

(** X29, witness: the player of the sample shard logs out, and the id
    drawn is another one. *)
Lemma logout_under_new_id_leaves_session_open_witness :
  snd (GameModeWorld.Logout (Some (APlayerController 1)) None "player-guid-2"
         "event-guid-2" (at_unix 1700000020) (at_unix 1700000021) (at_unix 1700000022)
         (at_unix 1700000023) shard_with_player)
  = None
  /\ USessionManager.GetSessionState "session-guid-1"
       (TMap.Add "session-guid-1"
          (WorldShapes.JoinedSession "player-guid-1" "session-guid-1" "event-guid-1"
             (at_unix 1700000010) (at_unix 1700000011) shard) ∅)
     = ACTIVE.
Proof.
  destruct (logout_under_new_id_leaves_session_open 1%nat "player-guid-1"
              "session-guid-1" "event-guid-1" (at_unix 1700000010) (at_unix 1700000011)
              None "player-guid-2" "event-guid-2" (at_unix 1700000020)
              (at_unix 1700000021) (at_unix 1700000022) (at_unix 1700000023) shard ∅)
    as (Hnone & _ & _ & _ & Hactive).
  - vm_compute. reflexivity.
  - vm_compute. discriminate.
  - vm_compute. reflexivity.
  - split; [exact Hnone | exact Hactive].
Defined.

(** X30, witness: the same reward granted twice to the player of the sample
    shard. *)
Lemma grant_to_player_is_repeatable_witness :
  (exists rs2,
     GameModeWorld.RewardSystem
       (GameModeWorld.GrantRewardToPlayer (Some 1%nat) "sword_of_dawn" "grant-guid-2"
          "event-guid-4" (at_unix 1700000031)
          (GameModeWorld.GrantRewardToPlayer (Some 1%nat) "sword_of_dawn" "grant-guid-1"
             "event-guid-3" (at_unix 1700000030) shard_with_player))
     = Some rs2
     /\ URewardSystem.GetPlayerRewards "grant-guid-1" rs2 = ["sword_of_dawn"]
     /\ URewardSystem.GetPlayerRewards "grant-guid-2" rs2 = ["sword_of_dawn"])
  /\ GameModeWorld.SessionManager
       (GameModeWorld.GrantRewardToPlayer (Some 1%nat) "sword_of_dawn" "grant-guid-2"
          "event-guid-4" (at_unix 1700000031)
          (GameModeWorld.GrantRewardToPlayer (Some 1%nat) "sword_of_dawn" "grant-guid-1"
             "event-guid-3" (at_unix 1700000030) shard_with_player))
     = Some shard_sessions.
Proof.
  apply (grant_to_player_is_repeatable 1%nat "sword_of_dawn" "grant-guid-1"
           "event-guid-3" (at_unix 1700000030) "grant-guid-2" "event-guid-4"
           (at_unix 1700000031) shard_with_player loaded_system shard_sessions).
  - vm_compute. reflexivity.
  - vm_compute. reflexivity.
  - vm_compute. reflexivity.
  - vm_compute. reflexivity.
  - vm_compute. reflexivity.
  - vm_compute. reflexivity.
  - vm_compute. discriminate.
  - vm_compute. reflexivity.
  - vm_compute. reflexivity.
  - vm_compute. reflexivity.
  - vm_compute. reflexivity.
Defined.

End MoreRuns.
